(** * lrl-rts-utils: a shallow embedding of the synchronisation core

    The development follows the Python sources

    - [rtsutils/go/__init__.py]                (module [Go]),
    - [rtsutils/cavi/jython/jutil.py]          (module [Jutil]),
    - [rtsutils/cavi/jython/ui/cumulus.py]     (module [Cumulus]),
    - [watershed_scripts/access_water_extract.py] (module [AccessWater]),

    and states the properties of the specification against them.  Python
    exceptions are values of [exn], fallible code lives in [result], and
    code with side effects threads its state explicitly. *)

From stdpp Require Import gmap strings list.
From Stdlib Require Import ZArith Ascii String List Lia Bool DecimalString.
Import ListNotations.

Local Open Scope string_scope.
Local Open Scope list_scope.
Local Open Scope Z_scope.

Set Warnings "-register-all".

(** [simpl] may unfold [++] on a string that starts with a character. *)
#[local] Arguments String.append !_ _ /.

(* ===================================================================== *)
(** * Python basics: exceptions, results, strings                          *)
(* ===================================================================== *)

Module Py.

(** The exceptions the modelled code can raise. *)
Inductive exn : Type :=
| KeyError (key : string)
| IndexError
| ValueError (msg : string)
| AttributeError (msg : string)
| TypeError (msg : string)
| OverflowError
| UnicodeDecodeError
| Exception_ (msg : string)
| CumulusConnectionError (msg : string)
| JavaException (msg : string).

Inductive result (A : Type) : Type :=
| Ok (a : A)
| Raise (e : exn).
Arguments Ok {A} a.
Arguments Raise {A} e.

Definition bind {A B} (m : result A) (k : A -> result B) : result B :=
  match m with
  | Ok a => k a
  | Raise e => Raise e
  end.

Definition is_ok {A} (m : result A) : bool :=
  match m with Ok _ => true | Raise _ => false end.

(** ** Characters *)

Definition is_digit (c : ascii) : bool :=
  let n := nat_of_ascii c in (48 <=? n)%nat && (n <=? 57)%nat.

Definition digit_val (c : ascii) : Z := Z.of_nat (nat_of_ascii c) - 48.

Definition is_upper (c : ascii) : bool :=
  let n := nat_of_ascii c in (65 <=? n)%nat && (n <=? 90)%nat.

Definition is_lower (c : ascii) : bool :=
  let n := nat_of_ascii c in (97 <=? n)%nat && (n <=? 122)%nat.

Definition to_lower (c : ascii) : ascii :=
  if is_upper c then ascii_of_nat (nat_of_ascii c + 32) else c.

Definition to_upper (c : ascii) : ascii :=
  if is_lower c then ascii_of_nat (nat_of_ascii c - 32) else c.

(** Sets of characters, as the classes of a regular expression. *)
Definition char_class : Type := ascii -> bool.

Definition between (lo hi : ascii) : char_class :=
  fun c => (nat_of_ascii lo <=? nat_of_ascii c)%nat && (nat_of_ascii c <=? nat_of_ascii hi)%nat.

(** a letter in either case *)
Definition same_letter (a : ascii) : char_class :=
  fun c => Ascii.eqb (to_lower a) (to_lower c).

Definition digit : char_class := between "0" "9".

(** [str.isspace] for one character: space, \t, \n, \v, \f, \r. *)
Definition is_space (c : ascii) : bool :=
  let n := nat_of_ascii c in
  (n =? 32)%nat || ((9 <=? n)%nat && (n <=? 13)%nat).

(** ** Strings *)

Fixpoint all_chars (p : ascii -> bool) (s : string) : bool :=
  match s with
  | EmptyString => true
  | String c s' => p c && all_chars p s'
  end.

(** [s.startswith(p)] *)
Fixpoint startswith (p s : string) : bool :=
  match p with
  | EmptyString => true
  | String a p' =>
      match s with
      | String b s' => Ascii.eqb a b && startswith p' s'
      | EmptyString => false
      end
  end.

(** [sub in s] *)
Fixpoint contains (sub s : string) : bool :=
  startswith sub s ||
  match s with
  | EmptyString => false
  | String _ s' => contains sub s'
  end.

Fixpoint drop (n : nat) (s : string) : string :=
  match n, s with
  | O, _ => s
  | S n', String _ s' => drop n' s'
  | S _, EmptyString => EmptyString
  end.

(** [s[-n:]] *)
Definition last_chars (n : nat) (s : string) : string :=
  drop (String.length s - n) s.

(** the last character of [s], when there is one *)
Fixpoint last_char (s : string) : option ascii :=
  match s with
  | EmptyString => None
  | String c EmptyString => Some c
  | String _ s' => last_char s'
  end.

(** [s.split(sep)] for a non-empty separator: the separators are the
    occurrences of [sep] met scanning from the left, none overlapping the
    one before it.  [cur] is the piece being read and [skip] counts the
    characters of a separator still to pass. *)
Fixpoint split_from (sep s cur : string) (skip : nat) : list string :=
  match s with
  | EmptyString => [cur]
  | String c s' =>
      match skip with
      | S k => split_from sep s' cur k
      | O =>
          if startswith sep s
          then cur :: split_from sep s' EmptyString (String.length sep - 1)
          else split_from sep s' (cur ++ String c EmptyString) O
      end
  end.

Definition split (sep s : string) : list string := split_from sep s EmptyString O.

(** [l[-1]] *)
Fixpoint last_item {A} (l : list A) : result A :=
  match l with
  | [] => Raise IndexError
  | [x] => Ok x
  | _ :: l' => last_item l'
  end.

(** [l[i]] for a non-negative index *)
Definition index {A} (l : list A) (i : nat) : result A :=
  match nth_error l i with
  | Some x => Ok x
  | None => Raise IndexError
  end.

Fixpoint lstrip (s : string) : string :=
  match s with
  | String c s' => if is_space c then lstrip s' else s
  | EmptyString => EmptyString
  end.

Fixpoint rstrip (s : string) : string :=
  match s with
  | EmptyString => EmptyString
  | String c s' =>
      match rstrip s' with
      | EmptyString => if is_space c then EmptyString else String c EmptyString
      | r => String c r
      end
  end.

(** [s.strip()] *)
Definition strip (s : string) : string := rstrip (lstrip s).

(** [s.decode()] with the default codec of Python 2: only seven-bit text
    decodes. *)
Definition decode (s : string) : result string :=
  if all_chars (fun c => (nat_of_ascii c <? 128)%nat) s then Ok s
  else Raise UnicodeDecodeError.

(** [int(s)] on a run of decimal digits *)
Fixpoint int_digits_from (acc : Z) (s : string) : Z :=
  match s with
  | EmptyString => acc
  | String c s' => int_digits_from (10 * acc + digit_val c) s'
  end.

Definition int_digits (s : string) : Z := int_digits_from 0 s.

(** the longest prefix of [s] made of digits, and what follows it *)
Fixpoint span_digits (s : string) : string * string :=
  match s with
  | String c s' =>
      if is_digit c
      then let (d, r) := span_digits s' in (String c d, r)
      else (EmptyString, s)
  | EmptyString => (EmptyString, EmptyString)
  end.

Definition concat_strings (l : list string) : string :=
  fold_right String.append EmptyString l.

End Py.

Export Py.

Declare Scope py_scope.
Notation "'let*' x ':=' m 'in' k" := (Py.bind m (fun x => k))
  (at level 10, x name, m at level 100, k at level 200) : py_scope.
Notation "'let*' ' p ':=' m 'in' k" := (Py.bind m (fun x => let 'p := x in k))
  (at level 10, p pattern, m at level 100, k at level 200) : py_scope.
Local Open Scope py_scope.

(* ===================================================================== *)
(** * rtsutils.go                                                          *)
(* ===================================================================== *)

Module Go.

(** What the [publish] callback receives: a string (a log message) or an
    integer (a progress bar update). *)
Inductive message : Type :=
| MStr (s : string)
| MInt (n : Z).

(** [re.compile(r'\w*Progress: (?P<progress>\d+)\w*').search(go_str)],
    reduced to the text of the group [progress].

    A match needs the literal [Progress: ] followed by a digit.  The
    leading [\w*] cannot reach across the colon of an earlier marker, so
    the first match found by [search] sits on the leftmost place where the
    literal is followed by a digit; [\d+] is greedy and the trailing [\w*]
    may be empty, so the group is the whole run of digits there. *)
Definition progress_at (s : string) : option string :=
  if startswith "Progress: " s
  then match span_digits (drop 10 s) with
       | (EmptyString, _) => None
       | (d, _) => Some d
       end
  else None.

Fixpoint search_progress (s : string) : option string :=
  match progress_at s with
  | Some d => Some d
  | None =>
      match s with
      | EmptyString => None
      | String _ s' => search_progress s'
      end
  end.

(** [__parse_go_output(go_str, publish)]: the messages handed to [publish],
    in order, and how the call ends.  When [search] finds nothing,
    [prog_re] is [None] and [prog_re.group] raises. *)
Definition __parse_go_output (go_str : string) : list message * result unit :=
  let progress :=
    if contains "Progress:" go_str
    then match search_progress go_str with
         | Some d => ([MInt (int_digits d)], Ok tt)
         | None => ([], Raise (AttributeError "group"))
         end
    else ([], Ok tt) in
  match progress with
  | (sent, Raise e) => (sent, Raise e)
  | (sent, Ok _) =>
      if contains "Status: INITIATED" go_str
      then (sent, Ok tt)
      else (sent ++ [MStr go_str], Ok tt)
  end.

(** What a run of the worker shows of itself: the lines of its diagnostic
    channel, each with its line end, and the content of its result
    channel. *)
Record worker_output : Type := {
  stderr_lines : list string;
  stdout_text : string
}.

(** What reaches the outside while [get] runs. *)
Inductive output : Type :=
| Published (m : message)
| Printed (s : string).

(** The loop of the realtime branch of [get]:
    [for line in subprocess_popen.stderr: ...; stderr += line]. *)
Fixpoint read_stderr (publish : bool) (lines : list string) (stderr : string)
  : list output * result string :=
  match lines with
  | [] => ([], Ok stderr)
  | line :: rest =>
      match decode (strip line) with
      | Raise e => ([], Raise e)
      | Ok text =>
          let (shown, r) :=
            if publish
            then let (sent, r) := __parse_go_output text in (map Published sent, r)
            else ([Printed text], Ok tt) in
          match r with
          | Raise e => (shown, Raise e)
          | Ok _ =>
              let (shown', r') := read_stderr publish rest (stderr ++ line) in
              (shown ++ shown', r')
          end
      end
  end.

(** [get(go_flags, out_err=True, realtime=..., publish=...)], which every
    caller asks for with [out_err=True]: the pair [(stdout, stderr)].  With
    [realtime] the diagnostic lines are handled as they come; without it
    the answer is that of [subprocess_popen.communicate]. *)
Definition get (realtime publish : bool) (w : worker_output)
  : list output * result (string * string) :=
  if realtime then
    let (shown, r) := read_stderr publish (stderr_lines w) EmptyString in
    (shown, let* stderr := r in Ok (stdout_text w, stderr))
  else ([], Ok (stdout_text w, concat_strings (stderr_lines w))).

End Go.

(* ===================================================================== *)
(** * datetime                                                             *)
(* ===================================================================== *)

Module Datetime.

(** A naive [datetime.datetime] to the second. *)
Record datetime : Type := mk_datetime {
  year : Z; month : Z; day : Z;
  hour : Z; minute : Z; second : Z
}.

Definition is_leap (y : Z) : bool :=
  (y mod 4 =? 0) && (negb (y mod 100 =? 0) || (y mod 400 =? 0)).

Definition days_in_month (y m : Z) : Z :=
  if m =? 2 then (if is_leap y then 29 else 28)
  else if (m =? 4) || (m =? 6) || (m =? 9) || (m =? 11) then 30
  else 31.

(** [_days_before_year] *)
Definition days_before_year (y : Z) : Z :=
  let y1 := y - 1 in y1 * 365 + y1 / 4 - y1 / 100 + y1 / 400.

(** [_days_before_month]: the days of the months before [m]. *)
Fixpoint days_of_months (y : Z) (n : nat) : Z :=
  match n with
  | O => 0
  | S k => days_of_months y k + days_in_month y (Z.of_nat n)
  end.

Definition days_before_month (y m : Z) : Z := days_of_months y (Z.to_nat (m - 1)).

(** [toordinal] *)
Definition to_ordinal (dt : datetime) : Z :=
  days_before_year (year dt) + days_before_month (year dt) (month dt) + day dt.

(** What the constructor accepts. *)
Definition valid (dt : datetime) : bool :=
  (1 <=? year dt) && (year dt <=? 9999) &&
  (1 <=? month dt) && (month dt <=? 12) &&
  (1 <=? day dt) && (day dt <=? days_in_month (year dt) (month dt)) &&
  (0 <=? hour dt) && (hour dt <=? 23) &&
  (0 <=? minute dt) && (minute dt <=? 59) &&
  (0 <=? second dt) && (second dt <=? 59).

(** Seconds since the start of day one of year one: the order of two
    datetimes, and their difference, are those of these numbers. *)
Definition to_seconds (dt : datetime) : Z :=
  to_ordinal dt * 86400 + hour dt * 3600 + minute dt * 60 + second dt.

Definition ltb (a b : datetime) : bool := to_seconds a <? to_seconds b.
Definition leb (a b : datetime) : bool := to_seconds a <=? to_seconds b.

(** [timedelta], normalised as Python keeps it: [0 <= seconds < 86400]. *)
Record timedelta : Type := mk_timedelta { days : Z; seconds : Z }.

(** [a - b] *)
Definition sub (a b : datetime) : timedelta :=
  let t := to_seconds a - to_seconds b in
  {| days := t / 86400; seconds := t mod 86400 |}.

(** [dt + timedelta(days=1)] *)
Definition plus_one_day (dt : datetime) : result datetime :=
  if day dt <? days_in_month (year dt) (month dt)
  then Ok (mk_datetime (year dt) (month dt) (day dt + 1) (hour dt) (minute dt) (second dt))
  else if month dt <? 12
  then Ok (mk_datetime (year dt) (month dt + 1) 1 (hour dt) (minute dt) (second dt))
  else if year dt <? 9999
  then Ok (mk_datetime (year dt + 1) 1 1 (hour dt) (minute dt) (second dt))
  else Raise OverflowError.

(** ** Format strings *)

Inductive directive : Type := Dd | Db | DY | Dm | DH | DM | DS.

Inductive item : Type :=
| Lit (c : ascii)
| Dir (d : directive).

Definition directive_of (c : ascii) : option directive :=
  if Ascii.eqb c "d" then Some Dd
  else if Ascii.eqb c "b" then Some Db
  else if Ascii.eqb c "Y" then Some DY
  else if Ascii.eqb c "m" then Some Dm
  else if Ascii.eqb c "H" then Some DH
  else if Ascii.eqb c "M" then Some DM
  else if Ascii.eqb c "S" then Some DS
  else None.

(** The items of a format string; the formats of this code base use the
    directives above and no white space. *)
Fixpoint items_of (format : string) : result (list item) :=
  match format with
  | EmptyString => Ok []
  | String "%" (String c rest) =>
      match directive_of c with
      | Some d => let* l := items_of rest in Ok (Dir d :: l)
      | None => Raise (ValueError "bad directive in format")
      end
  | String "%" EmptyString => Raise (ValueError "stray % in format")
  | String c rest => let* l := items_of rest in Ok (Lit c :: l)
  end.

Definition month_abbr : list string :=
  ["Jan"; "Feb"; "Mar"; "Apr"; "May"; "Jun"; "Jul"; "Aug"; "Sep"; "Oct"; "Nov"; "Dec"].

(** [s.lower()] *)
Fixpoint lower (s : string) : string :=
  match s with
  | EmptyString => EmptyString
  | String c s' => String (to_lower c) (lower s')
  end.

(** ** strptime

    [_strptime] turns the format into a regular expression, compiled with
    [IGNORECASE], in which a directive is a group of alternatives tried in
    order; [match] returns the first way to match a prefix of the text. *)

Definition letters (s : string) : list char_class :=
  map same_letter (list_ascii_of_string s).

(** The alternatives of each directive, as [TimeRE] lists them. *)
Definition alternatives (d : directive) : list (list char_class) :=
  match d with
  | Dd => [ [between "3" "3"; between "0" "1"];
            [between "1" "2"; digit];
            [between "0" "0"; between "1" "9"];
            [between "1" "9"];
            [between " " " "; between "1" "9"] ]
  | Dm => [ [between "1" "1"; between "0" "2"];
            [between "0" "0"; between "1" "9"];
            [between "1" "9"] ]
  | DH => [ [between "2" "2"; between "0" "3"];
            [between "0" "1"; digit];
            [digit] ]
  | DM => [ [between "0" "5"; digit]; [digit] ]
  | DS => [ [between "6" "6"; between "0" "1"];
            [between "0" "5"; digit];
            [digit] ]
  | DY => [ [digit; digit; digit; digit] ]
  | Db => map letters month_abbr
  end.

(** A sequence of character classes against the head of [s]: the text
    matched and what follows. *)
Fixpoint match_classes (cs : list char_class) (s : string) : option (string * string) :=
  match cs with
  | [] => Some (EmptyString, s)
  | p :: cs' =>
      match s with
      | String c s' =>
          if p c
          then match match_classes cs' s' with
               | Some (t, r) => Some (String c t, r)
               | None => None
               end
          else None
      | EmptyString => None
      end
  end.

(** The first alternative that matches and lets the rest of the
    expression, [k], match as well. *)
Fixpoint first_match {R} (alts : list (list char_class)) (s : string)
    (k : string -> string -> option R) : option R :=
  match alts with
  | [] => None
  | a :: alts' =>
      match match_classes a s with
      | Some (t, r) =>
          match k t r with
          | Some x => Some x
          | None => first_match alts' s k
          end
      | None => first_match alts' s k
      end
  end.

(** The first alternative that matches the head of the text, whatever
    follows it. *)
Fixpoint first_local (alts : list (list char_class)) (s : string) : option (string * string) :=
  match alts with
  | [] => None
  | a :: alts' =>
      match match_classes a s with
      | Some tr => Some tr
      | None => first_local alts' s
      end
  end.

Fixpoint position_from (n : Z) (x : string) (l : list string) : Z :=
  match l with
  | [] => 0
  | y :: l' => if String.eqb x y then n else position_from (n + 1) x l'
  end.

(** The number a group stands for: [int(text)], or the place of the month
    name. *)
Definition value_of (d : directive) (text : string) : Z :=
  match d with
  | Db => position_from 1 (lower text) (map lower month_abbr)
  | _ => int_digits (lstrip text)
  end.

Definition set_field (d : directive) (v : Z) (dt : datetime) : datetime :=
  match d with
  | Dd => mk_datetime (year dt) (month dt) v (hour dt) (minute dt) (second dt)
  | Db | Dm => mk_datetime (year dt) v (day dt) (hour dt) (minute dt) (second dt)
  | DY => mk_datetime v (month dt) (day dt) (hour dt) (minute dt) (second dt)
  | DH => mk_datetime (year dt) (month dt) (day dt) v (minute dt) (second dt)
  | DM => mk_datetime (year dt) (month dt) (day dt) (hour dt) v (second dt)
  | DS => mk_datetime (year dt) (month dt) (day dt) (hour dt) (minute dt) v
  end.

Fixpoint re_match (f : list item) (s : string) (acc : datetime)
  : option (datetime * string) :=
  match f with
  | [] => Some (acc, s)
  | Lit c :: f' =>
      match s with
      | String c' s' => if same_letter c c' then re_match f' s' acc else None
      | EmptyString => None
      end
  | Dir d :: f' =>
      first_match (alternatives d) s
        (fun text rest => re_match f' rest (set_field d (value_of d text) acc))
  end.

(** The items that set no time of day. *)
Definition date_item (i : item) : bool :=
  match i with
  | Lit _ | Dir Dd | Dir Db | Dir DY | Dir Dm => true
  | Dir DH | Dir DM | Dir DS => false
  end.

(** The fields a format leaves unset: 1 January 1900, midnight. *)
Definition unset : datetime := mk_datetime 1900 1 1 0 0 0.

(** [datetime.strptime(text, format)] *)
Definition strptime (text format : string) : result datetime :=
  let* f := items_of format in
  match re_match f text unset with
  | None => Raise (ValueError "time data does not match format")
  | Some (dt, String _ _) => Raise (ValueError "unconverted data remains")
  | Some (dt, EmptyString) =>
      if valid dt then Ok dt else Raise (ValueError "value out of range")
  end.

(** ** strftime *)

Definition digit_char (n : Z) : ascii := ascii_of_nat (Z.to_nat (48 + n mod 10)).

Definition two_digits (n : Z) : string :=
  String (digit_char (n / 10)) (String (digit_char n) EmptyString).

Definition four_digits (n : Z) : string :=
  String (digit_char (n / 1000)) (String (digit_char (n / 100))
    (String (digit_char (n / 10)) (String (digit_char n) EmptyString))).

Definition text_of (d : directive) (dt : datetime) : string :=
  match d with
  | Dd => two_digits (day dt)
  | Dm => two_digits (month dt)
  | DH => two_digits (hour dt)
  | DM => two_digits (minute dt)
  | DS => two_digits (second dt)
  | DY => four_digits (year dt)
  | Db => nth (Z.to_nat (month dt - 1)) month_abbr EmptyString
  end.

Fixpoint render (f : list item) (dt : datetime) : string :=
  match f with
  | [] => EmptyString
  | Lit c :: f' => String c (render f' dt)
  | Dir d :: f' => text_of d dt ++ render f' dt
  end.

(** [dt.strftime(format)]; Python 2 refuses the years before 1900. *)
Definition strftime (dt : datetime) (format : string) : result string :=
  let* f := items_of format in
  if year dt <? 1900
  then Raise (ValueError "the datetime strftime() methods require year >= 1900")
  else Ok (render f dt).

End Datetime.

(* ===================================================================== *)
(** * json                                                                 *)
(* ===================================================================== *)

Module Json.

(** The values [json.loads] builds, which are also the values the
    configuration dictionaries hold.  A number written with a fraction or
    an exponent is kept as its text. *)
Inductive json : Type :=
| JNull
| JBool (b : bool)
| JInt (n : Z)
| JFloat (text : string)
| JStr (s : string)
| JArr (items : list json)
| JObj (members : list (string * json)).

Fixpoint lookup (k : string) (m : list (string * json)) : option json :=
  match m with
  | [] => None
  | (k', v) :: m' => if String.eqb k k' then Some v else lookup k m'
  end.

(** [d[k] = v] on the members of a dictionary: a key occurs once. *)
Fixpoint store (k : string) (v : json) (m : list (string * json)) : list (string * json) :=
  match m with
  | [] => [(k, v)]
  | (k', v') :: m' => if String.eqb k k' then (k, v) :: m' else (k', v') :: store k v m'
  end.

(** [a == b] *)
Fixpoint eqb (a b : json) : bool :=
  match a, b with
  | JNull, JNull => true
  | JBool x, JBool y => Bool.eqb x y
  | JBool x, JInt y | JInt y, JBool x => (if x then 1 else 0) =? y
  | JInt x, JInt y => x =? y
  | JFloat x, JFloat y => String.eqb x y
  | JStr x, JStr y => String.eqb x y
  | JArr l, JArr l' =>
      (fix all2 (l l' : list json) : bool :=
         match l, l' with
         | [], [] => true
         | x :: t, y :: t' => eqb x y && all2 t t'
         | _, _ => false
         end) l l'
  | JObj m, JObj m' =>
      (length m =? length m')%nat &&
      (fix each (m : list (string * json)) : bool :=
         match m with
         | [] => true
         | (k, v) :: t =>
             match lookup k m' with
             | Some v' => eqb v v'
             | None => false
             end && each t
         end) m
  | _, _ => false
  end.

(** [bool(v)] *)
Definition truthy (v : json) : bool :=
  match v with
  | JNull => false
  | JBool b => b
  | JInt n => negb (n =? 0)
  | JFloat t => negb (all_chars (fun c => negb (between "1" "9" c)) t)
  | JStr s => negb (String.eqb s EmptyString)
  | JArr l => match l with [] => false | _ => true end
  | JObj m => match m with [] => false | _ => true end
  end.

(** [v[key]] with a string key *)
Definition getitem (v : json) (key : string) : result json :=
  match v with
  | JObj m =>
      match lookup key m with
      | Some x => Ok x
      | None => Raise (KeyError key)
      end
  | JArr _ => Raise (TypeError "list indices must be integers")
  | JStr _ => Raise (TypeError "string indices must be integers")
  | _ => Raise (TypeError "object has no attribute __getitem__")
  end.

(** [for x in v] *)
Definition iterate (v : json) : result (list json) :=
  match v with
  | JArr l => Ok l
  | JObj m => Ok (map (fun kv => JStr (fst kv)) m)
  | JStr s => Ok (map (fun c => JStr (String c EmptyString)) (list_ascii_of_string s))
  | _ => Raise (TypeError "object is not iterable")
  end.

(** [len(v)] *)
Definition len (v : json) : result Z :=
  match v with
  | JArr l => Ok (Z.of_nat (length l))
  | JObj m => Ok (Z.of_nat (length m))
  | JStr s => Ok (Z.of_nat (String.length s))
  | _ => Raise (TypeError "object has no len()")
  end.

(** ** The text of a value

    ['{}'.format(v)] for the scalars; the code formats identifiers and
    names, and a list or a dictionary is shown by its brackets alone. *)
Definition decimal (n : Z) : string := NilZero.string_of_int (Z.to_int n).

Definition format (v : json) : string :=
  match v with
  | JNull => "None"
  | JBool true => "True"
  | JBool false => "False"
  | JInt n => decimal n
  | JFloat t => t
  | JStr s => s
  | JArr _ => "[...]"
  | JObj _ => "{...}"
  end.

(** ** Reading a text *)

Definition is_ws (c : ascii) : bool :=
  Ascii.eqb c " " || Ascii.eqb c "009" || Ascii.eqb c "010" || Ascii.eqb c "013".

Fixpoint skip_ws (s : string) : string :=
  match s with
  | String c s' => if is_ws c then skip_ws s' else s
  | EmptyString => EmptyString
  end.

Definition hex_val (c : ascii) : option Z :=
  if is_digit c then Some (digit_val c)
  else if between "a" "f" c then Some (Z.of_nat (nat_of_ascii c) - 87)
  else if between "A" "F" c then Some (Z.of_nat (nat_of_ascii c) - 55)
  else None.

Definition hex4 (a b c d : ascii) : option Z :=
  match hex_val a, hex_val b, hex_val c, hex_val d with
  | Some x, Some y, Some z, Some w => Some (((x * 16 + y) * 16 + z) * 16 + w)
  | _, _, _, _ => None
  end.

Definition snoc (s : string) (c : ascii) : string := s ++ String c EmptyString.

(** The double quote, and a way to write texts that hold it: [q] turns
    every single quote of its argument into a double quote. *)
Definition quote : ascii := "034".
Definition backslash : ascii := "092".

Fixpoint q (s : string) : string :=
  match s with
  | EmptyString => EmptyString
  | String c s' => String (if Ascii.eqb c "'" then quote else c) (q s')
  end.

(** The characters of a string after its opening quote.  Text outside
    Latin-1 is beyond this model. *)
Fixpoint read_chars (s acc : string) : option (string * string) :=
  match s with
  | EmptyString => None
  | String c r =>
      if Ascii.eqb c quote then Some (acc, r)
      else if Ascii.eqb c backslash then
        match r with
        | String e r' =>
            if Ascii.eqb e quote then read_chars r' (snoc acc quote)
            else if Ascii.eqb e backslash then read_chars r' (snoc acc backslash)
            else if Ascii.eqb e "/" then read_chars r' (snoc acc "/")
            else if Ascii.eqb e "b" then read_chars r' (snoc acc "008")
            else if Ascii.eqb e "f" then read_chars r' (snoc acc "012")
            else if Ascii.eqb e "n" then read_chars r' (snoc acc "010")
            else if Ascii.eqb e "r" then read_chars r' (snoc acc "013")
            else if Ascii.eqb e "t" then read_chars r' (snoc acc "009")
            else if Ascii.eqb e "u" then
              match r' with
              | String h1 (String h2 (String h3 (String h4 r''))) =>
                  match hex4 h1 h2 h3 h4 with
                  | Some n =>
                      if n <? 256
                      then read_chars r'' (snoc acc (ascii_of_nat (Z.to_nat n)))
                      else None
                  | None => None
                  end
              | _ => None
              end
            else None
        | EmptyString => None
        end
      else if (nat_of_ascii c <? 32)%nat then None
      else read_chars r (snoc acc c)
  end.

(** A number at the head of [s]: an optional sign, a whole part without
    leading zeros, then a fraction and an exponent when they are complete. *)
Definition read_number (s : string) : option (json * string) :=
  let (sign, s1) :=
    match s with
    | String "-" r => ("-", r)
    | _ => (EmptyString, s)
    end in
  let whole :=
    match s1 with
    | String "0" r => Some ("0", r)
    | String c r =>
        if between "1" "9" c
        then let (d, r') := span_digits r in Some (String c d, r')
        else None
    | EmptyString => None
    end in
  match whole with
  | None => None
  | Some (w, s2) =>
      let (frac, s3) :=
        match s2 with
        | String "." r =>
            match span_digits r with
            | (EmptyString, _) => (EmptyString, s2)
            | (d, r') => (String "." d, r')
            end
        | _ => (EmptyString, s2)
        end in
      let (expo, s4) :=
        match s3 with
        | String e r =>
            if Ascii.eqb e "e" || Ascii.eqb e "E" then
              let (sg, r1) :=
                match r with
                | String "+" r1 => ("+", r1)
                | String "-" r1 => ("-", r1)
                | _ => (EmptyString, r)
                end in
              match span_digits r1 with
              | (EmptyString, _) => (EmptyString, s3)
              | (d, r') => (String e (sg ++ d), r')
              end
            else (EmptyString, s3)
        | EmptyString => (EmptyString, s3)
        end in
      match frac, expo with
      | EmptyString, EmptyString =>
          Some (JInt (if String.eqb sign "-" then - int_digits w else int_digits w), s4)
      | _, _ => Some (JFloat (sign ++ w ++ frac ++ expo), s4)
      end
  end.

Definition read_word (w : string) (v : json) (s : string) : option (json * string) :=
  if startswith w s then Some (v, drop (String.length w) s) else None.

(** A value at the head of [s].  [fuel] bounds the calls that follow one
    another; every second call at the latest reads a character, and a
    value that is complete closes what it opens, so the length of the text
    is fuel enough for a text that can be read, and a text that cannot be
    read is refused with or without fuel. *)
Fixpoint read_value (fuel : nat) (s : string) : option (json * string) :=
  match fuel with
  | O => None
  | S fuel' =>
      match s with
      | String c r =>
          if Ascii.eqb c quote then
            match read_chars r EmptyString with
            | Some (t, r') => Some (JStr t, r')
            | None => None
            end
          else if Ascii.eqb c "{" then
            match skip_ws r with
            | String "}" r' => Some (JObj [], r')
            | r0 =>
                match read_members fuel' r0 [] with
                | Some (m, r') => Some (JObj m, r')
                | None => None
                end
            end
          else if Ascii.eqb c "[" then
            match skip_ws r with
            | String "]" r' => Some (JArr [], r')
            | r0 =>
                match read_items fuel' r0 with
                | Some (l, r') => Some (JArr l, r')
                | None => None
                end
            end
          else if Ascii.eqb c "n" then read_word "null" JNull s
          else if Ascii.eqb c "t" then read_word "true" (JBool true) s
          else if Ascii.eqb c "f" then read_word "false" (JBool false) s
          else if Ascii.eqb c "N" then read_word "NaN" (JFloat "nan") s
          else if Ascii.eqb c "I" then read_word "Infinity" (JFloat "inf") s
          else if startswith "-Infinity" s then read_word "-Infinity" (JFloat "-inf") s
          else read_number s
      | EmptyString => None
      end
  end
with read_members (fuel : nat) (s : string) (acc : list (string * json))
  : option (list (string * json) * string) :=
  match fuel with
  | O => None
  | S fuel' =>
      match s with
      | String c r =>
          if Ascii.eqb c quote then
            match read_chars r EmptyString with
            | Some (k, r1) =>
                match skip_ws r1 with
                | String ":" r2 =>
                    match read_value fuel' (skip_ws r2) with
                    | Some (v, r3) =>
                        match skip_ws r3 with
                        | String "}" r4 => Some (store k v acc, r4)
                        | String "," r4 => read_members fuel' (skip_ws r4) (store k v acc)
                        | _ => None
                        end
                    | None => None
                    end
                | _ => None
                end
            | None => None
            end
          else None
      | EmptyString => None
      end
  end
with read_items (fuel : nat) (s : string) : option (list json * string) :=
  match fuel with
  | O => None
  | S fuel' =>
      match read_value fuel' s with
      | Some (v, r) =>
          match skip_ws r with
          | String "]" r' => Some ([v], r')
          | String "," r' =>
              match read_items fuel' (skip_ws r') with
              | Some (l, r'') => Some (v :: l, r'')
              | None => None
              end
          | _ => None
          end
      | None => None
      end
  end.

(** [json.loads(text)] *)
Definition loads (text : string) : result json :=
  match read_value (S (String.length text)) (skip_ws text) with
  | None => Raise (ValueError "No JSON object could be decoded")
  | Some (v, r) =>
      match skip_ws r with
      | EmptyString => Ok v
      | String _ _ => Raise (ValueError "Extra data")
      end
  end.

End Json.

Import Datetime Json.

(* ===================================================================== *)
(** * rtsutils.cavi.jython.jutil                                           *)
(* ===================================================================== *)

Module Jutil.

(** [get_precip_record_datetimes(pathname)] *)
Definition get_precip_record_datetimes (pathname : string) : result (datetime * datetime) :=
  let split_path := split "/" pathname in
  let* d_part := index split_path 4 in
  let* e_part := index split_path 5 in
  let* e_part :=
    if String.eqb (last_chars 4 e_part) "2400" then
      let* temp_dt := strptime e_part "%d%b%Y:2400" in
      let* temp_dt := plus_one_day temp_dt in
      strftime temp_dt "%d%b%Y:0000"
    else Ok e_part in
  let* path_start_dt := strptime d_part "%d%b%Y:%H%M" in
  let* path_end_dt := strptime e_part "%d%b%Y:%H%M" in
  Ok (path_start_dt, path_end_dt).

(** The loop of [get_existing_precip_data_range] over the cataloged
    pathnames.  A datetime is never false, so [not start_dt] asks whether
    it is still [None]. *)
Fixpoint scan_paths (paths : list string) (start_dt end_dt : option datetime)
  : result (option datetime * option datetime) :=
  match paths with
  | [] => Ok (start_dt, end_dt)
  | path :: rest =>
      let* '(path_start_dt, path_end_dt) := get_precip_record_datetimes path in
      let start_dt :=
        match start_dt with
        | None => Some path_start_dt
        | Some s => if ltb path_start_dt s then Some path_start_dt else Some s
        end in
      let end_dt :=
        match end_dt with
        | None => Some path_end_dt
        | Some e => if ltb e path_end_dt then Some path_end_dt else Some e
        end in
      scan_paths rest start_dt end_dt
  end.

(** The catalog of the store: [dss.getCatalogedPathnames(search_str)] on
    the file [dss_path]. *)
Class Catalog : Type := {
  cataloged_pathnames : json -> string -> list string
}.

(** [get_existing_precip_data_range(dss_path, b_part, f_part)] *)
Definition get_existing_precip_data_range {C : Catalog} (dss_path b_part f_part : json)
  : result (option datetime * option datetime) :=
  let search_str := ("B=" ++ Json.format b_part ++ " F=" ++ Json.format f_part)%string in
  scan_paths (cataloged_pathnames dss_path search_str) None None.

(** [s.endswith(suffix)] *)
Definition endswith (suffix s : string) : bool :=
  String.eqb (last_chars (String.length suffix) s) suffix.

(** [FileChooser.approve_option], on the path of the selected file: the
    value left in [output_path]. *)
Definition approve_option (selected : string) : string :=
  if negb (endswith ".dss" selected) then (selected ++ ".dss")%string else selected.

(** A bound of the stored range is a datetime the constructor accepts,
    when it is set. *)
Definition valid_if_set (o : option datetime) : Prop :=
  match o with
  | Some dt => valid dt = true
  | None => True
  end.

End Jutil.

(* ===================================================================== *)
(** * rtsutils.cavi.jython.ui.cumulus                                      *)
(* ===================================================================== *)

Module Cumulus.

Import Jutil.

Definition ISO_FORMAT : string := "%Y-%m-%dT%H:%M:%SZ".

(** A dictionary with string keys, as [go_config] is. *)
Abbreviation dict := (gmap string json).

(** What a run leaves behind, in order: the lines given to [report], the
    requests handed to the worker and what [go.get] showed while the
    worker ran, the dialogs, and the calls of [jutil.convert_dss]. *)
Inductive event : Type :=
| Report (msg : string)
| WorkerRun (flags : dict)
| Worker (o : Go.output)
| Dialog (msg title : string)
| ConvertDss (src : string) (dst : json).

(** The requests handed to the worker, in the order of the runs. *)
Fixpoint worker_requests (t : list event) : list dict :=
  match t with
  | [] => []
  | WorkerRun flags :: t' => flags :: worker_requests t'
  | _ :: t' => worker_requests t'
  end.

(** The class attributes of [Cumulus].  [go_config] is a reference: the
    dictionaries live in [heap] and the attribute names one of them.
    [None] is [JNull]; [publish] tells whether a callback is set. *)
Record state : Type := mk_state {
  heap : list dict;
  go_config : nat;
  cumulus_configs : json;
  products_meta : json;
  watersheds_meta : json;
  publish : bool;
  runs : nat;
  trace : list event
}.

(** What surrounds the class: the catalog of the store, the worker (its
    output on its [n]-th run with the given request) and
    [DictConfig(cumulus_configs).read()]. *)
Class World : Type := {
  world_catalog :: Catalog;
  cavi_go : nat -> dict -> Go.worker_output;
  dict_config_read : json -> result json
}.

(** Code that reads and writes the class attributes and may raise; the
    state is kept when it raises. *)
Definition M (A : Type) : Type := state -> result A * state.

Definition ret {A} (a : A) : M A := fun st => (Ok a, st).
Definition raise {A} (e : exn) : M A := fun st => (Raise e, st).
Definition lift {A} (r : result A) : M A := fun st => (r, st).

Definition bindM {A B} (m : M A) (k : A -> M B) : M B :=
  fun st =>
    match m st with
    | (Ok a, st') => k a st'
    | (Raise e, st') => (Raise e, st')
    end.

(** [try: body finally: cleanup] *)
Definition finally {A} (body : M A) (cleanup : state -> state) : M A :=
  fun st => let (r, st') := body st in (r, cleanup st').

Notation "'let!' x ':=' m 'in' k" := (bindM m (fun x => k))
  (at level 10, x name, m at level 100, k at level 200).
Notation "'let!' ' p ':=' m 'in' k" := (bindM m (fun x => let 'p := x in k))
  (at level 10, p pattern, m at level 100, k at level 200).
Notation "m ';;' k" := (bindM m (fun _ => k))
  (at level 100, k at level 200, right associativity).

Definition set_heap (h : list dict) (st : state) : state :=
  mk_state h (go_config st) (cumulus_configs st) (products_meta st)
    (watersheds_meta st) (publish st) (runs st) (trace st).

Definition set_go_config (l : nat) (st : state) : state :=
  mk_state (heap st) l (cumulus_configs st) (products_meta st)
    (watersheds_meta st) (publish st) (runs st) (trace st).

Definition set_products_meta (v : json) (st : state) : state :=
  mk_state (heap st) (go_config st) (cumulus_configs st) v
    (watersheds_meta st) (publish st) (runs st) (trace st).

Definition set_watersheds_meta (v : json) (st : state) : state :=
  mk_state (heap st) (go_config st) (cumulus_configs st) (products_meta st)
    v (publish st) (runs st) (trace st).

Definition add_events (es : list event) (st : state) : state :=
  mk_state (heap st) (go_config st) (cumulus_configs st) (products_meta st)
    (watersheds_meta st) (publish st) (runs st) (trace st ++ es).

Definition count_run (st : state) : state :=
  mk_state (heap st) (go_config st) (cumulus_configs st) (products_meta st)
    (watersheds_meta st) (publish st) (S (runs st)) (trace st).

Definition modify (f : state -> state) : M unit := fun st => (Ok tt, f st).

(** The dictionary [Cumulus.go_config] names. *)
Definition config_dict (st : state) : dict := default ∅ (heap st !! go_config st).

(** [cls.go_config[k]] *)
Definition config_get (k : string) : M json :=
  fun st =>
    match config_dict st !! k with
    | Some v => (Ok v, st)
    | None => (Raise (KeyError k), st)
    end.

(** [cls.go_config[k] = v]: the dictionary is changed in place. *)
Definition config_set (k : string) (v : json) : M unit :=
  modify (fun st => set_heap (<[go_config st := <[k := v]> (config_dict st)]> (heap st)) st).

(** [deepcopy(cls.go_config)]: a new dictionary with the same content. *)
Definition deepcopy_config : M nat :=
  fun st => (Ok (length (heap st)), set_heap (heap st ++ [config_dict st]) st).

(** [report(msg)]: the line goes to [publish] or is printed, after the
    time of day. *)
Definition report (msg : string) : M unit := modify (add_events [Report msg]).

Definition set_cumulus_configs (cfg : json) (st : state) : state :=
  mk_state (heap st) (go_config st) cfg (products_meta st)
    (watersheds_meta st) (publish st) (runs st) (trace st).

(** [cumulus_configuration(cfg)] *)
Definition cumulus_configuration (cfg : json) : M unit := modify (set_cumulus_configs cfg).

(** [go_configuration(dict_)]: the attribute names the dictionary it is
    given, not a copy of it. *)
Definition go_configuration (dict_ : nat) : M unit := modify (set_go_config dict_).

(** [go_config] names a dictionary of the heap. *)
Definition bound (st : state) : Prop := (go_config st < length (heap st))%nat.

(** [m] writes no key of [go_config] but those of [keys]: whatever way it
    ends, every other key of the dictionary [go_config] names is as it was
    at entry. *)
Definition only_writes {A} (keys : list string) (m : M A) : Prop :=
  forall st, bound st ->
    bound (snd (m st))
    /\ forall k, ~ In k keys -> config_dict (snd (m st)) !! k = config_dict st !! k.

(** [m] keeps the binding of [go_config], the dictionary at [l], the
    configuration file and the callback, from any state in which
    [go_config] names another dictionary than [l]. *)
Definition keeps {A} (l : nat) (m : M A) : Prop :=
  forall st, go_config st <> l ->
    go_config (snd (m st)) = go_config st
    /\ heap (snd (m st)) !! l = heap st !! l
    /\ cumulus_configs (snd (m st)) = cumulus_configs st
    /\ publish (snd (m st)) = publish st.

Section WithWorld.

Context {W : World}.

(** [DictConfig(cls.cumulus_configs).read()] *)
Definition read_configurations : M json :=
  fun st => (dict_config_read (cumulus_configs st), st).

(** [go.get(cls.go_config, out_err=True, is_shell=False, ...)]: the
    request is the dictionary [go_config] names, and what the call shows
    is added to the trace.  [execute] asks for [realtime] and passes
    [cls.publish]; [get_metadata] does neither. *)
Definition go_get (realtime : bool) : M (string * string) :=
  fun st =>
    let flags := config_dict st in
    let (shown, r) :=
      Go.get realtime (realtime && publish st) (cavi_go (runs st) flags) in
    (r, count_run (add_events (WorkerRun flags :: map Worker shown) st)).

(** [get_metadata] *)
Definition get_metadata : M (json * json) :=
  fun st =>
    if truthy (products_meta st) && truthy (watersheds_meta st)
    then (Ok (products_meta st, watersheds_meta st), st)
    else
      (report "Retrieving Cumulus product and watershed metadata..." ;;
       let! orig_go_config := deepcopy_config in
       finally
         (config_set "StdOut" (JStr "true") ;;
          config_set "Subcommand" (JStr "get") ;;
          config_set "Endpoint" (JStr "products") ;;
          let! '(ps_out, stderr) := go_get false in
          if contains "error" stderr then raise (CumulusConnectionError stderr)
          else
            let! products := lift (Json.loads ps_out) in
            modify (set_products_meta products) ;;
            config_set "Endpoint" (JStr "watersheds") ;;
            let! '(ws_out, stderr) := go_get false in
            if contains "error" stderr then raise (CumulusConnectionError stderr)
            else
              let! watersheds := lift (Json.loads ws_out) in
              modify (set_watersheds_meta watersheds) ;;
              report "Metadata retrieved!" ;;
              (fun st' => (Ok (products_meta st', watersheds_meta st'), st')))
         (set_go_config orig_go_config)) st.

(** The loop of the [get_..._by_id] functions: the first item whose field
    [key] equals [x], or [None]. *)
Fixpoint find_by (key : string) (x : json) (l : list json) : result json :=
  match l with
  | [] => Ok JNull
  | item :: rest =>
      let* v := getitem item key in
      if Json.eqb v x then Ok item else find_by key x rest
  end.

(** [get_product_by_id(product_id)] *)
Definition get_product_by_id (product_id : json) : M json :=
  let! '(products, _) := get_metadata in
  let! l := lift (iterate products) in
  lift (find_by "id" product_id l).

(** [get_watershed_by_id(watershed_id)] *)
Definition get_watershed_by_id (watershed_id : json) : M json :=
  let! '(_, watersheds) := get_metadata in
  let! l := lift (iterate watersheds) in
  lift (find_by "id" watershed_id l).

(** [get_product(name)] *)
Definition get_product (name : json) : M json :=
  let! '(products, _) := get_metadata in
  let! l := lift (iterate products) in
  lift (find_by "name" name l).

(** The loop of [get_watershed]: the first watershed of that office and
    name, or [None]; [and] does not look at the name of a watershed of
    another office. *)
Fixpoint find_watershed (office name : json) (l : list json) : result json :=
  match l with
  | [] => Ok JNull
  | watershed :: rest =>
      let* office_symbol := getitem watershed "office_symbol" in
      if Json.eqb office_symbol office then
        let* its_name := getitem watershed "name" in
        if Json.eqb its_name name then Ok watershed
        else find_watershed office name rest
      else find_watershed office name rest
  end.

(** [get_watershed(office, name)] *)
Definition get_watershed (office name : json) : M json :=
  let! '(_, watersheds) := get_metadata in
  let! l := lift (iterate watersheds) in
  lift (find_watershed office name l).

(** [datetime.strptime(v, format)] on a value of a dictionary *)
Definition strptime_value (v : json) (format : string) : result datetime :=
  match v with
  | JStr s => strptime s format
  | _ => Raise (TypeError "strptime() argument 1 must be string")
  end.

(** Lines 320 to 323 of [adjust_dates_by_cache]:
    [if data_end > after > data_start: after = data_end] and
    [if data_end > before > data_start: before = data_start]. *)
Definition shrink (after before data_start data_end : datetime) : datetime * datetime :=
  let after' := if ltb after data_end && ltb data_start after then data_end else after in
  let before' := if ltb before data_end && ltb data_start before then data_start else before in
  (after', before').

(** The loop of [adjust_dates_by_cache] over [config["product_ids"]]. *)
Fixpoint adjust_loop (dss_path b_part : json) (product_ids : list json)
    (after before : datetime) : M unit :=
  match product_ids with
  | [] => ret tt
  | product_id :: rest =>
      let! product := get_product_by_id product_id in
      let! last_forecast_version := lift (getitem product "last_forecast_version") in
      if truthy last_forecast_version
      then adjust_loop dss_path b_part rest after before
      else
        let! f_part := lift (getitem product "dss_fpart") in
        let! range := lift (get_existing_precip_data_range dss_path b_part f_part) in
        match range with
        | (Some data_start, Some data_end) =>
            let '(after, before) := shrink after before data_start data_end in
            let! after_text := lift (strftime after ISO_FORMAT) in
            config_set "After" (JStr after_text) ;;
            let! before_text := lift (strftime before ISO_FORMAT) in
            config_set "Before" (JStr before_text) ;;
            adjust_loop dss_path b_part rest after before
        | _ => ret tt
        end
  end.

(** [adjust_dates_by_cache] *)
Definition adjust_dates_by_cache : M unit :=
  let! config := read_configurations in
  let! after_text := config_get "After" in
  let! after := lift (strptime_value after_text ISO_FORMAT) in
  let! before_text := config_get "Before" in
  let! before := lift (strptime_value before_text ISO_FORMAT) in
  let! dss_path := lift (getitem config "dss") in
  let! watershed_id := lift (getitem config "watershed_id") in
  let! watershed := get_watershed_by_id watershed_id in
  let! b_part := lift (getitem watershed "name") in
  let! product_ids := lift (getitem config "product_ids") in
  let! product_ids := lift (iterate product_ids) in
  adjust_loop dss_path b_part product_ids after before.

(** The loop of [remove_observed_products]. *)
Fixpoint forecast_products (product_ids : list json) : M (list json) :=
  match product_ids with
  | [] => ret []
  | product_id :: rest =>
      let! product := get_product_by_id product_id in
      let! last_forecast_version := lift (getitem product "last_forecast_version") in
      let! others := forecast_products rest in
      match last_forecast_version with
      | JNull => ret others
      | _ => ret (product_id :: others)
      end
  end.

(** [remove_observed_products] *)
Definition remove_observed_products : M unit :=
  let! product_ids := config_get "Products" in
  let! product_ids := lift (iterate product_ids) in
  let! forecast_product_ids := forecast_products product_ids in
  config_set "Products" (JArr forecast_product_ids).

(** [[cls.get_product_by_id(product_id)["name"] for product_id in ...]] *)
Fixpoint product_names (product_ids : list json) : M (list json) :=
  match product_ids with
  | [] => ret []
  | product_id :: rest =>
      let! product := get_product_by_id product_id in
      let! name := lift (getitem product "name") in
      let! names := product_names rest in
      ret (name :: names)
  end.

(** [sep.join(l)]: every item has to be a string. *)
Fixpoint join (sep : string) (l : list json) : result string :=
  match l with
  | [] => Ok EmptyString
  | JStr s :: rest =>
      match rest with
      | [] => Ok s
      | _ => let* t := join sep rest in Ok (s ++ sep ++ t)%string
      end
  | _ :: _ => Raise (TypeError "sequence item: expected string")
  end.

(** Lines 110 to 113 of [execute]: [totalTime = after - before],
    [timeout = int(totalTime.days * 20)], [if timeout < 300: timeout = 300]. *)
Definition window_timeout (after before : datetime) : Z :=
  let totalTime := sub after before in
  let timeout := days totalTime * 20 in
  if timeout <? 300 then 300 else timeout.

(** The branch [if use_cache:] of [execute]; [false] stands for its
    [return]. *)
Definition update_window : M bool :=
  report "Updating time window based on cached/existing data..." ;;
  adjust_dates_by_cache ;;
  let! after_text := config_get "After" in
  let! after := lift (strptime_value after_text ISO_FORMAT) in
  let! before_text := config_get "Before" in
  let! before := lift (strptime_value before_text ISO_FORMAT) in
  if leb before after then
    report "All requested observed data has been previously downloaded." ;;
    report "Removing observed products..." ;;
    remove_observed_products ;;
    let! products := config_get "Products" in
    if negb (truthy products)
    then report "No product downloads required.  Aborting..." ;; ret false
    else ret true
  else
    let timeout := window_timeout after before in
    let! after_text := config_get "After" in
    let! before_text := config_get "Before" in
    report ("Updated time window: " ++ Json.format after_text ++ " - "
              ++ Json.format before_text)%string ;;
    config_set "Timeout" (JInt timeout) ;;
    report ("Updated timeout value: " ++ decimal timeout ++ " seconds")%string ;;
    ret true.

(** The end of [execute], from [if "error" in stderr:]. *)
Definition conclude (configurations : json) (stdout stderr : string) : M unit :=
  fun st =>
    (if contains "error" stderr then
       let! err := lift (last_item (split "::" stderr)) in
       if publish st
       then report ("Program Error: " ++ err)%string
       else modify (add_events [Dialog err "Program Error"])
     else
       match split "::" stdout with
       | [_; file_path] =>
           let! dss := lift (getitem configurations "dss") in
           modify (add_events [ConvertDss file_path dss]) ;;
           report "Cumulus download completed successfully." ;;
           if publish st
           then ret tt
           else modify (add_events [Dialog "Program Done" "Program Done"])
       | [] | [_] => raise (ValueError "need more than 1 value to unpack")
       | _ => raise (ValueError "too many values to unpack")
       end) st.

(** [execute(use_cache)] *)
Definition execute (use_cache : bool) : M unit :=
  let! configurations := read_configurations in
  let! watershed_id := lift (getitem configurations "watershed_id") in
  let! product_ids := lift (getitem configurations "product_ids") in
  config_set "StdOut" (JStr "true") ;;
  config_set "Subcommand" (JStr "grid") ;;
  config_set "Endpoint" (JStr "deprecated/anonymous_downloads") ;;
  config_set "ID" watershed_id ;;
  config_set "Products" product_ids ;;
  let! ids := lift (iterate product_ids) in
  let! names := product_names ids in
  let! product_list := lift (join ", " names) in
  report ("Requested products: " ++ product_list)%string ;;
  let! after_text := config_get "After" in
  let! before_text := config_get "Before" in
  report ("Requested time window: " ++ Json.format after_text ++ " - "
            ++ Json.format before_text)%string ;;
  let! go_on := (if use_cache then update_window else ret true) in
  if go_on then
    report "---BEGIN CUMULUS DOWNLOAD SUBROUTINE---" ;;
    let! '(stdout, stderr) := go_get true in
    report "---CUMULUS DOWNLOAD SUBROUTINE COMPLETE---" ;;
    conclude configurations stdout stderr
  else ret tt.

End WithWorld.

(** The window [go_config] holds, as [execute] reads it. *)
Definition window_of (st : state) : result (datetime * datetime) :=
  match config_dict st !! "After", config_dict st !! "Before" with
  | Some after_text, Some before_text =>
      let* after := strptime_value after_text ISO_FORMAT in
      let* before := strptime_value before_text ISO_FORMAT in
      Ok (after, before)
  | None, _ => Raise (KeyError "After")
  | _, None => Raise (KeyError "Before")
  end.

(** The window [go_config] holds lies inside the window from [a] to [b]:
    it starts no earlier and ends no later. *)
Definition within (a b : datetime) (st : state) : Prop :=
  exists a' b' : datetime,
    window_of st = Ok (a', b')
    /\ to_seconds a <= to_seconds a' /\ to_seconds b' <= to_seconds b.

(** [go_config] names a dictionary of the heap whose window lies inside
    the window from [a] to [b]. *)
Definition narrowed (a b : datetime) (st : state) : Prop := bound st /\ within a b st.

(** While [get_metadata] fetches: [go_config] names the dictionary at [g],
    whose content is [d]; the worker has run [n] times; the two metadata
    attributes are [pm] and [wm]. *)
Definition fetching (g : nat) (d : dict) (n : nat) (pm wm : json) (st : state) : Prop :=
  go_config st = g /\ heap st !! g = Some d /\ runs st = n
  /\ products_meta st = pm /\ watersheds_meta st = wm.

(** Both metadata attributes are set, so [get_metadata] answers from
    them. *)
Definition cached (st : state) : Prop :=
  truthy (products_meta st) && truthy (watersheds_meta st) = true.

(** The product [product_id] of the metadata [l] has a forecast version
    that is not [None]. *)
Definition is_forecast (l : list json) (product_id : json) : bool :=
  match find_by "id" product_id l with
  | Ok product =>
      match getitem product "last_forecast_version" with
      | Ok JNull => false
      | Ok _ => true
      | Raise _ => false
      end
  | Raise _ => false
  end.

(** The metadata [l] lists [product_id], with a forecast version. *)
Definition listed (l : list json) (product_id : json) : Prop :=
  exists product version : json,
    find_by "id" product_id l = Ok product
    /\ getitem product "last_forecast_version" = Ok version.

(** The metadata [l] lists [product_id] with a forecast version that
    counts as true: the scan of [adjust_dates_by_cache] passes over it. *)
Definition skipped (l : list json) (product_id : json) : Prop :=
  exists product version : json,
    find_by "id" product_id l = Ok product
    /\ getitem product "last_forecast_version" = Ok version
    /\ truthy version = true.

(** [item] has the field [key], with a value other than [x]. *)
Definition differs (key : string) (x item : json) : Prop :=
  exists v, getitem item key = Ok v /\ Json.eqb v x = false.

(** [r] is the first item of [l] whose field [key] equals [x], every item
    before it having the field with another value; or [r] is [None] and
    every item of [l] has the field with another value. *)
Definition first_with (key : string) (x : json) (l : list json) (r : json) : Prop :=
  (r = JNull /\ Forall (differs key x) l)
  \/ exists (pre post : list json) (v : json),
       l = pre ++ r :: post
       /\ getitem r key = Ok v /\ Json.eqb v x = true
       /\ Forall (differs key x) pre.

(** [watershed] is not the one [get_watershed] looks for: its office is
    another one, or its office is the one asked for and its name is
    another one; the name of a watershed of another office is not read. *)
Definition other_watershed (office name watershed : json) : Prop :=
  exists o, getitem watershed "office_symbol" = Ok o
    /\ (Json.eqb o office = false
        \/ Json.eqb o office = true
           /\ exists n, getitem watershed "name" = Ok n /\ Json.eqb n name = false).

(** ** A scripted world

    The worker answers the two metadata requests with fixed texts and a
    grid request with the lines and the result given; the store holds the
    pathnames [catalog] lists. *)

Definition products_text : string :=
  q "[{'id':'obs-1','name':'MRMS QPE','dss_fpart':'MRMS-QPE','last_forecast_version':null},
      {'id':'obs-2','name':'NCEP RTMA','dss_fpart':'RTMA','last_forecast_version':null},
      {'id':'fc-1','name':'HRRR','dss_fpart':'HRRR','last_forecast_version':'2024-01-01T00:00:00Z'}]".

Definition watersheds_text : string :=
  q "[{'id':'w-1','name':'Kanawha River','office_symbol':'LRH','slug':'kanawha-river'}]".

Definition scripted_worker (grid : Go.worker_output) (flags : dict) : Go.worker_output :=
  match flags !! "Endpoint" with
  | Some (JStr "products") => Go.Build_worker_output [] products_text
  | Some (JStr "watersheds") => Go.Build_worker_output [] watersheds_text
  | _ => grid
  end.

Definition scripted_world (catalog : string -> list string) (product_ids : list string)
    (grid : Go.worker_output) : World :=
  {| world_catalog := {| cataloged_pathnames := fun _ search_str => catalog search_str |};
     cavi_go := fun _ flags => scripted_worker grid flags;
     dict_config_read := fun _ =>
       Ok (JObj [("watershed_id", JStr "w-1");
                 ("product_ids", JArr (map JStr product_ids));
                 ("dss", JStr "grid.dss")]) |}.

(** The class as a script leaves it before [execute]: the configuration
    file is set, [go_configuration] has bound a dictionary with the
    requested window, and no metadata has been fetched. *)
Definition requested (after before : string) : state :=
  {| heap := [ {[ "After" := JStr after; "Before" := JStr before;
                  "Scheme" := JStr "https"; "Host" := JStr "cumulus-api.example" ]} ];
     go_config := 0%nat;
     cumulus_configs := JStr "cumulus.json";
     products_meta := JNull;
     watersheds_meta := JNull;
     publish := true;
     runs := 0%nat;
     trace := [] |}.

Definition good_run : Go.worker_output :=
  Go.Build_worker_output
    ["Status: INITIATED" ++ String "010" EmptyString;
     "Progress: 42" ++ String "010" EmptyString;
     "download complete" ++ String "010" EmptyString]%string
    "grid::/tmp/cumulus/download.dss".

(** The store holds MRMS records from 1 January to 5 January 2024. *)
Definition first_days (search_str : string) : list string :=
  if String.eqb search_str "B=Kanawha River F=MRMS-QPE"
  then ["/SHG/KANAWHA RIVER/PRECIP/01JAN2024:0000/01JAN2024:0100/MRMS-QPE/";
        "/SHG/KANAWHA RIVER/PRECIP/04JAN2024:2300/04JAN2024:2400/MRMS-QPE/"]
  else [].

(** The store holds MRMS records of the first days of November 2023. *)
Definition november_days (search_str : string) : list string :=
  if String.eqb search_str "B=Kanawha River F=MRMS-QPE"
  then ["/SHG/KANAWHA RIVER/PRECIP/01NOV2023:0000/01NOV2023:0100/MRMS-QPE/";
        "/SHG/KANAWHA RIVER/PRECIP/04NOV2023:2300/04NOV2023:2400/MRMS-QPE/"]
  else [].

(** The store holds MRMS records from 25 December 2023 to 20 January
    2024, and nothing of the other products. *)
Definition covering_days (search_str : string) : list string :=
  if String.eqb search_str "B=Kanawha River F=MRMS-QPE"
  then ["/SHG/KANAWHA RIVER/PRECIP/25DEC2023:0000/25DEC2023:0100/MRMS-QPE/";
        "/SHG/KANAWHA RIVER/PRECIP/19JAN2024:2300/19JAN2024:2400/MRMS-QPE/"]
  else [].

(** The window from 1 January to 10 January 2024 has been asked for. *)
Definition january_window : state :=
  requested "2024-01-01T00:00:00Z" "2024-01-10T00:00:00Z".

(** A world in which the worker cannot reach the provider. *)
Definition offline_world : World :=
  {| world_catalog := {| cataloged_pathnames := fun _ _ => [] |};
     cavi_go := fun _ _ =>
       Go.Build_worker_output ["error::connection refused"] EmptyString;
     dict_config_read := fun _ => Raise (Exception_ "no configuration") |}.

Definition mrms_product : json :=
  JObj [("id", JStr "obs-1"); ("name", JStr "MRMS QPE"); ("dss_fpart", JStr "MRMS-QPE");
        ("last_forecast_version", JNull)].

End Cumulus.

(* ===================================================================== *)
(** * watershed_scripts/access_water_extract.py                            *)
(* ===================================================================== *)

Module AccessWater.

(** Parameter, Unit, Data Type, DSS Fpart (Version) *)
Definition usgs_code : list (string * (string * string * string * string)) :=
  [("00065", ("Stage", "feet", "inst-val", "a2w"));
   ("00061", ("Flow", "cfs", "per-aver", "a2w"));
   ("00060", ("Flow", "cfs", "inst-val", "a2w"))].

Fixpoint assoc {A} (k : string) (l : list (string * A)) : option A :=
  match l with
  | [] => None
  | (k', v) :: l' => if String.eqb k k' then Some v else assoc k l'
  end.

(** [usgs_code[code]] *)
Definition usgs_lookup (code : json) : result (string * string * string * string) :=
  match code with
  | JStr c =>
      match assoc c usgs_code with
      | Some x => Ok x
      | None => Raise (KeyError c)
      end
  | JArr _ | JObj _ => Raise (TypeError "unhashable type")
  | other => Raise (KeyError (Json.format other))
  end.

(** The fields of [TimeSeriesContainer] the script sets. *)
Record TimeSeriesContainer : Type := {
  fullName : string;
  location : string;
  parameter : string;
  type : string;
  version : string;
  interval : option Z;
  units : string;
  times : list Z;
  values : json;
  numberValues : Z;
  startTime : Z;
  endTime : Z
}.

(** The HEC library, over the content [store] of a DSS file:
    [HecTime(t, HecTime.MINUTE_GRANULARITY).value()],
    [TimeStep().getEPartFromIntervalMinutes], [makeAscending],
    [TimeSeriesFunctions.isIregular], [snapToRegularTimeSeries] with zero
    offsets, and [dss.put].  A call that throws raises, and what [dss.put]
    throws is an exception that [except Exception] catches. *)
Class Hec (store : Type) : Type := {
  hec_time_value : json -> result Z;
  get_epart_from_interval_minutes : option Z -> result string;
  make_ascending : TimeSeriesContainer -> result TimeSeriesContainer;
  is_irregular : TimeSeriesContainer -> result bool;
  snap_to_regular : TimeSeriesContainer -> string -> result TimeSeriesContainer;
  dss_put : store -> TimeSeriesContainer -> result store
}.

(** What the script prints. *)
Inductive printed : Type :=
| Text (s : string)
| Error (e : exn).

(** The open DSS file and the standard output. *)
Record script (store : Type) : Type := {
  dss : store;
  stdout : list printed
}.
Arguments dss {store} _.
Arguments stdout {store} _.
Arguments Build_script {store} _ _.

Definition python_keywords : list string :=
  ["and"; "as"; "assert"; "break"; "class"; "continue"; "def"; "del"; "elif";
   "else"; "except"; "exec"; "finally"; "for"; "from"; "global"; "if";
   "import"; "in"; "is"; "lambda"; "not"; "or"; "pass"; "print"; "raise";
   "return"; "try"; "while"; "with"; "yield"].

Definition is_alnum (c : ascii) : bool := is_digit c || is_upper c || is_lower c.

(** What [namedtuple] asks of a field name. *)
Definition field_name_ok (name : string) : bool :=
  all_chars (fun c => is_alnum c || Ascii.eqb c "_") name &&
  negb (existsb (String.eqb name) python_keywords) &&
  match name with
  | String c _ => negb (is_digit c) && negb (Ascii.eqb c "_")
  | EmptyString => false
  end.

(** [namedtuple('Site', site.keys())( **site)]: the record whose attributes
    are the members of [site]. *)
Definition namedtuple (site : json) : result (list (string * json)) :=
  match site with
  | JObj members =>
      if forallb (fun kv => field_name_ok (fst kv)) members
      then Ok members
      else Raise (ValueError "Type names and field names can only contain alphanumeric characters and underscores")
  | _ => Raise (AttributeError "keys")
  end.

(** [Site.name] *)
Definition attr (Site : list (string * json)) (name : string) : result json :=
  match Json.lookup name Site with
  | Some v => Ok v
  | None => Raise (AttributeError name)
  end.

Fixpoint map_result {A B} (f : A -> result B) (l : list A) : result (list B) :=
  match l with
  | [] => Ok []
  | x :: l' => let* y := f x in let* ys := map_result f l' in Ok (y :: ys)
  end.

(** The loop over the neighbouring times; in Python 2 no number is below
    [None], so the first step is taken by [timestep_min is None]. *)
Fixpoint min_step (times : list Z) (timestep_min : option Z) : option Z :=
  match times with
  | t0 :: rest =>
      match rest with
      | t1 :: _ =>
          let ts := Z.abs (t1 - t0) in
          min_step rest
            (match timestep_min with
             | None => Some ts
             | Some m => if ts <? m then Some ts else Some m
             end)
      | [] => timestep_min
      end
  | [] => timestep_min
  end.

(** [s.upper()] *)
Fixpoint upper (s : string) : string :=
  match s with
  | EmptyString => EmptyString
  | String c s' => String (to_upper c) (upper s')
  end.

(** [l[1:-1]] *)
Definition inner {A} (l : list A) : list A := removelast (tl l).

(** [re.sub(r'\s+|_', '-', ws_name)]: every run of white space becomes one
    hyphen, and so does every underscore; [in_space] tells that the
    character before was white space. *)
Fixpoint hyphenate (in_space : bool) (s : string) : string :=
  match s with
  | EmptyString => EmptyString
  | String c s' =>
      if is_space c then
        if in_space then hyphenate true s' else String "-" (hyphenate true s')
      else if Ascii.eqb c "_" then String "-" (hyphenate false s')
      else String c (hyphenate false s')
  end.

(** [ws_name_slug = re.sub(r'\s+|_', '-', ws_name).lower()] *)
Definition ws_name_slug (ws_name : string) : string := lower (hyphenate false ws_name).

Section WithHec.

Context {store : Type} `{Hec store}.

(** Everything [put_to_dss] does before [dss.put]: the series as it will
    be written. *)
Definition make_series (site : json) : result (json * TimeSeriesContainer) :=
  let* Site := namedtuple site in
  let* code := attr Site "code" in
  let* '(parameter, unit, data_type, version) := usgs_lookup code in
  let* Site_times := attr Site "times" in
  let* ts := iterate Site_times in
  let* times := map_result hec_time_value ts in
  let timestep_min := min_step times None in
  let* epart := get_epart_from_interval_minutes timestep_min in
  let* site_number := attr Site "site_number" in
  let pathname :=
    upper ("//" ++ Json.format site_number ++ "/" ++ parameter ++ "//" ++ epart
             ++ "/" ++ version ++ "/")%string in
  match inner (split "/" pathname) with
  | [apart; bpart; cpart; _; _; fpart] =>
      let* Site_values := attr Site "values" in
      let* number := Json.len Site_times in
      let* start := index times 0 in
      let* stop := last_item times in
      let tsc :=
        {| fullName := pathname; location := apart; parameter := parameter;
           type := data_type; version := version; interval := timestep_min;
           units := unit; times := times; values := Site_values;
           numberValues := number; startTime := start; endTime := stop |} in
      let* tsc := make_ascending tsc in
      let* irregular := is_irregular tsc in
      let* tsc := if irregular then snap_to_regular tsc epart else Ok tsc in
      Ok (site_number, tsc)
  | _ => Raise (ValueError "wrong number of values to unpack")
  end.

(** [put_to_dss(site, dss)]: [None], or the message of a series that was
    not saved. *)
Definition put_to_dss (site : json) (st : script store)
  : result (option string) * script store :=
  match make_series site with
  | Raise e => (Raise e, st)
  | Ok (site_number, tsc) =>
      match dss_put (dss st) tsc with
      | Ok dss' => (Ok None, Build_script dss' (stdout st))
      | Raise ex =>
          (Ok (Some ("Site: " ++ String quote (Json.format site_number)
                       ++ String quote " not saved to DSS")%string),
           Build_script (dss st) (stdout st ++ [Error ex]))
      end
  end.

Definition print (p : printed) (st : script store) : script store :=
  Build_script (dss st) (stdout st ++ [p]).

(** Lines 196 to 200: what is done with the bytes gathered when a closing
    brace arrives. *)
Definition handle (byte_array : string) (st : script store)
  : result unit * script store :=
  let st := print (Text byte_array) st in
  match Json.loads byte_array with
  | Raise e => (Raise e, st)
  | Ok obj =>
      match obj with
      | JObj members =>
          match Json.lookup "message" members with
          | Some message => (Raise (Exception_ (Json.format message)), st)
          | None =>
              match put_to_dss obj st with
              | (Raise e, st') => (Raise e, st')
              | (Ok None, st') => (Ok tt, st')
              | (Ok (Some msg), st') =>
                  (Ok tt, if String.eqb msg EmptyString then st' else print (Text msg) st')
              end
          end
      | _ => (Raise (AttributeError "keys"), st)
      end
  end.

(** The loop [for b in iter(partial(sp.stdout.read, 1), b''):] over the
    bytes the subprocess writes. *)
Fixpoint main_loop (bytes byte_array : string) (st : script store)
  : result unit * script store :=
  match bytes with
  | EmptyString => (Ok tt, st)
  | String b rest =>
      let byte_array := snoc byte_array b in
      if Ascii.eqb b "}" then
        match handle byte_array st with
        | (Ok _, st') => main_loop rest EmptyString st'
        | (Raise e, st') => (Raise e, st')
        end
      else main_loop rest byte_array st
  end.

(** Lines 190 to 200: the file is open and the byte array empty. *)
Definition ingest (bytes : string) (file : store) : result unit * script store :=
  main_loop bytes EmptyString (Build_script file []).

(** A text of the stream that the loop can turn into a series: it ends
    with its only closing brace, decodes to an object without [message],
    and [put_to_dss] gets as far as [dss.put] with it. *)
Definition writable (text : string) : Prop :=
  exists (body : string) (members : list (string * json)) (site_number : json)
         (tsc : TimeSeriesContainer),
    text = (body ++ "}")%string
    /\ contains "}" body = false
    /\ Json.loads text = Ok (JObj members)
    /\ Json.lookup "message" members = None
    /\ make_series (JObj members) = Ok (site_number, tsc).

End WithHec.

(** ** A scripted library

    Times are whole numbers of minutes; the interval codes are those of
    one minute to one day; a regular series is one whose steps are all
    equal, and snapping rounds every time to the nearest multiple of the
    interval; the file keeps the series written, and refuses those whose
    location part is in [refused]. *)

Definition epart_table : list (Z * string) :=
  [(1, "1MIN"); (5, "5MIN"); (15, "15MIN"); (30, "30MIN"); (60, "1HOUR"); (1440, "1DAY")].

Fixpoint all_steps (m : Z) (l : list Z) : bool :=
  match l with
  | t0 :: rest =>
      match rest with
      | t1 :: _ => (t1 - t0 =? m) && all_steps m rest
      | [] => true
      end
  | [] => true
  end.

Definition with_times (tsc : TimeSeriesContainer) (l : list Z) : TimeSeriesContainer :=
  {| fullName := fullName tsc; location := location tsc; parameter := parameter tsc;
     type := type tsc; version := version tsc; interval := interval tsc;
     units := units tsc; times := l; values := values tsc;
     numberValues := numberValues tsc; startTime := startTime tsc;
     endTime := endTime tsc |}.

Definition scripted_hec (refused : list string) : Hec (list TimeSeriesContainer) :=
  {| hec_time_value := fun t =>
       match t with
       | JInt n => Ok n
       | _ => Raise (JavaException "HecTime")
       end;
     get_epart_from_interval_minutes := fun m =>
       match m with
       | Some n =>
           match find (fun p => fst p =? n) epart_table with
           | Some p => Ok (snd p)
           | None => Raise (JavaException "getEPartFromIntervalMinutes")
           end
       | None => Raise (JavaException "getEPartFromIntervalMinutes")
       end;
     make_ascending := fun tsc => Ok tsc;
     is_irregular := fun tsc =>
       Ok (negb (all_steps (default 0 (interval tsc)) (times tsc)));
     snap_to_regular := fun tsc _ =>
       let m := default 1 (interval tsc) in
       Ok (with_times tsc (map (fun t => (2 * t + m) / (2 * m) * m) (times tsc)));
     dss_put := fun file tsc =>
       if existsb (String.eqb (fullName tsc)) refused
       then Raise (JavaException "put")
       else Ok (file ++ [tsc]) |}.

(** Texts of records, as the provider writes them. *)
Definition stage_record : string :=
  q "{'code':'00065','site_number':'03198000','name':'A','times':[0,5,10,21],'values':[1,2,3,4]}".

Definition unknown_record : string :=
  q "{'code':'99999','site_number':'03198001','name':'B','times':[0,5,10],'values':[1,2,3]}".

Definition flow_record : string :=
  q "{'code':'00060','site_number':'03198002','name':'C','times':[0,60,120],'values':[1,2,3]}".

Definition nested_record : string :=
  q "{'code':'00060','site_number':'03198003','name':'D','times':[0,60],'values':[1,2],'site':{'state':'WV'}}".

End AccessWater.

(* ===================================================================== *)
(** * jutil.put_timeseries                                                 *)
(* ===================================================================== *)

Module Timeseries.

Import AccessWater.

(** The container of [put_timeseries], which also sets [timeZoneID]. *)
Record zoned : Type := {
  container : TimeSeriesContainer;
  timeZoneID : string
}.

(** What [put_timeseries] uses beyond the library of the script: the table
    [rtsutils.usgs.USGS_EXTRACT_CODES], [HecDss.open(dsspath)],
    [TimeSeriesMath.checkTimeSeries] and
    [TimeSeriesFunctions.snapToRegularInterval] with zero offsets.  What a
    call throws inside the [try] is an exception that [except Exception]
    catches, as for [dss.put]. *)
Class HecStore (store : Type) : Type := {
  hec_library :: Hec store;
  USGS_EXTRACT_CODES : list (string * (string * string * string * string));
  dss_open : string -> result unit;
  check_time_series : zoned -> result bool;
  snap_to_regular_interval : zoned -> string -> result TimeSeriesContainer
}.

Section WithStore.

Context {store : Type} {H : HecStore store}.

(** [USGS_EXTRACT_CODES[code]] *)
Definition extract_lookup (code : json) : result (string * string * string * string) :=
  match code with
  | JStr c =>
      match assoc c USGS_EXTRACT_CODES with
      | Some x => Ok x
      | None => Raise (KeyError c)
      end
  | JArr _ | JObj _ => Raise (TypeError "unhashable type")
  | other => Raise (KeyError (Json.format other))
  end.

(** The body of the [try] of [put_timeseries]: the message returned and
    the content of the file afterwards. *)
Definition write_series (site_parameters : list (string * json)) (apart bpart : string)
    (codes : string * string * string * string) (file : store)
  : result (option string * store) :=
  let '(parameter, unit, data_type, version) := codes in
  let* its_times := attr site_parameters "times" in
  let* ts := iterate its_times in
  let* times := map_result hec_time_value ts in
  let timestep_min := min_step times None in
  let* epart := get_epart_from_interval_minutes timestep_min in
  let* bpart :=
    if String.eqb bpart "Name" then
      let* name := attr site_parameters "name" in Ok (Json.format name)
    else if String.eqb bpart "Site Number" then
      let* site_number := attr site_parameters "site_number" in
      Ok (Json.format site_number)
    else Ok bpart in
  let pathname :=
    upper ("/" ++ apart ++ "/" ++ bpart ++ "/" ++ parameter ++ "//" ++ epart
             ++ "/" ++ version ++ "/")%string in
  let* its_values := attr site_parameters "values" in
  let* number := Json.len its_times in
  let* start := index times 0 in
  let* stop := last_item times in
  let container :=
    {| container :=
         {| fullName := pathname; location := apart; parameter := parameter;
            type := data_type; version := version; interval := timestep_min;
            units := unit; times := times; values := its_values;
            numberValues := number; startTime := start; endTime := stop |};
       timeZoneID := "UTC" |} in
  let* checked := check_time_series container in
  if negb checked then
    let* site_number := attr site_parameters "site_number" in
    Ok (Some ("site_parameters: " ++ String quote (Json.format site_number)
                ++ String quote " not saved to DSS")%string, file)
  else
    let* tsc := snap_to_regular_interval container epart in
    let* file' := dss_put file tsc in
    Ok (None, file').

(** [put_timeseries(site, dsspath, apart, bpart)], on the content of the
    file at [dsspath]: [None], or the message of a series not saved. *)
Definition put_timeseries (site : json) (dsspath apart bpart : string) (st : script store)
  : result (option string) * script store :=
  match (let* site_parameters := namedtuple site in
         let* code := attr site_parameters "code" in
         let* codes := extract_lookup code in
         let* _ := dss_open dsspath in
         Ok (site_parameters, codes)) with
  | Raise e => (Raise e, st)
  | Ok (site_parameters, codes) =>
      match write_series site_parameters apart bpart codes (dss st) with
      | Ok (msg, file') => (Ok msg, Build_script file' (stdout st))
      | Raise ex =>
          let st' := print (Error ex) st in
          match attr site_parameters "site_number" with
          | Ok site_number =>
              (Ok (Some ("site_parameters: '" ++ Json.format site_number
                           ++ "' not saved to DSS")%string), st')
          | Raise e => (Raise e, st')
          end
      end
  end.

End WithStore.

(** The scripted library, with the codes of the script, a file that
    opens, and a check that accepts the series whose times ascend. *)
Fixpoint ascending (l : list Z) : bool :=
  match l with
  | t0 :: rest =>
      match rest with
      | t1 :: _ => (t0 <? t1) && ascending rest
      | [] => true
      end
  | [] => true
  end.

Definition scripted_store (refused : list string) : HecStore (list TimeSeriesContainer) :=
  {| hec_library := scripted_hec refused;
     USGS_EXTRACT_CODES := usgs_code;
     dss_open := fun _ => Ok tt;
     check_time_series := fun z => Ok (ascending (times (container z)));
     snap_to_regular_interval := fun z epart =>
       snap_to_regular (Hec := scripted_hec refused) (container z) epart |}.

(** A record of the gauge at Kanawha Falls with the given times, in
    minutes. *)
Definition falls_site (times : list Z) : json :=
  JObj [("code", JStr "00065"); ("site_number", JStr "03198000");
        ("name", JStr "Kanawha Falls"); ("times", JArr (map JInt times));
        ("values", JArr (map JInt times))].

End Timeseries.

(* ===================================================================== *)
(** * Properties                                                           *)
(* ===================================================================== *)

Import Go Jutil Cumulus AccessWater.

(** ** Strings *)

Lemma append_assoc (a b c : string) : ((a ++ b) ++ c = a ++ (b ++ c))%string.
Proof. induction a as [|x a IH]; simpl; [reflexivity | now rewrite IH]. Qed.

Lemma append_empty_r (a : string) : (a ++ EmptyString)%string = a.
Proof. induction a as [|x a IH]; simpl; [reflexivity | now rewrite IH]. Qed.

Lemma startswith_append (p s : string) : startswith p (p ++ s) = true.
Proof.
  induction p as [|c p IH]; simpl; [reflexivity |].
  now rewrite Ascii.eqb_refl.
Qed.

Lemma contains_append_r (sub a b : string) :
  contains sub b = true -> contains sub (a ++ b) = true.
Proof.
  intros Hb. induction a as [|c a IH]; [exact Hb |].
  change (String c a ++ b)%string with (String c (a ++ b)).
  cbn [contains]. rewrite IH. apply orb_true_r.
Qed.

Lemma contains_prefix (sub s : string) :
  startswith sub s = true -> contains sub s = true.
Proof. intros Hp. destruct s; cbn [contains]; rewrite Hp; reflexivity. Qed.

Lemma contains_tail (sub : string) (c : ascii) (s : string) :
  contains sub (String c s) = false ->
  startswith sub (String c s) = false /\ contains sub s = false.
Proof. cbn [contains]. intros Hc. apply orb_false_iff in Hc. exact Hc. Qed.

Lemma span_digits_run (ds rest : string) :
  all_chars is_digit ds = true ->
  match rest with String c _ => is_digit c = false | EmptyString => True end ->
  span_digits (ds ++ rest) = (ds, rest).
Proof.
  intros Hds Hrest. induction ds as [|c ds IH]; simpl in *.
  - destruct rest as [|c r]; [reflexivity |]. simpl. now rewrite Hrest.
  - apply andb_true_iff in Hds. destruct Hds as [Hc Hds].
    rewrite Hc, (IH Hds). reflexivity.
Qed.

(** ** The progress marker *)

(** A word in which [p] does not occur cannot start on a text it does not
    start, however the text goes on after a [p]. *)
Lemma startswith_blocked (w pre : string) (p : ascii) (rest : string) :
  all_chars (fun a => negb (Ascii.eqb a p)) w = true ->
  startswith w pre = false ->
  startswith w (pre ++ String p rest) = false.
Proof.
  revert pre. induction w as [|a w IH]; intros pre Hw Hpre.
  - discriminate Hpre.
  - cbn [all_chars] in Hw. apply andb_true_iff in Hw. destruct Hw as [Ha Hw].
    destruct pre as [|b pre]; cbn [startswith String.append] in *.
    + apply negb_true_iff in Ha. now rewrite Ha.
    + apply andb_false_iff in Hpre. destruct Hpre as [Hab | Hpre].
      * now rewrite Hab.
      * rewrite (IH pre Hw Hpre). apply andb_false_r.
Qed.

Lemma startswith_longer (w z s : string) :
  startswith w s = false -> startswith (w ++ z) s = false.
Proof.
  revert s. induction w as [|a w IH]; intros s Hs; [discriminate Hs |].
  destruct s as [|b s]; cbn [startswith String.append] in *; [reflexivity |].
  apply andb_false_iff in Hs. destruct Hs as [Hab | Hs].
  - now rewrite Hab.
  - rewrite (IH s Hs). apply andb_false_r.
Qed.

(** No marker starts inside a text that does not hold [Progress:], even
    when the marker itself follows: the letter P occurs once in it. *)
Lemma marker_not_early (c : ascii) (pre tail : string) :
  startswith "Progress:" (String c pre) = false ->
  startswith "Progress: " (String c pre ++ "Progress: " ++ tail) = false.
Proof.
  intros Hp.
  change (startswith "Progress:" (String c pre))
    with (Ascii.eqb "P" c && startswith "rogress:" pre) in Hp.
  change (startswith "Progress: " (String c pre ++ "Progress: " ++ tail))
    with (Ascii.eqb "P" c &&
          startswith ("rogress:" ++ " ") (pre ++ String "P" ("rogress: " ++ tail))).
  apply andb_false_iff in Hp. destruct Hp as [Hc | Hp]; [now rewrite Hc |].
  rewrite startswith_longer; [apply andb_false_r |].
  now apply startswith_blocked.
Qed.

Lemma progress_at_marker (ds rest : string) :
  ds <> EmptyString ->
  all_chars is_digit ds = true ->
  match rest with String c _ => is_digit c = false | EmptyString => True end ->
  progress_at ("Progress: " ++ ds ++ rest) = Some ds.
Proof.
  intros Hne Hds Hrest. unfold progress_at.
  rewrite startswith_append.
  change (drop 10 ("Progress: " ++ ds ++ rest)) with (ds ++ rest)%string.
  rewrite (span_digits_run _ _ Hds Hrest).
  destruct ds; [congruence | reflexivity].
Qed.

Lemma search_progress_marker (pre ds rest : string) :
  contains "Progress:" pre = false ->
  ds <> EmptyString ->
  all_chars is_digit ds = true ->
  match rest with String c _ => is_digit c = false | EmptyString => True end ->
  search_progress (pre ++ "Progress: " ++ ds ++ rest) = Some ds.
Proof.
  intros Hpre Hne Hds Hrest. induction pre as [|c pre IH].
  - change (EmptyString ++ "Progress: " ++ ds ++ rest)%string
      with ("Progress: " ++ ds ++ rest)%string.
    destruct ("Progress: " ++ ds ++ rest)%string eqn:E;
      cbn [search_progress]; rewrite <- E;
      now rewrite (progress_at_marker _ _ Hne Hds Hrest).
  - apply contains_tail in Hpre. destruct Hpre as [Hhere Hpre].
    change (String c pre ++ "Progress: " ++ ds ++ rest)%string
      with (String c (pre ++ "Progress: " ++ ds ++ rest)).
    cbn [search_progress].
    replace (progress_at (String c (pre ++ "Progress: " ++ ds ++ rest))) with (@None string).
    + exact (IH Hpre).
    + unfold progress_at.
      change (String c (pre ++ "Progress: " ++ ds ++ rest))
        with (String c pre ++ "Progress: " ++ (ds ++ rest))%string.
      now rewrite (marker_not_early _ _ _ Hhere).
Qed.

Lemma decode_ok (s t : string) : decode s = Ok t -> t = s.
Proof. unfold decode. destruct (all_chars _ s); congruence. Qed.

(** The lines are handled one after the other, and what each hands to
    [publish] is appended to what the lines before it handed over. *)
Lemma read_stderr_in_order (lines : list string) (stderr : string) :
  Forall (fun l => exists t, decode (strip l) = Ok t /\ snd (__parse_go_output t) = Ok tt) lines ->
  read_stderr true lines stderr =
    (map Published (flat_map (fun l => fst (__parse_go_output (strip l))) lines),
     Ok (stderr ++ concat_strings lines)%string).
Proof.
  intros Hall. revert stderr.
  induction Hall as [|l lines [t [Hd Hp]] _ IH]; intros stderr.
  - cbn. now rewrite append_empty_r.
  - cbn [read_stderr flat_map concat_strings fold_right].
    rewrite Hd. pose proof (decode_ok _ _ Hd) as ->.
    destruct (__parse_go_output (strip l)) as [sent r] eqn:E.
    cbn [snd fst] in *. subst r.
    rewrite (IH (stderr ++ l)%string), map_app, append_assoc. reflexivity.
Qed.

(** C3, as the code has it: a line with the marker [Progress: <int>] gives
    the number to [publish] and then, unless it also says
    [Status: INITIATED], the line itself; a line without [Progress:] gives
    nothing when it says [Status: INITIATED] and itself otherwise; and the
    realtime loop of [get] hands these over line by line, in the order of
    arrival. *)
Theorem go_output_translation :
  (forall pre ds rest : string,
      contains "Progress:" pre = false ->
      ds <> EmptyString ->
      all_chars is_digit ds = true ->
      match rest with String c _ => is_digit c = false | EmptyString => True end ->
      let line := (pre ++ "Progress: " ++ ds ++ rest)%string in
      __parse_go_output line =
        (MInt (int_digits ds)
           :: (if contains "Status: INITIATED" line then [] else [MStr line]),
         Ok tt))
  /\ (forall line : string,
      contains "Progress:" line = false ->
      __parse_go_output line =
        (if contains "Status: INITIATED" line then [] else [MStr line], Ok tt))
  /\ (forall (lines : list string) (stderr : string),
      Forall (fun l => exists t, decode (strip l) = Ok t
                                 /\ snd (__parse_go_output t) = Ok tt) lines ->
      read_stderr true lines stderr =
        (map Published (flat_map (fun l => fst (__parse_go_output (strip l))) lines),
         Ok (stderr ++ concat_strings lines)%string)).
Proof.
  split; [| split].
  - intros pre ds rest Hpre Hne Hds Hrest line. unfold __parse_go_output.
    assert (Hin : contains "Progress:" line = true).
    { apply contains_append_r, contains_prefix.
      change "Progress: " with ("Progress:" ++ " ")%string.
      rewrite append_assoc. apply startswith_append. }
    rewrite Hin. unfold line at 1.
    rewrite (search_progress_marker _ _ _ Hpre Hne Hds Hrest).
    now destruct (contains "Status: INITIATED" line).
  - intros line Hno. unfold __parse_go_output. rewrite Hno.
    now destruct (contains "Status: INITIATED" line).
  - exact read_stderr_in_order.
Qed.

Lemma go_output_translation_witness :
  __parse_go_output "Progress: 42" = ([MInt 42; MStr "Progress: 42"], Ok tt)
  /\ __parse_go_output "Status: INITIATED" = ([], Ok tt)
  /\ read_stderr true ["Status: INITIATED"; "Progress: 42"; "done"] EmptyString
     = ([Published (MInt 42); Published (MStr "Progress: 42"); Published (MStr "done")],
        Ok "Status: INITIATEDProgress: 42done").
Proof.
  destruct go_output_translation as [Hmark [Hplain Hloop]].
  split; [| split].
  - apply (Hmark EmptyString "42" EmptyString); [reflexivity | discriminate | reflexivity | exact I].
  - apply (Hplain "Status: INITIATED"). reflexivity.
  - apply (Hloop ["Status: INITIATED"; "Progress: 42"; "done"] EmptyString).
    repeat constructor; eexists; (split; [reflexivity | reflexivity]).
Defined.

(** C3 as stated fails: the line [Progress: 42] is turned into the number
    42 and is then given to [publish] as a log line as well. *)
Lemma progress_line_is_logged_too :
  fst (__parse_go_output "Progress: 42") = [MInt 42; MStr "Progress: 42"]
  /\ fst (__parse_go_output "Progress: 42") <> [MInt 42].
Proof. split; [reflexivity | discriminate]. Qed.

(** ** Splitting on the separator *)

Lemma split_from_not_nil (sep s cur : string) (skip : nat) :
  split_from sep s cur skip <> [].
Proof.
  revert cur skip. induction s as [|c s IH]; intros cur skip; cbn [split_from].
  - discriminate.
  - destruct skip; [| apply IH].
    destruct (startswith sep (String c s)); [discriminate | apply IH].
Qed.

Lemma last_item_cons {A} (x : A) (l : list A) :
  l <> [] -> last_item (x :: l) = last_item l.
Proof. destruct l; [congruence | reflexivity]. Qed.

(** A text without the separator is one piece. *)
Lemma split_from_no_separator (sep s cur : string) :
  contains sep s = false ->
  split_from sep s cur 0 = [(cur ++ s)%string].
Proof.
  revert cur. induction s as [|c s IH]; intros cur Hno.
  - cbn. now rewrite append_empty_r.
  - apply contains_tail in Hno. destruct Hno as [Hhere Hno].
    cbn [split_from]. rewrite Hhere, (IH _ Hno), append_assoc. reflexivity.
Qed.

Lemma last_char_cons (c : ascii) (s : string) :
  s <> EmptyString -> last_char (String c s) = last_char s.
Proof. destruct s; [congruence | reflexivity]. Qed.

(** The last piece is the text after the last separator. *)
Lemma last_piece_bounded (n : nat) :
  forall pre msg cur : string,
    (String.length pre <= n)%nat ->
    last_char pre <> Some ":"%char ->
    contains "::" msg = false ->
    last_item (split_from "::" (pre ++ "::" ++ msg) cur 0) = Ok msg.
Proof.
  induction n as [|n IH]; intros pre msg cur Hlen Hlast Hmsg.
  - destruct pre; [| cbn in Hlen; lia].
    cbn [String.append split_from startswith Ascii.eqb Bool.eqb andb String.length Nat.sub].
    now rewrite (split_from_no_separator _ _ _ Hmsg).
  - destruct pre as [|c pre].
    + cbn [String.append split_from startswith Ascii.eqb Bool.eqb andb String.length Nat.sub].
      now rewrite (split_from_no_separator _ _ _ Hmsg).
    + change (String c pre ++ "::" ++ msg)%string with (String c (pre ++ "::" ++ msg)).
      cbn [split_from]. cbn [String.length] in Hlen.
      destruct (startswith "::" (String c (pre ++ "::" ++ msg))) eqn:Hs.
      * cbn [startswith] in Hs.
        destruct pre as [|c' pre].
        { apply andb_true_iff in Hs. destruct Hs as [Hc _].
          apply Ascii.eqb_eq in Hc. subst c. now elim Hlast. }
        rewrite last_item_cons by apply split_from_not_nil.
        change (String c' pre ++ "::" ++ msg)%string with (String c' (pre ++ "::" ++ msg)).
        cbn [split_from String.length Nat.sub].
        cbn [String.length] in Hlen.
        apply IH; [lia | | exact Hmsg].
        destruct pre as [|c'' pre]; [discriminate |].
        rewrite !last_char_cons in Hlast by discriminate. exact Hlast.
      * apply IH; [lia | | exact Hmsg].
        destruct pre as [|c' pre]; [discriminate |].
        rewrite last_char_cons in Hlast by discriminate. exact Hlast.
Qed.

Lemma last_piece (pre msg : string) :
  last_char pre <> Some ":"%char ->
  contains "::" msg = false ->
  last_item (split "::" (pre ++ "::" ++ msg)) = Ok msg.
Proof. intros. now apply (last_piece_bounded (String.length pre)). Qed.

Lemma last_item_split (sep s : string) : exists piece, last_item (split sep s) = Ok piece.
Proof.
  unfold split. pose proof (split_from_not_nil sep s EmptyString 0) as Hne.
  induction (split_from sep s EmptyString 0) as [|x l IH]; [congruence |].
  destruct l as [|y l]; [now exists x |].
  rewrite last_item_cons by discriminate. apply IH. discriminate.
Qed.

(** ** The end of a run *)



(** ** The window and the stored range *)

Lemma ltb_lt (a b : datetime) : ltb a b = true <-> to_seconds a < to_seconds b.
Proof. unfold ltb. apply Z.ltb_lt. Qed.

Lemma ltb_ge (a b : datetime) : ltb a b = false <-> to_seconds b <= to_seconds a.
Proof. unfold ltb. rewrite Z.ltb_ge. reflexivity. Qed.

Lemma leb_le (a b : datetime) : leb a b = true <-> to_seconds a <= to_seconds b.
Proof. unfold leb. apply Z.leb_le. Qed.

(** A stored range that ends by the start of the window, or starts no
    earlier than its end, moves neither bound. *)
Lemma shrink_disjoint (after before data_start data_end : datetime) :
  leb after before = true ->
  leb data_end after = true \/ leb before data_start = true ->
  shrink after before data_start data_end = (after, before).
Proof.
  intros Hw Hd. apply leb_le in Hw. unfold shrink.
  destruct (ltb after data_end) eqn:H1, (ltb data_start after) eqn:H2,
           (ltb before data_end) eqn:H3, (ltb data_start before) eqn:H4;
    cbn [andb]; try reflexivity; exfalso;
    rewrite ?ltb_lt, ?ltb_ge in *;
    destruct Hd as [Hd | Hd]; apply leb_le in Hd; lia.
Qed.

(** A stored range that starts before the window and ends after it turns
    the window inside out. *)
Lemma shrink_covered (after before data_start data_end : datetime) :
  ltb data_start after = true ->
  ltb after before = true ->
  ltb before data_end = true ->
  shrink after before data_start data_end = (data_end, data_start).
Proof.
  intros H1 H2 H3. unfold shrink.
  rewrite ltb_lt in *.
  assert (Ha : ltb after data_end = true) by (apply ltb_lt; lia).
  assert (Hb : ltb data_start before = true) by (apply ltb_lt; lia).
  rewrite Ha, Hb. apply ltb_lt in H1, H3. now rewrite H1, H3.
Qed.

(** An empty window stays empty, whatever range it meets next. *)
Lemma shrink_keeps_empty (after before data_start data_end : datetime) :
  leb before after = true ->
  leb (snd (shrink after before data_start data_end))
      (fst (shrink after before data_start data_end)) = true.
Proof.
  intros He. apply leb_le in He. unfold shrink. cbn [fst snd].
  destruct (ltb after data_end) eqn:H1, (ltb data_start after) eqn:H2,
           (ltb before data_end) eqn:H3, (ltb data_start before) eqn:H4;
    cbn [andb]; apply leb_le;
    rewrite ?ltb_lt, ?ltb_ge in *; lia.
Qed.

(** A stored range that starts strictly before the window and ends inside
    it moves the start of the window to its end. *)
Lemma shrink_left_edge (after before data_start data_end : datetime) :
  ltb data_start after = true ->
  ltb after data_end = true ->
  leb data_end before = true ->
  shrink after before data_start data_end = (data_end, before).
Proof.
  intros H1 H2 H3. unfold shrink. rewrite H1, H2. cbn [andb].
  replace (ltb before data_end) with false; [reflexivity |].
  symmetry. apply ltb_ge. now apply leb_le.
Qed.

(** A stored range that starts at the very start of the window and ends
    inside it moves nothing: the comparisons are strict. *)
Lemma shrink_same_start (after before data_start data_end : datetime) :
  to_seconds data_start = to_seconds after ->
  leb data_end before = true ->
  shrink after before data_start data_end = (after, before).
Proof.
  intros H1 H2. unfold shrink.
  replace (ltb data_start after) with false
    by (symmetry; apply ltb_ge; lia).
  replace (ltb before data_end) with false
    by (symmetry; apply ltb_ge; now apply leb_le).
  now rewrite andb_false_r.
Qed.

(** The timeout of a window that is not empty is the floor: the difference
    is taken as [after - before], whose days are negative. *)
Lemma window_timeout_floor (after before : datetime) :
  ltb after before = true -> window_timeout after before = 300.
Proof.
  intros Hw. apply ltb_lt in Hw. unfold window_timeout, sub. cbn [days].
  assert (Hd : (to_seconds after - to_seconds before) / 86400 < 0)
    by (apply Z.div_lt_upper_bound; lia).
  destruct (_ * 20 <? 300) eqn:E; [reflexivity |].
  apply Z.ltb_ge in E. lia.
Qed.

(** C7 on a window of thirty days: twenty seconds a day would be 600, and
    the request handed to the worker carries 300. *)
Theorem thirty_day_timeout :
  let st := snd (execute (W := scripted_world (fun _ => []) ["obs-1"] good_run) true
                   (requested "2024-01-01T00:00:00Z" "2024-01-31T00:00:00Z")) in
  map (fun flags : dict => (flags !! "Subcommand", flags !! "Timeout"))
      (worker_requests (trace st))
    = [(Some (JStr "get"), None); (Some (JStr "get"), None);
       (Some (JStr "grid"), Some (JInt 300))]
  /\ Z.max (20 * 30) 300 = 600.
Proof. vm_compute. split; reflexivity. Qed.

(** C2 on its own scenario: the store holds 1 January to 5 January, the
    window asked for is 1 January to 10 January, and it is left as it
    was, because the stored range does not start strictly before it. *)
Theorem scenario_window_unchanged :
  let st := snd (adjust_dates_by_cache (W := scripted_world first_days ["obs-1"] good_run)
                   (requested "2024-01-01T00:00:00Z" "2024-01-10T00:00:00Z")) in
  get_existing_precip_data_range
    (C := world_catalog (World := scripted_world first_days ["obs-1"] good_run))
    (JStr "grid.dss") (JStr "Kanawha River") (JStr "MRMS-QPE")
    = Ok (Some (mk_datetime 2024 1 1 0 0 0), Some (mk_datetime 2024 1 5 0 0 0))
  /\ config_dict st !! "After" = Some (JStr "2024-01-01T00:00:00Z")
  /\ config_dict st !! "Before" = Some (JStr "2024-01-10T00:00:00Z").
Proof. vm_compute. repeat split; reflexivity. Qed.

(** ** What [get_metadata] leaves alone *)

Section Frame.

Context {W : World}.

Lemma keeps_bind {A B} (l : nat) (m : M A) (k : A -> M B) :
  keeps l m -> (forall a, keeps l (k a)) -> keeps l (bindM m k).
Proof.
  intros Hm Hk st Hl. unfold bindM.
  destruct (Hm st Hl) as (Hg & Hh & Hc & Hp).
  destruct (m st) as [[a | e] st1]; cbn [snd] in *.
  - assert (Hl1 : go_config st1 <> l) by congruence.
    destruct (Hk a st1 Hl1) as (Hg' & Hh' & Hc' & Hp').
    repeat split; congruence.
  - repeat split; assumption.
Qed.

Lemma keeps_lift {A} (l : nat) (r : result A) : keeps l (lift r).
Proof. intros st _. cbn. repeat split. Qed.

Lemma keeps_raise {A} (l : nat) (e : exn) : keeps l (raise (A := A) e).
Proof. intros st _. cbn. repeat split. Qed.

Lemma keeps_report (l : nat) (msg : string) : keeps l (report msg).
Proof. intros st _. cbn. repeat split. Qed.

Lemma keeps_config_set (l : nat) (k : string) (v : json) : keeps l (config_set k v).
Proof.
  intros st Hl. cbn. repeat split.
  now apply list_lookup_insert_ne.
Qed.

Lemma keeps_go_get (l : nat) (realtime : bool) : keeps l (go_get realtime).
Proof.
  intros st _. unfold go_get.
  destruct (Go.get _ _ _) as [shown r]. cbn. repeat split.
Qed.

Lemma keeps_modify_products (l : nat) (v : json) : keeps l (modify (set_products_meta v)).
Proof. intros st _. cbn. repeat split. Qed.

Lemma keeps_modify_watersheds (l : nat) (v : json) : keeps l (modify (set_watersheds_meta v)).
Proof. intros st _. cbn. repeat split. Qed.

End Frame.

Create HintDb frame.

#[local] Hint Resolve keeps_lift keeps_raise keeps_report keeps_config_set
  keeps_go_get keeps_modify_products keeps_modify_watersheds : frame.

Ltac frame_step :=
  first [ apply keeps_bind; [| intros ? ]
        | match goal with
          | |- keeps _ (let '(_, _) := ?p in _) => destruct p
          | |- keeps _ (if ?b then _ else _) => destruct b
          end
        | solve [auto with frame]
        | (intros ? _; cbn; repeat split; reflexivity) ].


(** ** Reading back what [strftime] writes *)

Lemma first_match_local {R} (alts : list (list char_class)) (s t r : string)
    (k : string -> string -> option R) (x : R) :
  first_local alts s = Some (t, r) ->
  k t r = Some x ->
  first_match alts s k = Some x.
Proof.
  intros Hl Hk. induction alts as [|a alts IH]; [discriminate Hl |].
  cbn [first_local first_match] in *.
  destruct (match_classes a s) as [[t' r'] |].
  - inversion Hl; subst. now rewrite Hk.
  - now apply IH.
Qed.

Lemma first_match_some {R} (alts : list (list char_class)) (s : string)
    (k : string -> string -> option R) (x : R) :
  first_match alts s k = Some x -> exists t r, k t r = Some x.
Proof.
  induction alts as [|a alts IH]; [discriminate |].
  cbn [first_match]. destruct (match_classes a s) as [[t r] |]; [| exact IH].
  destruct (k t r) eqn:E; [| exact IH].
  intros Hx. inversion Hx; subst. now exists t, r.
Qed.

Lemma re_match_dir (d : directive) (f : list item) (s t r : string)
    (acc : datetime) (x : datetime * string) :
  first_local (alternatives d) s = Some (t, r) ->
  re_match f r (set_field d (value_of d t) acc) = Some x ->
  re_match (Dir d :: f) s acc = Some x.
Proof. intros Hl Hk. cbn [re_match]. now apply (first_match_local _ _ t r). Qed.

Lemma re_match_lit (c : ascii) (f : list item) (s : string) (acc : datetime) :
  re_match (Lit c :: f) (String c s) acc = re_match f s acc.
Proof. cbn [re_match]. unfold same_letter. now rewrite Ascii.eqb_refl. Qed.

(** Every number from 0 to 59 is one of sixty. *)
Lemma below_sixty (P : Z -> Prop) :
  (forall n : nat, (n < 60)%nat -> P (Z.of_nat n)) ->
  forall v : Z, 0 <= v < 60 -> P v.
Proof.
  intros Hn v Hv. rewrite <- (Z2Nat.id v) by lia. apply Hn. lia.
Qed.

Ltac sixty_cases :=
  let n := fresh "n" in
  let Hn := fresh "Hn" in
  intros n Hn;
  do 60 (destruct n as [|n]; [try (intros; lia); try (intros; split; reflexivity) |]);
  lia.

Lemma two_digits_read (d : directive) (lo hi : Z) (rest : string) :
  (d, lo, hi) = (Dd, 1, 31) \/ (d, lo, hi) = (Dm, 1, 12) \/ (d, lo, hi) = (DH, 0, 23)
  \/ (d, lo, hi) = (DM, 0, 59) \/ (d, lo, hi) = (DS, 0, 59) ->
  forall v : Z, 0 <= v < 60 -> lo <= v <= hi ->
    first_local (alternatives d) (two_digits v ++ rest) = Some (two_digits v, rest)
    /\ value_of d (two_digits v) = v.
Proof.
  intros Hd.
  destruct Hd as [Hd | [Hd | [Hd | [Hd | Hd]]]]; inversion Hd; subst;
    apply (below_sixty (fun v => _ <= v <= _ -> _ /\ _)); sixty_cases.
Qed.

Lemma month_read (rest : string) :
  forall v : Z, 1 <= v <= 12 ->
    let text := nth (Z.to_nat (v - 1)) month_abbr EmptyString in
    first_local (alternatives Db) (text ++ rest) = Some (text, rest)
    /\ value_of Db text = v.
Proof.
  intros v Hv.
  assert (Hc : v = 1 \/ v = 2 \/ v = 3 \/ v = 4 \/ v = 5 \/ v = 6 \/ v = 7
               \/ v = 8 \/ v = 9 \/ v = 10 \/ v = 11 \/ v = 12) by lia.
  repeat (destruct Hc as [Hc | Hc]; [subst v; split; reflexivity |]).
  subst v; split; reflexivity.
Qed.

Lemma digit_char_digit (n : Z) :
  digit (digit_char n) = true /\ digit_val (digit_char n) = n mod 10
  /\ is_space (digit_char n) = false.
Proof.
  unfold digit_char.
  assert (Hm : 0 <= n mod 10 < 10) by (apply Z.mod_pos_bound; lia).
  set (m := n mod 10) in *. clearbody m.
  assert (Hc : m = 0 \/ m = 1 \/ m = 2 \/ m = 3 \/ m = 4 \/ m = 5 \/ m = 6
               \/ m = 7 \/ m = 8 \/ m = 9) by lia.
  repeat (destruct Hc as [Hc | Hc]; [subst m; repeat split; reflexivity |]).
  subst m; repeat split; reflexivity.
Qed.

Lemma year_read (rest : string) (y : Z) :
  0 <= y <= 9999 ->
  first_local (alternatives DY) (four_digits y ++ rest) = Some (four_digits y, rest)
  /\ value_of DY (four_digits y) = y.
Proof.
  intros Hy. unfold four_digits.
  destruct (digit_char_digit (y / 1000)) as (D1 & V1 & S1).
  destruct (digit_char_digit (y / 100)) as (D2 & V2 & _).
  destruct (digit_char_digit (y / 10)) as (D3 & V3 & _).
  destruct (digit_char_digit y) as (D4 & V4 & _).
  split.
  - cbn [alternatives first_local match_classes String.append].
    now rewrite D1, D2, D3, D4.
  - cbn [value_of lstrip]. rewrite S1.
    unfold int_digits. cbn [int_digits_from].
    rewrite V1, V2, V3, V4.
    Z.to_euclidean_division_equations. lia.
Qed.

(** A format of date directives and literals leaves the time of day as it
    found it. *)
Lemma re_match_keeps_time (f : list item) :
  forallb date_item f = true ->
  forall (s : string) (acc dt : datetime) (r : string),
    re_match f s acc = Some (dt, r) ->
    hour dt = hour acc /\ minute dt = minute acc /\ second dt = second acc.
Proof.
  induction f as [|i f IH]; intros Hf s acc dt r Hm.
  - cbn in Hm. inversion Hm; subst. repeat split.
  - cbn [forallb] in Hf. apply andb_true_iff in Hf. destruct Hf as [Hi Hf].
    destruct i as [c | d]; cbn [re_match] in Hm.
    + destruct s as [|c' s]; [discriminate |].
      destruct (same_letter c c'); [| discriminate].
      exact (IH Hf _ _ _ _ Hm).
    + apply first_match_some in Hm. destruct Hm as (t & r' & Hm).
      destruct (IH Hf _ _ _ _ Hm) as (Hh & Hmi & Hs).
      destruct d; try discriminate Hi; cbn in *; repeat split; assumption.
Qed.

Lemma strptime_date (text : string) (dt : datetime) :
  strptime text "%d%b%Y:2400" = Ok dt ->
  valid dt = true /\ hour dt = 0 /\ minute dt = 0 /\ second dt = 0.
Proof.
  unfold strptime. cbn [items_of directive_of Ascii.eqb Bool.eqb bind].
  destruct (re_match _ text unset) as [[d r] |] eqn:Hm; [| discriminate].
  destruct r; [| discriminate].
  destruct (valid d) eqn:Hv; [| discriminate].
  intros Hd. inversion Hd; subst d. split; [exact Hv |].
  apply re_match_keeps_time in Hm; [exact Hm | reflexivity].
Qed.

(** ** The day after *)

Lemma valid_fields (dt : datetime) :
  valid dt = true <->
  (1 <= year dt <= 9999) /\ (1 <= month dt <= 12)
  /\ (1 <= day dt <= days_in_month (year dt) (month dt))
  /\ (0 <= hour dt <= 23) /\ (0 <= minute dt <= 59) /\ (0 <= second dt <= 59).
Proof.
  unfold valid. rewrite !andb_true_iff, !Z.leb_le. tauto.
Qed.

Lemma days_in_month_bounds (y m : Z) : 28 <= days_in_month y m <= 31.
Proof.
  unfold days_in_month.
  destruct (m =? 2); [destruct (is_leap y); lia |].
  destruct ((m =? 4) || (m =? 6) || (m =? 9) || (m =? 11)); lia.
Qed.

Lemma days_before_next_month (y m : Z) :
  1 <= m ->
  days_before_month y (m + 1) = days_before_month y m + days_in_month y m.
Proof.
  intros Hm. unfold days_before_month.
  replace (m + 1 - 1) with m by lia.
  replace (Z.to_nat m) with (S (Z.to_nat (m - 1))) by lia.
  cbn [days_of_months]. f_equal. f_equal. lia.
Qed.

Lemma days_before_december (y : Z) :
  days_before_month y 12 = if is_leap y then 335 else 334.
Proof.
  unfold days_before_month. change (Z.to_nat (12 - 1)) with 11%nat.
  cbn [days_of_months]. unfold days_in_month.
  generalize (is_leap y). intros []; reflexivity.
Qed.

Lemma days_before_next_year (y : Z) :
  days_before_year (y + 1) = days_before_year y + days_before_month y 12 + 31.
Proof.
  rewrite days_before_december. unfold days_before_year, is_leap.
  replace (y + 1 - 1) with y by lia.
  destruct (y mod 4 =? 0) eqn:H4, (y mod 100 =? 0) eqn:H100, (y mod 400 =? 0) eqn:H400;
    cbn [andb orb negb];
    rewrite ?Z.eqb_eq, ?Z.eqb_neq in *;
    Z.to_euclidean_division_equations; lia.
Qed.

(** [dt + timedelta(days=1)] is the next day, at the same time of day. *)
Lemma plus_one_day_next (dt next : datetime) :
  valid dt = true ->
  plus_one_day dt = Ok next ->
  valid next = true
  /\ to_ordinal next = to_ordinal dt + 1
  /\ hour next = hour dt /\ minute next = minute dt /\ second next = second dt
  /\ year dt <= year next.
Proof.
  intros Hv Hn. apply valid_fields in Hv.
  destruct Hv as (Hy & Hm & Hd & Hh & Hmi & Hs).
  unfold plus_one_day in Hn.
  destruct (day dt <? days_in_month (year dt) (month dt)) eqn:E1.
  - apply Z.ltb_lt in E1. inversion Hn; subst next; clear Hn.
    split; [apply valid_fields; cbn; repeat split; lia |].
    unfold to_ordinal; cbn. repeat split; lia.
  - apply Z.ltb_ge in E1.
    destruct (month dt <? 12) eqn:E2.
    + apply Z.ltb_lt in E2. inversion Hn; subst next; clear Hn.
      pose proof (days_in_month_bounds (year dt) (month dt + 1)) as Hb.
      split; [apply valid_fields; cbn; repeat split; lia |].
      unfold to_ordinal; cbn.
      rewrite days_before_next_month by lia. repeat split; lia.
    + apply Z.ltb_ge in E2.
      destruct (year dt <? 9999) eqn:E3; [| discriminate].
      apply Z.ltb_lt in E3. inversion Hn; subst next; clear Hn.
      assert (H12 : month dt = 12) by lia.
      split; [apply valid_fields; cbn; repeat split; try lia; reflexivity |].
      unfold to_ordinal; cbn.
      rewrite days_before_next_year, H12 in *.
      change (days_in_month (year dt) 12) with 31 in *.
      change (days_before_month (year dt + 1) 1) with 0.
      repeat split; lia.
Qed.

(** What [strftime] writes with [%d%b%Y:0000] reads back, with
    [%d%b%Y:%H%M], as the same day at midnight. *)
Lemma midnight_read (dt : datetime) :
  valid dt = true ->
  1900 <= year dt ->
  exists text : string,
    strftime dt "%d%b%Y:0000" = Ok text
    /\ strptime text "%d%b%Y:%H%M" = Ok (mk_datetime (year dt) (month dt) (day dt) 0 0 0).
Proof.
  intros Hv Hy. pose proof Hv as Hf. apply valid_fields in Hf.
  destruct Hf as (Hyr & Hm & Hd & _).
  pose proof (days_in_month_bounds (year dt) (month dt)) as Hb.
  unfold strftime, strptime.
  cbn [items_of directive_of Ascii.eqb Bool.eqb bind].
  replace (year dt <? 1900) with false by (symmetry; apply Z.ltb_ge; lia).
  eexists. split; [reflexivity |].
  cbn [render text_of].
  destruct (two_digits_read Dd 1 31
              (nth (Z.to_nat (month dt - 1)) month_abbr EmptyString
                 ++ four_digits (year dt) ++ ":0000")
              (or_introl eq_refl) (day dt)) as [Ld Vd]; [lia | lia |].
  destruct (month_read (four_digits (year dt) ++ ":0000") (month dt) Hm) as [Lb Vb].
  destruct (year_read ":0000" (year dt)) as [LY VY]; [lia |].
  erewrite re_match_dir; [| exact Ld |].
  2: { rewrite Vd. erewrite re_match_dir; [| exact Lb |].
       2: { rewrite Vb. erewrite re_match_dir; [| exact LY |].
            2: { rewrite VY. reflexivity. }
            reflexivity. }
       reflexivity. }
  cbn [set_field year month day hour minute second unset].
  replace (valid _) with true; [reflexivity |].
  symmetry. apply valid_fields.
  cbn [year month day hour minute second].
  change (value_of DH "00") with 0. change (value_of DM "00") with 0.
  repeat split; lia.
Qed.

(** ** The record datetimes *)

(** C10: when the end-time field of a pathname ends in [2400], the end
    returned is midnight of the day after the date of that field; any other
    pathname has its two time fields read as they are with
    [%d%b%Y:%H%M]. *)
Theorem record_datetimes_2400 (pathname d_part e_part : string) :
  nth_error (split "/" pathname) 4 = Some d_part ->
  nth_error (split "/" pathname) 5 = Some e_part ->
  (last_chars 4 e_part = "2400" ->
   forall date next start : datetime,
     strptime e_part "%d%b%Y:2400" = Ok date ->
     1900 <= year date ->
     plus_one_day date = Ok next ->
     strptime d_part "%d%b%Y:%H%M" = Ok start ->
     get_precip_record_datetimes pathname = Ok (start, next)
     /\ to_ordinal next = to_ordinal date + 1
     /\ hour next = 0 /\ minute next = 0 /\ second next = 0)
  /\ (last_chars 4 e_part <> "2400" ->
      get_precip_record_datetimes pathname =
        (let* path_start_dt := strptime d_part "%d%b%Y:%H%M" in
         let* path_end_dt := strptime e_part "%d%b%Y:%H%M" in
         Ok (path_start_dt, path_end_dt))).
Proof.
  intros H4 H5. unfold get_precip_record_datetimes, index.
  rewrite H4, H5. cbn [bind]. split.
  - intros Hend date next start Hdate Hyear Hnext Hstart.
    rewrite Hend. cbn [String.eqb Ascii.eqb Bool.eqb].
    rewrite Hdate. cbn [bind]. rewrite Hnext. cbn [bind].
    destruct (strptime_date _ _ Hdate) as (Hv & Hh & Hmi & Hs).
    destruct (plus_one_day_next _ _ Hv Hnext) as (Hv' & Hord & Hh' & Hmi' & Hs' & Hy').
    destruct (midnight_read next Hv') as (text & Hwrite & Hread); [lia |].
    rewrite Hwrite. cbn [bind]. rewrite Hstart. cbn [bind]. rewrite Hread. cbn [bind].
    assert (Hz : hour next = 0 /\ minute next = 0 /\ second next = 0)
      by (repeat split; congruence).
    destruct Hz as (Z1 & Z2 & Z3).
    repeat split; try assumption.
    destruct next as [y m d h mi s].
    cbn [year month day hour minute second] in Z1, Z2, Z3 |- *.
    subst h mi s. reflexivity.
  - intros Hend. apply String.eqb_neq in Hend. rewrite Hend. reflexivity.
Qed.

Lemma record_datetimes_2400_witness :
  get_precip_record_datetimes "/SHG/KANAWHA RIVER/PRECIP/31DEC2023:2300/31DEC2023:2400/MRMS-QPE/"
    = Ok (mk_datetime 2023 12 31 23 0 0, mk_datetime 2024 1 1 0 0 0)
  /\ get_precip_record_datetimes "/SHG/KANAWHA RIVER/PRECIP/28FEB2024:2300/29FEB2024:0000/MRMS-QPE/"
    = Ok (mk_datetime 2024 2 28 23 0 0, mk_datetime 2024 2 29 0 0 0).
Proof.
  split.
  - destruct (record_datetimes_2400
                "/SHG/KANAWHA RIVER/PRECIP/31DEC2023:2300/31DEC2023:2400/MRMS-QPE/"
                "31DEC2023:2300" "31DEC2023:2400" eq_refl eq_refl) as [Hlate _].
    destruct (Hlate eq_refl (mk_datetime 2023 12 31 0 0 0) (mk_datetime 2024 1 1 0 0 0)
                (mk_datetime 2023 12 31 23 0 0)) as [Hrun _];
      [reflexivity | cbn; lia | reflexivity | reflexivity | exact Hrun].
  - destruct (record_datetimes_2400
                "/SHG/KANAWHA RIVER/PRECIP/28FEB2024:2300/29FEB2024:0000/MRMS-QPE/"
                "28FEB2024:2300" "29FEB2024:0000" eq_refl eq_refl) as [_ Hplain].
    rewrite Hplain; [reflexivity | discriminate].
Defined.

(** ** The window written back *)

(** What [strftime] writes with [ISO_FORMAT], [strptime] reads back. *)
Lemma iso_read (dt : datetime) :
  valid dt = true ->
  1900 <= year dt ->
  exists text : string,
    strftime dt ISO_FORMAT = Ok text /\ strptime text ISO_FORMAT = Ok dt.
Proof.
  intros Hv Hy. pose proof Hv as Hf. apply valid_fields in Hf.
  destruct Hf as (Hyr & Hm & Hd & Hh & Hmi & Hs).
  pose proof (days_in_month_bounds (year dt) (month dt)) as Hb.
  unfold strftime, strptime, ISO_FORMAT.
  cbn [items_of directive_of Ascii.eqb Bool.eqb bind].
  replace (year dt <? 1900) with false by (symmetry; apply Z.ltb_ge; lia).
  eexists. split; [reflexivity |].
  cbn [render text_of].
  match goal with
  | |- context [re_match ?f (four_digits _ ++ ?r1) _] =>
      destruct (year_read r1 (year dt)) as [LY VY]; [lia |]
  end.
  erewrite re_match_dir; [| exact LY |]. 2: {
  rewrite VY, re_match_lit.
  match goal with
  | |- context [re_match ?f (two_digits _ ++ ?r2) _] =>
      destruct (two_digits_read Dm 1 12 r2 (or_intror (or_introl eq_refl)) (month dt))
        as [Lm Vm]; [lia | lia |]
  end.
  erewrite re_match_dir; [| exact Lm |]. 2: {
  rewrite Vm, re_match_lit.
  match goal with
  | |- context [re_match ?f (two_digits _ ++ ?r3) _] =>
      destruct (two_digits_read Dd 1 31 r3 (or_introl eq_refl) (day dt))
        as [Ld Vd]; [lia | lia |]
  end.
  erewrite re_match_dir; [| exact Ld |]. 2: {
  rewrite Vd, re_match_lit.
  match goal with
  | |- context [re_match ?f (two_digits _ ++ ?r4) _] =>
      destruct (two_digits_read DH 0 23 r4
                  (or_intror (or_intror (or_introl eq_refl))) (hour dt))
        as [LH VH]; [lia | lia |]
  end.
  erewrite re_match_dir; [| exact LH |]. 2: {
  rewrite VH, re_match_lit.
  match goal with
  | |- context [re_match ?f (two_digits _ ++ ?r5) _] =>
      destruct (two_digits_read DM 0 59 r5
                  (or_intror (or_intror (or_intror (or_introl eq_refl)))) (minute dt))
        as [LM VM]; [lia | lia |]
  end.
  erewrite re_match_dir; [| exact LM |]. 2: {
  rewrite VM, re_match_lit.
  match goal with
  | |- context [re_match ?f (two_digits _ ++ ?r6) _] =>
      destruct (two_digits_read DS 0 59 r6
                  (or_intror (or_intror (or_intror (or_intror eq_refl)))) (second dt))
        as [LS VS]; [lia | lia |]
  end.
  erewrite re_match_dir; [| exact LS |]. 2: {
  rewrite VS, re_match_lit. reflexivity. }
  reflexivity. } reflexivity. } reflexivity. } reflexivity. } reflexivity. }
  cbn [set_field year month day hour minute second unset].
  destruct dt as [y m d h mi s]. cbn [year month day hour minute second] in *.
  rewrite Hv. reflexivity.
Qed.

Lemma strptime_valid (text format : string) (dt : datetime) :
  strptime text format = Ok dt -> valid dt = true.
Proof.
  unfold strptime. destruct (items_of format) as [f |]; cbn [bind]; [| discriminate].
  destruct (re_match f text unset) as [[d r] |]; [| discriminate].
  destruct r; [| discriminate].
  destruct (valid d) eqn:Hv; [| discriminate].
  intros Hd. now inversion Hd; subst.
Qed.

Lemma record_datetimes_valid (pathname : string) (s e : datetime) :
  get_precip_record_datetimes pathname = Ok (s, e) ->
  valid s = true /\ valid e = true.
Proof.
  unfold get_precip_record_datetimes.
  destruct (index (split "/" pathname) 4) as [d_part |]; cbn [bind]; [| discriminate].
  destruct (index (split "/" pathname) 5) as [e_part |]; cbn [bind]; [| discriminate].
  match goal with
  | |- bind ?m _ = _ -> _ => destruct m as [e_part' |]; cbn [bind]; [| discriminate]
  end.
  destruct (strptime d_part _) as [s' |] eqn:Hs; cbn [bind]; [| discriminate].
  destruct (strptime e_part' _) as [e' |] eqn:He; cbn [bind]; [| discriminate].
  intros Hr. inversion Hr; subst.
  split; eapply strptime_valid; eassumption.
Qed.

Lemma scan_paths_valid (paths : list string) :
  forall start_dt end_dt r,
    valid_if_set start_dt -> valid_if_set end_dt ->
    scan_paths paths start_dt end_dt = Ok r ->
    valid_if_set (fst r) /\ valid_if_set (snd r).
Proof.
  induction paths as [|p paths IH]; intros start_dt end_dt r Hs He Hr.
  - cbn in Hr. inversion Hr; subst. now split.
  - cbn [scan_paths] in Hr.
    destruct (get_precip_record_datetimes p) as [[ps pe] |] eqn:Hp;
      cbn [bind] in Hr; [| discriminate].
    destruct (record_datetimes_valid _ _ _ Hp) as [Vs Ve].
    apply IH in Hr; [exact Hr | |].
    + destruct start_dt as [s0 |]; [| exact Vs].
      destruct (ltb ps s0); assumption.
    + destruct end_dt as [e0 |]; [| exact Ve].
      destruct (ltb e0 pe); assumption.
Qed.

Lemma stored_range_valid {C : Catalog} (dss_path b_part f_part : json)
    (data_start data_end : datetime) :
  get_existing_precip_data_range dss_path b_part f_part
    = Ok (Some data_start, Some data_end) ->
  valid data_start = true /\ valid data_end = true.
Proof.
  unfold get_existing_precip_data_range. intros Hr.
  apply scan_paths_valid in Hr; [exact Hr | exact I | exact I].
Qed.

(** One turn of the loop of [adjust_dates_by_cache] on an observed product
    with a stored range: the window after [shrink] is written to
    [go_config] and the loop goes on with it. *)
Lemma adjust_loop_turn {W : World} (dss_path b_part product_id : json) (rest : list json)
    (after before after' before' data_start data_end : datetime) (st st1 : state)
    (product version f_part : json) (after_text before_text : string) :
  get_product_by_id product_id st = (Ok product, st1) ->
  getitem product "last_forecast_version" = Ok version ->
  truthy version = false ->
  getitem product "dss_fpart" = Ok f_part ->
  get_existing_precip_data_range dss_path b_part f_part
    = Ok (Some data_start, Some data_end) ->
  shrink after before data_start data_end = (after', before') ->
  strftime after' ISO_FORMAT = Ok after_text ->
  strftime before' ISO_FORMAT = Ok before_text ->
  adjust_loop dss_path b_part (product_id :: rest) after before st =
    adjust_loop dss_path b_part rest after' before'
      (snd (config_set "Before" (JStr before_text)
              (snd (config_set "After" (JStr after_text) st1)))).
Proof.
  intros Hp Hv Ht Hf Hr Hs Ha Hb.
  cbn [adjust_loop]. unfold bindM at 1. rewrite Hp.
  unfold bindM at 1, lift at 1. rewrite Hv, Ht.
  unfold bindM at 1, lift at 1. rewrite Hf.
  unfold bindM at 1, lift at 1. rewrite Hr, Hs.
  unfold bindM at 1, lift at 1. rewrite Ha.
  unfold bindM at 1. cbn [config_set modify].
  unfold bindM at 1, lift at 1. rewrite Hb.
  unfold bindM at 1. cbn [config_set modify snd].
  reflexivity.
Qed.


(** ** Observed products on an empty window *)

Lemma get_metadata_cached {W : World} (st : state) :
  cached st -> get_metadata st = (Ok (products_meta st, watersheds_meta st), st).
Proof. unfold cached, get_metadata. now intros ->. Qed.

Lemma get_product_by_id_cached {W : World} (st : state) (l : list json) (product_id : json) :
  cached st ->
  iterate (products_meta st) = Ok l ->
  get_product_by_id product_id st = (find_by "id" product_id l, st).
Proof.
  intros Hc Hl. unfold get_product_by_id, bindM at 1.
  rewrite (get_metadata_cached st Hc).
  unfold bindM, lift. now rewrite Hl.
Qed.

Lemma forecast_products_cached {W : World} (st : state) (l : list json) (ids : list json) :
  cached st ->
  iterate (products_meta st) = Ok l ->
  Forall (listed l) ids ->
  forecast_products ids st = (Ok (List.filter (is_forecast l) ids), st).
Proof.
  intros Hc Hl Hall. induction Hall as [|id ids (p & v & Hp & Hv) _ IH].
  - reflexivity.
  - cbn [forecast_products List.filter]. unfold bindM at 1.
    rewrite (get_product_by_id_cached st l id Hc Hl), Hp.
    unfold bindM at 1, lift at 1. rewrite Hv.
    unfold bindM at 1. rewrite IH.
    unfold is_forecast. rewrite Hp, Hv.
    destruct v; reflexivity.
Qed.


(** ** The byte loop *)

Section Loop.

Context {store : Type} {H : Hec store}.

(** Bytes other than the closing brace are gathered. *)
Lemma main_loop_gather (body rest byte_array : string) (st : script store) :
  contains "}" body = false ->
  main_loop (body ++ rest) byte_array st = main_loop rest (byte_array ++ body) st.
Proof.
  revert byte_array. induction body as [|c body IH]; intros byte_array Hno.
  - cbn [String.append]. now rewrite append_empty_r.
  - apply contains_tail in Hno. destruct Hno as [Hc Hno].
    cbn [startswith] in Hc. rewrite andb_true_r, Ascii.eqb_sym in Hc.
    cbn [String.append main_loop]. rewrite Hc, (IH _ Hno).
    unfold snoc. now rewrite append_assoc.
Qed.

(** At the first closing brace everything gathered is handled, and the
    byte array starts empty again. *)
Lemma main_loop_record (body rest byte_array : string) (st : script store) :
  contains "}" body = false ->
  main_loop (body ++ "}" ++ rest) byte_array st =
    match handle (byte_array ++ body ++ "}") st with
    | (Ok _, st') => main_loop rest EmptyString st'
    | (Raise e, st') => (Raise e, st')
    end.
Proof.
  intros Hno. rewrite (main_loop_gather _ _ _ _ Hno).
  cbn [String.append main_loop Ascii.eqb Bool.eqb]. unfold snoc.
  now rewrite append_assoc.
Qed.

(** What becomes of a text without an inner closing brace, read from an
    empty byte array. *)
Lemma decoder_turn (body rest : string) (st : script store) :
  contains "}" body = false ->
  (forall e, Json.loads (body ++ "}") = Raise e ->
     main_loop (body ++ "}" ++ rest) EmptyString st
       = (Raise e, print (Text (body ++ "}")) st))
  /\ (forall members,
        Json.loads (body ++ "}") = Ok (JObj members) ->
        Json.lookup "message" members = None ->
        main_loop (body ++ "}" ++ rest) EmptyString st
          = match put_to_dss (JObj members) (print (Text (body ++ "}")) st) with
            | (Raise e, st') => (Raise e, st')
            | (Ok None, st') => main_loop rest EmptyString st'
            | (Ok (Some msg), st') =>
                main_loop rest EmptyString
                  (if String.eqb msg EmptyString then st' else print (Text msg) st')
            end).
Proof.
  intros Hno. rewrite (main_loop_record _ _ _ _ Hno).
  cbn [String.append]. split.
  - intros e He. unfold handle. now rewrite He.
  - intros members Hl Hm. unfold handle. rewrite Hl, Hm.
    destruct (put_to_dss _ _) as [[[msg |] | e] st']; reflexivity.
Qed.

(** Once the series is built, [put_to_dss] returns, whatever the store
    does with it. *)
Lemma put_to_dss_returns (site site_number : json) (tsc : TimeSeriesContainer)
    (st : script store) :
  make_series site = Ok (site_number, tsc) ->
  exists msg st', put_to_dss site st = (Ok msg, st').
Proof.
  intros Hs. unfold put_to_dss. rewrite Hs.
  destruct (dss_put (dss st) tsc); eauto.
Qed.

(** A stream of such texts is read to its end. *)
Lemma main_loop_reaches_end (texts : list string) :
  Forall writable texts ->
  forall st : script store,
    fst (main_loop (concat_strings texts) EmptyString st) = Ok tt.
Proof.
  induction 1 as [|text texts Hw _ IH]; intros st; [reflexivity |].
  destruct Hw as (body & members & site_number & tsc & -> & Hno & Hl & Hm & Hs).
  cbn [concat_strings fold_right]. rewrite append_assoc.
  destruct (decoder_turn body (concat_strings texts) st Hno) as [_ Hobj].
  unfold concat_strings in Hobj. rewrite (Hobj members Hl Hm).
  destruct (put_to_dss_returns _ _ _ (print (Text (body ++ "}")) st) Hs)
    as (msg & st' & ->).
  destruct msg; apply IH.
Qed.

End Loop.

(** C4, as the code has it: the loop keeps no count of nesting.  It
    gathers every byte and, at each closing brace, decodes all it has
    gathered and starts again from an empty byte array.  So a text that
    holds no closing brace before its last byte is decoded whole, as one
    record, and the object built from it is the one handed to
    [put_to_dss]; when the text gathered up to a closing brace does not
    decode, as the part of a record up to the end of an object nested in
    it, the loop ends on that error. *)
Theorem decoder_cuts_at_each_close {store : Type} {H : Hec store}
    (body rest byte_array : string) (st : script store) :
  contains "}" body = false ->
  let text := (byte_array ++ body ++ "}")%string in
  let run := main_loop (body ++ "}" ++ rest) byte_array st in
  (run = match handle text st with
         | (Ok _, st') => main_loop rest EmptyString st'
         | (Raise e, st') => (Raise e, st')
         end)
  /\ (forall e, Json.loads text = Raise e -> run = (Raise e, print (Text text) st))
  /\ (forall members,
        Json.loads text = Ok (JObj members) ->
        Json.lookup "message" members = None ->
        run = match put_to_dss (JObj members) (print (Text text) st) with
              | (Raise e, st') => (Raise e, st')
              | (Ok None, st') => main_loop rest EmptyString st'
              | (Ok (Some msg), st') =>
                  main_loop rest EmptyString
                    (if String.eqb msg EmptyString then st' else print (Text msg) st')
              end).
Proof.
  intros Hno text run. subst run.
  rewrite (main_loop_record _ _ _ _ Hno). fold text.
  split; [reflexivity | split].
  - intros e He. unfold handle. now rewrite He.
  - intros members Hl Hm. unfold handle. rewrite Hl, Hm.
    destruct (put_to_dss _ _) as [[[msg |] | e] st']; reflexivity.
Qed.

Lemma decoder_cuts_at_each_close_witness :
  ingest (H := scripted_hec []) (stage_record ++ flow_record) []
  = match handle (H := scripted_hec []) stage_record (Build_script [] []) with
    | (Ok _, st') => main_loop (H := scripted_hec []) flow_record EmptyString st'
    | (Raise e, st') => (Raise e, st')
    end.
Proof.
  destruct (decoder_cuts_at_each_close (H := scripted_hec [])
              (q "{'code':'00065','site_number':'03198000','name':'A','times':[0,5,10,21],'values':[1,2,3,4]")
              flow_record EmptyString (Build_script [] []) eq_refl) as [Hrun _].
  exact Hrun.
Defined.

(** C4 as stated fails: a record that holds a nested object is a valid
    record, yet the loop decodes it up to the end of the inner object,
    which raises, and nothing is written. *)
Lemma nested_record_is_cut :
  is_ok (Json.loads nested_record) = true
  /\ ingest (H := scripted_hec []) nested_record []
     = (Raise (ValueError "No JSON object could be decoded"),
        Build_script []
          [Text (q "{'code':'00060','site_number':'03198003','name':'D','times':[0,60],'values':[1,2],'site':{'state':'WV'}")]).
Proof. split; reflexivity. Qed.

(** C1, as the code has it: a write the store refuses is caught inside
    [put_to_dss], which prints the error and returns the message of the
    series not saved; the loop prints the message and goes on with the
    bytes that follow, as it does after every record [put_to_dss] returns
    from; so a stream of records whose series can be built is read to its
    end, whatever the store refuses; a record whose code is not in
    [usgs_code] is not skipped: the lookup raises [KeyError], the loop ends
    on it and the bytes that follow are not read. *)
Theorem ingestion_loop_policy {store : Type} {H : Hec store} :
  (forall (site site_number : json) (tsc : TimeSeriesContainer) (ex : exn)
          (st : script store),
      make_series site = Ok (site_number, tsc) ->
      dss_put (dss st) tsc = Raise ex ->
      put_to_dss site st =
        (Ok (Some ("Site: " ++ String quote (Json.format site_number)
                     ++ String quote " not saved to DSS")%string),
         print (Error ex) st))
  /\ (forall (body rest : string) (st st' : script store)
             (members : list (string * json)) (msg : option string),
      contains "}" body = false ->
      Json.loads (body ++ "}") = Ok (JObj members) ->
      Json.lookup "message" members = None ->
      put_to_dss (JObj members) (print (Text (body ++ "}")) st) = (Ok msg, st') ->
      main_loop (body ++ "}" ++ rest) EmptyString st =
        main_loop rest EmptyString
          (match msg with
           | Some m => if String.eqb m EmptyString then st' else print (Text m) st'
           | None => st'
           end))
  /\ (forall (texts : list string) (st : script store),
      Forall writable texts ->
      fst (main_loop (concat_strings texts) EmptyString st) = Ok tt)
  /\ (forall (body rest code : string) (st : script store)
             (members : list (string * json)),
      contains "}" body = false ->
      Json.loads (body ++ "}") = Ok (JObj members) ->
      Json.lookup "message" members = None ->
      forallb (fun kv => field_name_ok (fst kv)) members = true ->
      Json.lookup "code" members = Some (JStr code) ->
      assoc code usgs_code = None ->
      main_loop (body ++ "}" ++ rest) EmptyString st =
        (Raise (KeyError code), print (Text (body ++ "}")) st)).
Proof.
  split; [| split; [| split]].
  - intros site site_number tsc ex st Hs Hput.
    unfold put_to_dss. now rewrite Hs, Hput.
  - intros body rest st st' members msg Hno Hl Hm Hput.
    destruct (decoder_turn body rest st Hno) as [_ Hobj].
    rewrite (Hobj members Hl Hm), Hput. now destruct msg.
  - intros texts st Hall. now apply main_loop_reaches_end.
  - intros body rest code st members Hno Hl Hm Hk Hc Hu.
    destruct (decoder_turn body rest st Hno) as [_ Hobj].
    rewrite (Hobj members Hl Hm).
    unfold put_to_dss, make_series, namedtuple. rewrite Hk.
    cbn [bind]. unfold attr. rewrite Hc. cbn [bind usgs_lookup]. now rewrite Hu.
Qed.

Lemma ingestion_loop_policy_witness :
  ingest (H := scripted_hec ["//03198000/STAGE//5MIN/A2W/"]) (stage_record ++ flow_record) []
  = main_loop (H := scripted_hec ["//03198000/STAGE//5MIN/A2W/"]) flow_record EmptyString
      (Build_script []
         [Text stage_record; Error (JavaException "put");
          Text ("Site: " ++ String quote "03198000" ++ String quote " not saved to DSS")])
  /\ ingest (H := scripted_hec []) (unknown_record ++ flow_record) []
     = (Raise (KeyError "99999"), Build_script [] [Text unknown_record]).
Proof.
  destruct (ingestion_loop_policy (H := scripted_hec ["//03198000/STAGE//5MIN/A2W/"]))
    as [_ [Hnext _]].
  destruct (ingestion_loop_policy (H := scripted_hec [])) as [_ [_ [_ Hkey]]].
  split.
  - refine (Hnext
      (q "{'code':'00065','site_number':'03198000','name':'A','times':[0,5,10,21],'values':[1,2,3,4]")
      flow_record (Build_script [] [])
      (Build_script [] [Text stage_record; Error (JavaException "put")])
      [("code", JStr "00065"); ("site_number", JStr "03198000"); ("name", JStr "A");
       ("times", JArr [JInt 0; JInt 5; JInt 10; JInt 21]);
       ("values", JArr [JInt 1; JInt 2; JInt 3; JInt 4])]
      (Some ("Site: " ++ String quote "03198000" ++ String quote " not saved to DSS")%string)
      _ _ _ _); reflexivity.
  - refine (Hkey
      (q "{'code':'99999','site_number':'03198001','name':'B','times':[0,5,10],'values':[1,2,3]")
      flow_record "99999" (Build_script [] [])
      [("code", JStr "99999"); ("site_number", JStr "03198001"); ("name", JStr "B");
       ("times", JArr [JInt 0; JInt 5; JInt 10]);
       ("values", JArr [JInt 1; JInt 2; JInt 3])]
      _ _ _ _ _ _); reflexivity.
Defined.

(** C1 as stated fails: the second of three records has a code that
    [usgs_code] does not list; it is not skipped, the [KeyError] leaves the
    loop, and the third record is never written. *)
Lemma unknown_code_escapes :
  let run := ingest (H := scripted_hec []) (stage_record ++ unknown_record ++ flow_record) [] in
  fst run = Raise (KeyError "99999")
  /\ map fullName (dss (snd run)) = ["//03198000/STAGE//5MIN/A2W/"]
  /\ stdout (snd run) = [Text stage_record; Text unknown_record].
Proof. vm_compute. repeat split; reflexivity. Qed.

(** ** Runs on the scripted world *)


(** The three ways out of [get_metadata]: the fetch, the cached answer on a
    second call, and the error of a worker that reports one.  After the
    error the dictionary bound at entry, the first of the heap, still
    holds what the call wrote into it; [go_config] names the copy. *)
Example get_metadata_ways_out :
  let fetched := get_metadata (W := scripted_world first_days ["obs-1"] good_run)
                   january_window in
  let again := get_metadata (W := scripted_world first_days ["obs-1"] good_run)
                 (snd fetched) in
  let failed := get_metadata (W := offline_world) january_window in
  is_ok (fst fetched) = true
  /\ runs (snd fetched) = 2%nat
  /\ again = (fst fetched, snd fetched)
  /\ fst failed = Raise (CumulusConnectionError "error::connection refused")
  /\ config_dict (snd failed) !! "Endpoint" = None
  /\ go_config (snd failed) = 1%nat
  /\ (heap (snd failed) !! 0%nat) ≫= (fun d : dict => d !! "Endpoint")
     = Some (JStr "products").
Proof. vm_compute. repeat split; reflexivity. Qed.




(* ===================================================================== *)
(** * Further properties of the code                                       *)
(* ===================================================================== *)

Import Timeseries.

(** ** The diagnostic channel *)

(** Without a callback every line is printed, stripped, in the order of
    arrival. *)
Lemma read_stderr_prints (lines : list string) (stderr : string) :
  Forall (fun l => is_ok (decode (strip l)) = true) lines ->
  read_stderr false lines stderr =
    (map (fun l => Printed (strip l)) lines, Ok (stderr ++ concat_strings lines)%string).
Proof.
  intros Hall. revert stderr. induction Hall as [|l lines Hd _ IH]; intros stderr.
  - cbn. now rewrite append_empty_r.
  - cbn [read_stderr map concat_strings fold_right].
    destruct (decode (strip l)) as [t |] eqn:E; [| discriminate].
    apply decode_ok in E. subst t.
    fold (concat_strings lines). rewrite (IH (stderr ++ l)%string), append_assoc. reflexivity.
Qed.

(** Whenever the loop comes to its end, the text it returns is what it
    started with followed by every line, as it came. *)
Lemma read_stderr_text (publish : bool) (lines : list string) :
  forall (stderr text : string) (shown : list output),
    read_stderr publish lines stderr = (shown, Ok text) ->
    text = (stderr ++ concat_strings lines)%string.
Proof.
  induction lines as [|l lines IH]; intros stderr text shown Hr.
  - cbn in Hr. inversion Hr. now rewrite append_empty_r.
  - cbn [read_stderr] in Hr.
    destruct (decode (strip l)) as [t |]; [| discriminate].
    destruct (if publish then _ else _) as [sh r].
    destruct r as [u |]; [| inversion Hr].
    destruct (read_stderr publish lines (stderr ++ l)) as [sh' r'] eqn:E.
    inversion Hr; subst. apply IH in E. subst text.
    cbn [concat_strings fold_right]. now rewrite append_assoc.
Qed.

(** X1: without a callback, the realtime branch of [get] prints every line
    of the diagnostic channel, stripped, in the order of arrival, and
    returns the result channel with the lines as they came. *)
Theorem get_prints_without_callback (w : worker_output) :
  Forall (fun l => is_ok (decode (strip l)) = true) (stderr_lines w) ->
  Go.get true false w =
    (map (fun l => Printed (strip l)) (stderr_lines w),
     Ok (stdout_text w, concat_strings (stderr_lines w))).
Proof.
  intros Hall. unfold Go.get. rewrite (read_stderr_prints _ _ Hall). reflexivity.
Qed.

Lemma get_prints_without_callback_witness :
  Go.get true false good_run =
    ([Printed "Status: INITIATED"; Printed "Progress: 42"; Printed "download complete"],
     Ok ("grid::/tmp/cumulus/download.dss",
         concat_strings (stderr_lines good_run))).
Proof.
  apply (get_prints_without_callback good_run).
  repeat constructor.
Defined.

(** X2: whenever [get] returns, with or without [realtime] and whatever
    the callback was given, the pair it returns is the whole result
    channel and every line of the diagnostic channel, unstripped, the
    swallowed ones too. *)
Theorem get_returns_whole_channels (realtime publish : bool) (w : worker_output)
    (shown : list output) (stdout stderr : string) :
  Go.get realtime publish w = (shown, Ok (stdout, stderr)) ->
  stdout = stdout_text w /\ stderr = concat_strings (stderr_lines w).
Proof.
  unfold Go.get. destruct realtime.
  - destruct (read_stderr publish (stderr_lines w) EmptyString) as [sh r] eqn:E.
    destruct r as [text |]; cbn [bind]; intros Hr; inversion Hr; subst.
    split; [reflexivity |]. now apply read_stderr_text in E.
  - intros Hr. inversion Hr. now split.
Qed.

Lemma get_returns_whole_channels_witness :
  "grid::/tmp/cumulus/download.dss" = stdout_text good_run
  /\ concat_strings (stderr_lines good_run) = concat_strings (stderr_lines good_run).
Proof.
  apply (get_returns_whole_channels true true good_run
           [Published (MInt 42); Published (MStr "Progress: 42");
            Published (MStr "download complete")]).
  reflexivity.
Defined.

Lemma search_progress_none (s : string) :
  contains "Progress: " s = false -> search_progress s = None.
Proof.
  induction s as [|c s IH]; intros Hno.
  - reflexivity.
  - apply contains_tail in Hno. destruct Hno as [Hhere Hno].
    cbn [search_progress]. unfold progress_at. rewrite Hhere. exact (IH Hno).
Qed.

(** The lines that are handled without error go first. *)
Lemma read_stderr_app (good rest : list string) (stderr : string) :
  Forall (fun l => exists t, decode (strip l) = Ok t
                             /\ snd (__parse_go_output t) = Ok tt) good ->
  read_stderr true (good ++ rest) stderr =
    (map Published (flat_map (fun l => fst (__parse_go_output (strip l))) good)
       ++ fst (read_stderr true rest (stderr ++ concat_strings good)),
     snd (read_stderr true rest (stderr ++ concat_strings good))).
Proof.
  intros Hall. revert stderr.
  induction Hall as [|l good [t [Hd Hp]] _ IH]; intros stderr.
  - cbn [app flat_map map concat_strings fold_right]. rewrite append_empty_r.
    now destruct (read_stderr true rest stderr).
  - cbn [app read_stderr flat_map concat_strings fold_right].
    rewrite Hd. pose proof (decode_ok _ _ Hd) as ->.
    destruct (__parse_go_output (strip l)) as [sent r] eqn:E.
    cbn [snd fst] in *. subst r.
    rewrite (IH (stderr ++ l)%string), map_app, <- app_assoc, append_assoc. reflexivity.
Qed.

(** X3: the first line that cannot be handled ends [get]: a line that
    holds [Progress:] without the blank that the pattern asks for raises
    [AttributeError], a line that is not seven-bit text raises
    [UnicodeDecodeError]; what the lines before it published stays
    published, the lines after it are not read, and nothing is returned. *)
Theorem get_stops_at_first_bad_line (w : worker_output) (good rest : list string)
    (bad : string) :
  stderr_lines w = good ++ bad :: rest ->
  Forall (fun l => exists t, decode (strip l) = Ok t
                             /\ snd (__parse_go_output t) = Ok tt) good ->
  let before := map Published (flat_map (fun l => fst (__parse_go_output (strip l))) good) in
  (is_ok (decode (strip bad)) = true ->
   contains "Progress:" (strip bad) = true ->
   contains "Progress: " (strip bad) = false ->
   Go.get true true w = (before, Raise (AttributeError "group")))
  /\ (is_ok (decode (strip bad)) = false ->
      Go.get true true w = (before, Raise UnicodeDecodeError)).
Proof.
  intros Hl Hgood before. unfold Go.get. rewrite Hl, (read_stderr_app _ _ _ Hgood).
  cbn [read_stderr]. split.
  - intros Hd Hin Hno.
    destruct (decode (strip bad)) as [t |] eqn:E; [| discriminate].
    apply decode_ok in E. subst t.
    unfold __parse_go_output. rewrite Hin, (search_progress_none _ Hno).
    cbn. now rewrite app_nil_r.
  - intros Hd. unfold decode in *.
    destruct (all_chars _ (strip bad)); [discriminate |].
    cbn. now rewrite app_nil_r.
Qed.

Lemma get_stops_at_first_bad_line_witness :
  Go.get true true
    (Build_worker_output ["Progress: 10"; "Progress:50"; "Progress: 90"] "grid::x")
  = ([Published (MInt 10); Published (MStr "Progress: 10")],
     Raise (AttributeError "group")).
Proof.
  refine (proj1 (get_stops_at_first_bad_line
                   (Build_worker_output ["Progress: 10"; "Progress:50"; "Progress: 90"] "grid::x")
                   ["Progress: 10"] ["Progress: 90"] "Progress:50" eq_refl _) _ _ _);
    try reflexivity.
  repeat constructor. eexists. split; reflexivity.
Defined.

(** ** The stored range *)

(** What the scan over the cataloged pathnames returns, for any bounds it
    starts from. *)
Lemma scan_paths_envelope (paths : list string) :
  forall (a b s e : option datetime),
    scan_paths paths a b = Ok (s, e) ->
    (forall path, In path paths ->
       exists ps pe s0 e0,
         get_precip_record_datetimes path = Ok (ps, pe)
         /\ s = Some s0 /\ e = Some e0
         /\ to_seconds s0 <= to_seconds ps /\ to_seconds pe <= to_seconds e0)
    /\ (forall a0, a = Some a0 -> exists s0, s = Some s0 /\ to_seconds s0 <= to_seconds a0)
    /\ (forall b0, b = Some b0 -> exists e0, e = Some e0 /\ to_seconds b0 <= to_seconds e0)
    /\ (forall s0, s = Some s0 ->
          a = Some s0
          \/ exists path pe, In path paths /\ get_precip_record_datetimes path = Ok (s0, pe))
    /\ (forall e0, e = Some e0 ->
          b = Some e0
          \/ exists path ps, In path paths /\ get_precip_record_datetimes path = Ok (ps, e0)).
Proof.
  induction paths as [|path rest IH]; intros a b s e Hscan.
  - cbn in Hscan. inversion Hscan; subst. repeat split.
    + intros ? [].
    + intros a0 ->. exists a0. split; [reflexivity | lia].
    + intros b0 ->. exists b0. split; [reflexivity | lia].
    + intros s0 ->. now left.
    + intros e0 ->. now left.
  - cbn [scan_paths] in Hscan.
    destruct (get_precip_record_datetimes path) as [[ps pe] |] eqn:Hrec;
      [| discriminate].
    cbn [bind] in Hscan.
    apply IH in Hscan. destruct Hscan as (Hin & Hlow & Hhigh & Hs & He).
    assert (Hps : exists s0, s = Some s0 /\ to_seconds s0 <= to_seconds ps
                  /\ forall a0, a = Some a0 -> to_seconds s0 <= to_seconds a0).
    { destruct a as [a0 |].
      - destruct (ltb ps a0) eqn:Hlt.
        + destruct (Hlow ps eq_refl) as (s0 & -> & Hle). exists s0.
          apply ltb_lt in Hlt. repeat split; try assumption.
          intros ? [= <-]. lia.
        + destruct (Hlow a0 eq_refl) as (s0 & -> & Hle). exists s0.
          apply ltb_ge in Hlt. repeat split; try lia.
          intros ? [= <-]. lia.
      - destruct (Hlow ps eq_refl) as (s0 & -> & Hle). exists s0.
        repeat split; try assumption. discriminate. }
    assert (Hpe : exists e0, e = Some e0 /\ to_seconds pe <= to_seconds e0
                  /\ forall b0, b = Some b0 -> to_seconds b0 <= to_seconds e0).
    { destruct b as [b0 |].
      - destruct (ltb b0 pe) eqn:Hlt.
        + destruct (Hhigh pe eq_refl) as (e0 & -> & Hle). exists e0.
          apply ltb_lt in Hlt. repeat split; try assumption.
          intros ? [= <-]. lia.
        + destruct (Hhigh b0 eq_refl) as (e0 & -> & Hle). exists e0.
          apply ltb_ge in Hlt. repeat split; try lia.
          intros ? [= <-]. lia.
      - destruct (Hhigh pe eq_refl) as (e0 & -> & Hle). exists e0.
        repeat split; try assumption. discriminate. }
    destruct Hps as (s0 & Es & Hs0 & Ha). destruct Hpe as (e0 & Ee & He0 & Hb).
    repeat split.
    + intros p [<- | Hp].
      * exists ps, pe, s0, e0. repeat split; assumption.
      * exact (Hin p Hp).
    + intros a0 Ea. exists s0. split; [assumption | now apply Ha].
    + intros b0 Eb. exists e0. split; [assumption | now apply Hb].
    + intros s1 Es1. destruct (Hs s1 Es1) as [Hfrom | (p & pe' & Hp & Hr)].
      * destruct a as [a0 |].
        -- destruct (ltb ps a0); inversion Hfrom; subst.
           ++ right. exists path, pe. split; [now left | assumption].
           ++ now left.
        -- inversion Hfrom; subst. right. exists path, pe. split; [now left | assumption].
      * right. exists p, pe'. split; [now right | assumption].
    + intros e1 Ee1. destruct (He e1 Ee1) as [Hfrom | (p & ps' & Hp & Hr)].
      * destruct b as [b0 |].
        -- destruct (ltb b0 pe); inversion Hfrom; subst.
           ++ right. exists path, ps. split; [now left | assumption].
           ++ now left.
        -- inversion Hfrom; subst. right. exists path, ps. split; [now left | assumption].
      * right. exists p, ps'. split; [now right | assumption].
Qed.

(** X4: when [get_existing_precip_data_range] returns, the range it
    returns is the envelope of the cataloged records: no record starts
    before its start or ends after its end, its start is the start of a
    cataloged record and its end the end of one; and both bounds are
    [None] exactly when nothing is cataloged. *)
Theorem stored_range_is_envelope {C : Catalog} (dss_path b_part f_part : json)
    (s e : option datetime) :
  get_existing_precip_data_range dss_path b_part f_part = Ok (s, e) ->
  let paths := cataloged_pathnames dss_path
                 ("B=" ++ Json.format b_part ++ " F=" ++ Json.format f_part) in
  (forall path, In path paths ->
     exists ps pe s0 e0,
       get_precip_record_datetimes path = Ok (ps, pe)
       /\ s = Some s0 /\ e = Some e0
       /\ to_seconds s0 <= to_seconds ps /\ to_seconds pe <= to_seconds e0)
  /\ (forall s0, s = Some s0 ->
        exists path pe, In path paths /\ get_precip_record_datetimes path = Ok (s0, pe))
  /\ (forall e0, e = Some e0 ->
        exists path ps, In path paths /\ get_precip_record_datetimes path = Ok (ps, e0))
  /\ (s = None <-> paths = [])
  /\ (e = None <-> paths = []).
Proof.
  intros Hscan paths. unfold get_existing_precip_data_range in Hscan. fold paths in Hscan.
  destruct (scan_paths_envelope _ _ _ _ _ Hscan) as (Hin & _ & _ & Hs & He).
  repeat split.
  - exact Hin.
  - intros s0 Es. destruct (Hs s0 Es) as [Hno | Hyes]; [discriminate | exact Hyes].
  - intros e0 Ee. destruct (He e0 Ee) as [Hno | Hyes]; [discriminate | exact Hyes].
  - intros ->. destruct paths as [|p ps]; [reflexivity |].
    destruct (Hin p (or_introl eq_refl)) as (? & ? & ? & ? & _ & Hsome & _). discriminate.
  - intros Hnil. rewrite Hnil in Hscan. cbn in Hscan. now inversion Hscan.
  - intros ->. destruct paths as [|p ps]; [reflexivity |].
    destruct (Hin p (or_introl eq_refl)) as (? & ? & ? & ? & _ & _ & Hsome & _). discriminate.
  - intros Hnil. rewrite Hnil in Hscan. cbn in Hscan. now inversion Hscan.
Qed.

Lemma stored_range_is_envelope_witness :
  exists path pe,
    In path (first_days "B=Kanawha River F=MRMS-QPE")
    /\ get_precip_record_datetimes path = Ok (mk_datetime 2024 1 1 0 0 0, pe).
Proof.
  destruct (stored_range_is_envelope
              (C := {| cataloged_pathnames := fun _ search_str => first_days search_str |})
              (JStr "grid.dss") (JStr "Kanawha River") (JStr "MRMS-QPE")
              (Some (mk_datetime 2024 1 1 0 0 0)) (Some (mk_datetime 2024 1 5 0 0 0)))
    as (_ & Hs & _).
  - vm_compute. reflexivity.
  - exact (Hs _ eq_refl).
Defined.

(** The records read without error go first. *)
Lemma scan_paths_app (good rest : list string) :
  Forall (fun path => is_ok (get_precip_record_datetimes path) = true) good ->
  forall a b, exists a' b',
    scan_paths (good ++ rest) a b = scan_paths rest a' b'.
Proof.
  induction 1 as [|path good Hok _ IH]; intros a b.
  - now exists a, b.
  - cbn [app scan_paths].
    destruct (get_precip_record_datetimes path) as [[ps pe] |]; [| discriminate].
    cbn [bind]. apply IH.
Qed.

(** X5: one cataloged pathname that cannot be read makes the whole range
    unavailable: [get_existing_precip_data_range] raises the error of the
    first such record, whatever the records before it gave and whatever
    follows it. *)
Theorem stored_range_first_bad_record {C : Catalog} (dss_path b_part f_part : json)
    (good rest : list string) (bad : string) (e : exn) :
  cataloged_pathnames dss_path
    ("B=" ++ Json.format b_part ++ " F=" ++ Json.format f_part) = good ++ bad :: rest ->
  Forall (fun path => is_ok (get_precip_record_datetimes path) = true) good ->
  get_precip_record_datetimes bad = Raise e ->
  get_existing_precip_data_range dss_path b_part f_part = Raise e.
Proof.
  intros Hl Hgood Hbad. unfold get_existing_precip_data_range. rewrite Hl.
  destruct (scan_paths_app good (bad :: rest) Hgood None None) as (a & b & ->).
  cbn [scan_paths]. rewrite Hbad. reflexivity.
Qed.

Lemma stored_range_first_bad_record_witness :
  get_existing_precip_data_range
    (C := {| cataloged_pathnames := fun _ _ =>
               ["/SHG/KANAWHA RIVER/PRECIP/01JAN2024:0000/01JAN2024:0100/MRMS-QPE/";
                "/SHG/KANAWHA RIVER/PRECIP//1HOUR/MRMS-QPE/";
                "/SHG/KANAWHA RIVER/PRECIP/04JAN2024:2300/04JAN2024:2400/MRMS-QPE/"] |})
    (JStr "grid.dss") (JStr "Kanawha River") (JStr "MRMS-QPE")
  = Raise (ValueError "time data does not match format").
Proof.
  apply (stored_range_first_bad_record
           (C := {| cataloged_pathnames := fun _ _ => _ |}) _ _ _
           ["/SHG/KANAWHA RIVER/PRECIP/01JAN2024:0000/01JAN2024:0100/MRMS-QPE/"]
           ["/SHG/KANAWHA RIVER/PRECIP/04JAN2024:2300/04JAN2024:2400/MRMS-QPE/"]
           "/SHG/KANAWHA RIVER/PRECIP//1HOUR/MRMS-QPE/").
  - reflexivity.
  - repeat constructor.
  - vm_compute. reflexivity.
Defined.

(** X6: a pathname with fewer than six fields between its separators has
    no time fields to read: [get_precip_record_datetimes] raises
    [IndexError]. *)
Theorem record_datetimes_short_pathname (pathname : string) :
  (length (split "/" pathname) <= 5)%nat ->
  get_precip_record_datetimes pathname = Raise IndexError.
Proof.
  intros Hlen. unfold get_precip_record_datetimes, index.
  destruct (nth_error (split "/" pathname) 4) as [d_part |] eqn:E4; [| reflexivity].
  cbn [bind].
  assert (E5 : nth_error (split "/" pathname) 5 = None)
    by (apply nth_error_None; lia).
  rewrite E5. reflexivity.
Qed.

Lemma record_datetimes_short_pathname_witness :
  get_precip_record_datetimes "/SHG/KANAWHA RIVER/PRECIP/01JAN2024:0000" = Raise IndexError.
Proof.
  apply record_datetimes_short_pathname. vm_compute. lia.
Defined.

(** ** The file chooser *)

Lemma length_append (s t : string) :
  String.length (s ++ t) = (String.length s + String.length t)%nat.
Proof. induction s as [|c s IH]; cbn; [reflexivity | now rewrite IH]. Qed.

Lemma drop_app (s t : string) : drop (String.length s) (s ++ t) = t.
Proof. induction s as [|c s IH]; cbn; [now destruct t | exact IH]. Qed.

Lemma last_chars_app (s t : string) : last_chars (String.length t) (s ++ t) = t.
Proof.
  unfold last_chars. rewrite length_append.
  replace (String.length s + String.length t - String.length t)%nat
    with (String.length s) by lia.
  apply drop_app.
Qed.

(** X7: the path [approve_option] leaves in [output_path] always ends in
    [.dss]; a selected path that already does is kept as it is, so that
    approving the result again changes nothing. *)
Theorem approve_option_extension (selected : string) :
  endswith ".dss" (approve_option selected) = true
  /\ (endswith ".dss" selected = true -> approve_option selected = selected)
  /\ (endswith ".dss" selected = false ->
      approve_option selected = (selected ++ ".dss")%string)
  /\ approve_option (approve_option selected) = approve_option selected.
Proof.
  assert (Hadd : endswith ".dss" (selected ++ ".dss") = true).
  { unfold endswith. rewrite (last_chars_app selected ".dss"). reflexivity. }
  unfold approve_option.
  destruct (endswith ".dss" selected) eqn:E; cbn [negb].
  - rewrite E. cbn [negb]. repeat split; try reflexivity; try assumption. discriminate.
  - rewrite Hadd. cbn [negb]. repeat split; try reflexivity; try assumption. discriminate.
Qed.

Lemma approve_option_extension_witness :
  approve_option "forecast.dss" = "forecast.dss"
  /\ approve_option "forecast" = "forecast.dss".
Proof.
  split.
  - apply (proj1 (proj2 (approve_option_extension "forecast.dss"))). reflexivity.
  - apply (proj1 (proj2 (proj2 (approve_option_extension "forecast")))). reflexivity.
Defined.

(** ** The smallest step *)

Lemma min_step_spec (times : list Z) :
  forall acc : option Z,
    ((length times <= 1)%nat -> min_step times acc = acc)
    /\ ((2 <= length times)%nat ->
        exists m, min_step times acc = Some m
          /\ (forall a, acc = Some a -> m <= a)
          /\ (forall i t0 t1, nth_error times i = Some t0 ->
                nth_error times (S i) = Some t1 -> m <= Z.abs (t1 - t0))
          /\ (acc = Some m
              \/ exists i t0 t1, nth_error times i = Some t0
                   /\ nth_error times (S i) = Some t1 /\ m = Z.abs (t1 - t0))).
Proof.
  induction times as [|t0 rest IH]; intros acc.
  - split; [reflexivity | cbn; lia].
  - destruct rest as [|t1 rest'].
    + split; [reflexivity | cbn; lia].
    + split; [cbn; lia | intros _].
      set (ts := Z.abs (t1 - t0)).
      set (acc' := match acc with
                   | None => Some ts
                   | Some m => if ts <? m then Some ts else Some m
                   end).
      change (min_step (t0 :: t1 :: rest') acc) with (min_step (t1 :: rest') acc').
      assert (Hacc' : exists a', acc' = Some a' /\ a' <= ts
                        /\ (forall a, acc = Some a -> a' <= a)
                        /\ (acc = Some a' \/ a' = ts)).
      { unfold acc'. destruct acc as [a |].
        - destruct (ts <? a) eqn:E.
          + apply Z.ltb_lt in E. exists ts.
            split; [reflexivity |]. split; [lia |]. split; [| now right].
            intros ? [= <-]. lia.
          + apply Z.ltb_ge in E. exists a.
            split; [reflexivity |]. split; [lia |]. split; [| now left].
            intros ? [= <-]. lia.
        - exists ts.
          split; [reflexivity |]. split; [lia |]. split; [discriminate | now right]. }
      destruct Hacc' as (a' & Ea' & Hts & Hle & Hfrom).
      destruct (IH acc') as [Hshort Hlong].
      destruct rest' as [|t2 rest''].
      * rewrite Hshort by (cbn; lia). exists a'. repeat split; try assumption.
        -- intros i u0 u1 H0 H1. destruct i as [|[|i]]; cbn in H0, H1; try discriminate.
           inversion H0; inversion H1; subst. exact Hts.
        -- destruct Hfrom as [Hf | Hf]; [now left |].
           right. exists 0%nat, t0, t1. repeat split; assumption.
      * destruct Hlong as (m & Em & Hm & Hall & Hatt); [cbn; lia |].
        exists m. pose proof (Hm a' Ea') as Hma. repeat split.
        -- exact Em.
        -- intros a Ea. specialize (Hle a Ea). lia.
        -- intros i u0 u1 H0 H1. destruct i as [|i].
           ++ cbn in H0, H1. inversion H0; inversion H1; subst. fold ts. lia.
           ++ exact (Hall i u0 u1 H0 H1).
        -- destruct Hatt as [Hsame | (i & u0 & u1 & H0 & H1 & Heq)].
           ++ rewrite Ea' in Hsame. inversion Hsame; subst a'.
              destruct Hfrom as [Hf | Hf]; [now left |].
              right. exists 0%nat, t0, t1. repeat split; assumption.
           ++ right. exists (S i), u0, u1. repeat split; assumption.
Qed.

(** X8: the interval [put_to_dss] and [put_timeseries] give a series is
    [None] exactly when the series has fewer than two times; otherwise it
    is the smallest distance between two neighbouring times: never
    negative, no greater than any such distance, and equal to one of
    them. *)
Theorem min_step_smallest_gap (times : list Z) :
  (min_step times None = None <-> (length times <= 1)%nat)
  /\ forall m, min_step times None = Some m ->
       0 <= m
       /\ (forall i t0 t1, nth_error times i = Some t0 ->
             nth_error times (S i) = Some t1 -> m <= Z.abs (t1 - t0))
       /\ exists i t0 t1, nth_error times i = Some t0
            /\ nth_error times (S i) = Some t1 /\ m = Z.abs (t1 - t0).
Proof.
  destruct (min_step_spec times None) as [Hshort Hlong].
  destruct (Nat.le_gt_cases (length times) 1) as [Hlen | Hlen].
  - rewrite (Hshort Hlen). split; [tauto | discriminate].
  - destruct (Hlong Hlen) as (m & Em & _ & Hall & Hatt). rewrite Em. split.
    + split; [discriminate | lia].
    + intros ? [= <-].
      destruct Hatt as [Hno | (i & t0 & t1 & H0 & H1 & Heq)]; [discriminate |].
      repeat split; [lia | exact Hall |].
      exists i, t0, t1. repeat split; assumption.
Qed.

Lemma min_step_smallest_gap_witness :
  0 <= 5
  /\ (forall i t0 t1, nth_error [0; 5; 10; 21] i = Some t0 ->
        nth_error [0; 5; 10; 21] (S i) = Some t1 -> 5 <= Z.abs (t1 - t0))
  /\ exists i t0 t1, nth_error [0; 5; 10; 21] i = Some t0
       /\ nth_error [0; 5; 10; 21] (S i) = Some t1 /\ 5 = Z.abs (t1 - t0).
Proof.
  apply (proj2 (min_step_smallest_gap [0; 5; 10; 21]) 5). reflexivity.
Defined.

(** ** The guard of [put_timeseries] *)

Section Guard.

Context {store : Type} {H : HecStore store}.

(** What the body of the [try] returns when it returns. *)
Lemma write_series_returns (site_parameters : list (string * json)) (apart bpart : string)
    (codes : string * string * string * string) (file file' : store) (msg : option string) :
  write_series site_parameters apart bpart codes file = Ok (msg, file') ->
  msg = None
  \/ exists site_number,
       attr site_parameters "site_number" = Ok site_number
       /\ msg = Some ("site_parameters: " ++ String quote (Json.format site_number)
                        ++ String quote " not saved to DSS")%string
       /\ file' = file.
Proof.
  unfold write_series. destruct codes as [[[parameter unit] data_type] version].
  repeat match goal with
         | |- context [bind ?m _] =>
             match m with
             | check_time_series _ => fail 1
             | _ => destruct m; cbn [bind]; [| discriminate]
             end
         end.
  destruct (check_time_series _) as [checked |]; cbn [bind]; [| discriminate].
  destruct checked; cbn [negb].
  - repeat match goal with
           | |- context [bind ?m _] => destruct m; cbn [bind]; [| discriminate]
           end.
    intros [= <- <-]. now left.
  - destruct (attr site_parameters "site_number") as [site_number |]; cbn [bind];
      [| discriminate].
    intros [= <- <-]. right. now exists site_number.
Qed.

(** X9: once the record is read, its code found in the table and the file
    opened, [put_timeseries] raises nothing when the record has a site
    number: it returns [None], having printed nothing, or one of its two
    messages with the site number, and then the file is as it was; the
    error of a call that threw is printed.  A code the table does not hold
    is not guarded: the [KeyError] leaves [put_timeseries]. *)
Theorem put_timeseries_guard (site : json) (dsspath apart bpart : string)
    (st : script store) (site_parameters : list (string * json)) (code : json) :
  namedtuple site = Ok site_parameters ->
  attr site_parameters "code" = Ok code ->
  (forall codes site_number,
     extract_lookup code = Ok codes ->
     dss_open dsspath = Ok tt ->
     attr site_parameters "site_number" = Ok site_number ->
     exists msg st',
       put_timeseries site dsspath apart bpart st = (Ok msg, st')
       /\ (msg = None /\ stdout st' = stdout st
           \/ msg = Some ("site_parameters: " ++ String quote (Json.format site_number)
                            ++ String quote " not saved to DSS")%string
              /\ st' = st
           \/ exists ex,
                write_series site_parameters apart bpart codes (dss st) = Raise ex
                /\ msg = Some ("site_parameters: '" ++ Json.format site_number
                                 ++ "' not saved to DSS")%string
                /\ st' = print (Error ex) st))
  /\ (forall c, code = JStr c -> assoc c USGS_EXTRACT_CODES = None ->
        put_timeseries site dsspath apart bpart st = (Raise (KeyError c), st)).
Proof.
  intros Hsite Hcode. split.
  - intros codes site_number Hcodes Hopen Hnumber.
    unfold put_timeseries. rewrite Hsite. cbn [bind]. rewrite Hcode. cbn [bind].
    rewrite Hcodes. cbn [bind]. rewrite Hopen. cbn [bind].
    destruct (write_series site_parameters apart bpart codes (dss st))
      as [[msg file'] | ex] eqn:Hw.
    + exists msg, (Build_script file' (stdout st)). split; [reflexivity |].
      destruct (write_series_returns _ _ _ _ _ _ _ Hw) as [-> | (n & Hn & -> & ->)].
      * left. now split.
      * right. left. rewrite Hnumber in Hn. inversion Hn; subst n.
        split; [reflexivity | now destruct st].
    + rewrite Hnumber. eexists _, _. split; [reflexivity |].
      right. right. exists ex. repeat split.
  - intros c -> Hnone. unfold put_timeseries. rewrite Hsite. cbn [bind].
    rewrite Hcode. cbn [bind]. unfold extract_lookup. rewrite Hnone. reflexivity.
Qed.

(** X10: the two writers part on a library call that throws before
    [dss.put]: for a record both read with success as far as the interval
    code, [put_to_dss] lets the error of [getEPartFromIntervalMinutes]
    out, while [put_timeseries] prints it and returns its message; neither
    writes to the file. *)
Theorem interval_error_two_writers (site : json) (dsspath apart bpart : string)
    (st : script store) (site_parameters : list (string * json))
    (code its_times site_number : json) (ts : list json) (times : list Z) (ex : exn)
    (codes codes' : string * string * string * string) :
  namedtuple site = Ok site_parameters ->
  attr site_parameters "code" = Ok code ->
  usgs_lookup code = Ok codes ->
  extract_lookup code = Ok codes' ->
  dss_open dsspath = Ok tt ->
  attr site_parameters "times" = Ok its_times ->
  iterate its_times = Ok ts ->
  map_result hec_time_value ts = Ok times ->
  get_epart_from_interval_minutes (min_step times None) = Raise ex ->
  attr site_parameters "site_number" = Ok site_number ->
  put_to_dss site st = (Raise ex, st)
  /\ put_timeseries site dsspath apart bpart st =
       (Ok (Some ("site_parameters: '" ++ Json.format site_number
                    ++ "' not saved to DSS")%string),
        print (Error ex) st).
Proof.
  intros Hsite Hcode Hcodes Hcodes' Hopen Htimes Hiter Hmap Hepart Hnumber. split.
  - unfold put_to_dss, make_series. rewrite Hsite. cbn [bind]. rewrite Hcode. cbn [bind].
    rewrite Hcodes. cbn [bind]. destruct codes as [[[parameter unit] data_type] version].
    rewrite Htimes. cbn [bind]. rewrite Hiter. cbn [bind]. rewrite Hmap. cbn [bind].
    rewrite Hepart. reflexivity.
  - unfold put_timeseries. rewrite Hsite. cbn [bind]. rewrite Hcode. cbn [bind].
    rewrite Hcodes'. cbn [bind]. rewrite Hopen. cbn [bind].
    unfold write_series. destruct codes' as [[[parameter unit] data_type] version].
    rewrite Htimes. cbn [bind]. rewrite Hiter. cbn [bind]. rewrite Hmap. cbn [bind].
    rewrite Hepart. cbn [bind]. rewrite Hnumber. reflexivity.
Qed.

End Guard.

Lemma put_timeseries_guard_witness :
  exists msg st',
    put_timeseries (H := scripted_store []) (falls_site [0; 5; 10]) "forecast.dss"
      "Kanawha" "Name" (Build_script [] []) = (Ok msg, st').
Proof.
  destruct (proj1 (put_timeseries_guard (H := scripted_store []) (falls_site [0; 5; 10])
                     "forecast.dss" "Kanawha" "Name" (Build_script [] [])
                     [("code", JStr "00065"); ("site_number", JStr "03198000");
                      ("name", JStr "Kanawha Falls"); ("times", JArr (map JInt [0; 5; 10]));
                      ("values", JArr (map JInt [0; 5; 10]))]
                     (JStr "00065") eq_refl eq_refl)
              ("Stage", "feet", "inst-val", "a2w") (JStr "03198000") eq_refl eq_refl eq_refl)
    as (msg & st' & Hrun & _).
  now exists msg, st'.
Defined.

Lemma interval_error_two_writers_witness :
  put_to_dss (H := scripted_hec []) (falls_site [0; 7]) (Build_script [] [])
    = (Raise (JavaException "getEPartFromIntervalMinutes"), Build_script [] [])
  /\ put_timeseries (H := scripted_store []) (falls_site [0; 7]) "forecast.dss"
       "Kanawha" "Name" (Build_script [] [])
     = (Ok (Some "site_parameters: '03198000' not saved to DSS"),
        print (Error (JavaException "getEPartFromIntervalMinutes")) (Build_script [] [])).
Proof.
  apply (interval_error_two_writers (H := scripted_store []) (falls_site [0; 7])
           "forecast.dss" "Kanawha" "Name" (Build_script [] [])
           [("code", JStr "00065"); ("site_number", JStr "03198000");
            ("name", JStr "Kanawha Falls"); ("times", JArr (map JInt [0; 7]));
            ("values", JArr (map JInt [0; 7]))]
           (JStr "00065") (JArr [JInt 0; JInt 7]) (JStr "03198000") [JInt 0; JInt 7] [0; 7]
           (JavaException "getEPartFromIntervalMinutes")
           ("Stage", "feet", "inst-val", "a2w") ("Stage", "feet", "inst-val", "a2w"));
    reflexivity.
Defined.

(** ** The keys of [go_config] that are written *)

Section View.

Context {W : World}.

Lemma config_set_view (k : string) (v : json) (st : state) :
  bound st ->
  bound (snd (config_set k v st))
  /\ config_dict (snd (config_set k v st)) = <[k := v]> (config_dict st).
Proof.
  unfold bound, config_dict. intros Hb. cbn.
  rewrite length_insert. split; [assumption |].
  now rewrite list_lookup_insert_eq.
Qed.

Lemma only_writes_bind {A B} (keys : list string) (m : M A) (k : A -> M B) :
  only_writes keys m -> (forall a, only_writes keys (k a)) ->
  only_writes keys (bindM m k).
Proof.
  intros Hm Hk st Hb. unfold bindM.
  destruct (Hm st Hb) as [Hb1 Hf1].
  destruct (m st) as [[a | e] st1]; cbn [snd] in *.
  - destruct (Hk a st1 Hb1) as [Hb2 Hf2]. split; [exact Hb2 |].
    intros k0 Hk0. now rewrite Hf2, Hf1.
  - now split.
Qed.

(** Code that leaves the heap and the binding of [go_config] alone writes
    no key. *)
Lemma only_writes_none {A} (keys : list string) (m : M A) :
  (forall st, heap (snd (m st)) = heap st /\ go_config (snd (m st)) = go_config st) ->
  only_writes keys m.
Proof.
  intros Hsame st Hb. destruct (Hsame st) as [Hh Hg].
  unfold bound, config_dict in *. rewrite Hh, Hg. now split.
Qed.

Lemma only_writes_lift {A} (keys : list string) (r : result A) : only_writes keys (lift r).
Proof. apply only_writes_none. now intros st. Qed.

Lemma only_writes_raise {A} (keys : list string) (e : exn) :
  only_writes keys (raise (A := A) e).
Proof. apply only_writes_none. now intros st. Qed.

Lemma only_writes_ret {A} (keys : list string) (a : A) : only_writes keys (ret a).
Proof. apply only_writes_none. now intros st. Qed.

Lemma only_writes_report (keys : list string) (msg : string) : only_writes keys (report msg).
Proof. apply only_writes_none. now intros st. Qed.

Lemma only_writes_events (keys : list string) (es : list event) :
  only_writes keys (modify (add_events es)).
Proof. apply only_writes_none. now intros st. Qed.

Lemma only_writes_products_meta (keys : list string) (v : json) :
  only_writes keys (modify (set_products_meta v)).
Proof. apply only_writes_none. now intros st. Qed.

Lemma only_writes_watersheds_meta (keys : list string) (v : json) :
  only_writes keys (modify (set_watersheds_meta v)).
Proof. apply only_writes_none. now intros st. Qed.

Lemma only_writes_config_get (keys : list string) (k : string) :
  only_writes keys (config_get k).
Proof.
  apply only_writes_none. intros st. unfold config_get.
  now destruct (config_dict st !! k).
Qed.

Lemma only_writes_read_configurations (keys : list string) :
  only_writes keys read_configurations.
Proof. apply only_writes_none. now intros st. Qed.

Lemma only_writes_go_get (keys : list string) (realtime : bool) :
  only_writes keys (go_get realtime).
Proof.
  apply only_writes_none. intros st. unfold go_get.
  now destruct (Go.get _ _ _).
Qed.

Lemma only_writes_config_set (keys : list string) (k : string) (v : json) :
  In k keys -> only_writes keys (config_set k v).
Proof.
  intros Hin st Hb. destruct (config_set_view k v st Hb) as [Hb' Hd].
  split; [exact Hb' |]. intros k0 Hk0. rewrite Hd.
  apply lookup_insert_ne. intros ->. now apply Hk0.
Qed.

(** [get_metadata] writes into the dictionary bound at entry and then
    binds [go_config] to the copy it took first: seen through
    [go_config], no key has changed. *)
Lemma get_metadata_rebinds (st st' : state) (r : result (json * json)) :
  bound st ->
  get_metadata st = (r, st') ->
  bound st' /\ config_dict st' = config_dict st.
Proof.
  intros Hb Hrun. unfold get_metadata in Hrun.
  destruct (truthy (products_meta st) && truthy (watersheds_meta st)).
  - inversion Hrun; subst. now split.
  - unfold bindM at 1 in Hrun. cbn [report modify] in Hrun.
    unfold bindM at 1 in Hrun. cbn [deepcopy_config] in Hrun.
    unfold finally in Hrun.
    set (st1 := set_heap _ _) in Hrun.
    set (l := length (heap (add_events _ st))) in Hrun.
    match type of Hrun with
    | (let (_, _) := ?body st1 in _) = _ =>
        assert (Hk : keeps l body) by (repeat frame_step);
        destruct (Hk st1) as (Hg & Hh & Hc & Hp);
        [ unfold bound in Hb; cbn; lia | destruct (body st1) as [r1 st2] ]
    end.
    inversion Hrun; subst r st'. cbn [snd] in *.
    assert (Hl : heap st2 !! l = Some (config_dict st)).
    { rewrite Hh. subst st1 l. cbn [heap set_heap add_events].
      now rewrite list_lookup_middle. }
    unfold bound, config_dict at 1. cbn [heap go_config set_go_config].
    rewrite Hl. split; [| reflexivity].
    now apply lookup_lt_Some in Hl.
Qed.

Lemma get_metadata_view (keys : list string) : only_writes keys get_metadata.
Proof.
  intros st Hb. destruct (get_metadata st) as [r st'] eqn:Hrun.
  destruct (get_metadata_rebinds _ _ _ Hb Hrun) as [Hb' Hd].
  cbn [snd]. split; [exact Hb' |]. intros k _. now rewrite Hd.
Qed.

End View.

Create HintDb writes.

#[local] Hint Resolve only_writes_lift only_writes_raise only_writes_ret only_writes_report
  only_writes_events only_writes_products_meta only_writes_watersheds_meta
  only_writes_config_get only_writes_read_configurations only_writes_go_get
  get_metadata_view : writes.

Ltac writes_step :=
  first [ apply only_writes_bind; [| intros ? ]
        | match goal with
          | |- only_writes _ (let '(_, _) := ?p in _) => destruct p
          | |- only_writes _ (if ?b then _ else _) => destruct b
          | |- only_writes _ (match ?x with JNull => _ | _ => _ end) => destruct x
          end
        | solve [auto with writes]
        | (apply only_writes_config_set; cbn; tauto) ].

Section Writes.

Context {W : World}.

Lemma only_writes_by_id (keys : list string) (product_id : json) :
  only_writes keys (get_product_by_id product_id).
Proof. unfold get_product_by_id. repeat writes_step. Qed.

Lemma only_writes_watershed_by_id (keys : list string) (watershed_id : json) :
  only_writes keys (get_watershed_by_id watershed_id).
Proof. unfold get_watershed_by_id. repeat writes_step. Qed.

Lemma only_writes_adjust_loop (dss_path b_part : json) (product_ids : list json) :
  forall after before,
    only_writes ["After"; "Before"] (adjust_loop dss_path b_part product_ids after before).
Proof.
  induction product_ids as [|product_id rest IH]; intros after before.
  - apply only_writes_ret.
  - cbn [adjust_loop].
    apply only_writes_bind; [apply only_writes_by_id | intros product].
    apply only_writes_bind; [apply only_writes_lift | intros version].
    destruct (truthy version); [apply IH |].
    apply only_writes_bind; [apply only_writes_lift | intros f_part].
    apply only_writes_bind; [apply only_writes_lift | intros [[data_start |] [data_end |]]];
      try apply only_writes_ret.
    destruct (shrink after before data_start data_end) as [after' before'].
    repeat writes_step.
Qed.

Lemma only_writes_forecast_products (keys : list string) (product_ids : list json) :
  only_writes keys (forecast_products product_ids).
Proof.
  induction product_ids as [|product_id rest IH].
  - apply only_writes_ret.
  - cbn [forecast_products].
    apply only_writes_bind; [apply only_writes_by_id | intros product].
    apply only_writes_bind; [apply only_writes_lift | intros version].
    apply only_writes_bind; [apply IH | intros others].
    destruct version; apply only_writes_ret.
Qed.

Lemma only_writes_product_names (keys : list string) (product_ids : list json) :
  only_writes keys (product_names product_ids).
Proof.
  induction product_ids as [|product_id rest IH].
  - apply only_writes_ret.
  - cbn [product_names].
    apply only_writes_bind; [apply only_writes_by_id | intros product].
    apply only_writes_bind; [apply only_writes_lift | intros name].
    apply only_writes_bind; [apply IH | intros names].
    apply only_writes_ret.
Qed.

Lemma only_writes_adjust_dates : only_writes ["After"; "Before"] adjust_dates_by_cache.
Proof.
  unfold adjust_dates_by_cache.
  repeat first [ apply only_writes_adjust_loop
               | apply only_writes_watershed_by_id
               | writes_step ].
Qed.

Lemma only_writes_weaken {A} (keys keys' : list string) (m : M A) :
  (forall k, In k keys -> In k keys') -> only_writes keys m -> only_writes keys' m.
Proof.
  intros Hincl Hm st Hb. destruct (Hm st Hb) as [Hb' Hf].
  split; [exact Hb' |]. intros k Hk. apply Hf. intros Hin. apply Hk, Hincl, Hin.
Qed.

Lemma only_writes_remove_observed : only_writes ["Products"] remove_observed_products.
Proof.
  unfold remove_observed_products.
  repeat first [ apply only_writes_forecast_products | writes_step ].
Qed.

End Writes.

Section Writes2.

Context {W : World}.

Lemma only_writes_update_window :
  only_writes ["Products"; "After"; "Before"; "Timeout"] update_window.
Proof.
  unfold update_window.
  apply only_writes_bind; [apply only_writes_report | intros _].
  apply only_writes_bind;
    [apply (only_writes_weaken ["After"; "Before"]);
     [cbn; tauto | apply only_writes_adjust_dates] | intros _].
  do 4 (apply only_writes_bind; [auto with writes | intros ?]).
  destruct (leb _ _).
  - do 2 (apply only_writes_bind; [apply only_writes_report | intros _]).
    apply only_writes_bind;
      [apply (only_writes_weaken ["Products"]);
       [cbn; tauto | apply only_writes_remove_observed] | intros _].
    repeat writes_step.
  - repeat writes_step.
Qed.

Lemma only_writes_conclude (keys : list string) (configurations : json)
    (stdout stderr : string) :
  only_writes keys (conclude configurations stdout stderr).
Proof.
  intros st Hb. unfold conclude. generalize (publish st). intros p.
  match goal with
  | |- bound (snd (?m st)) /\ _ => assert (Hm : only_writes keys m)
  end.
  { destruct (contains "error" stderr).
    - repeat writes_step.
    - destruct (split "::" stdout) as [|x [|y [|z l]]]; repeat writes_step. }
  exact (Hm st Hb).
Qed.

End Writes2.

(** X17: the two helpers of the cache write nothing into [go_config] but
    their own keys, whatever the store and the provider answer and whether
    they return or raise: [adjust_dates_by_cache] leaves every key but
    [After] and [Before] as it was, [remove_observed_products] every key
    but [Products]. *)
Theorem cache_helpers_write_their_keys {W : World} :
  only_writes ["After"; "Before"] adjust_dates_by_cache
  /\ only_writes ["Products"] remove_observed_products.
Proof. split; [apply only_writes_adjust_dates | apply only_writes_remove_observed]. Qed.

Lemma cache_helpers_write_their_keys_witness :
  let st := snd (adjust_dates_by_cache
                   (W := scripted_world covering_days ["obs-1"] good_run) january_window) in
  bound st
  /\ forall k, ~ In k ["After"; "Before"] ->
       config_dict st !! k = config_dict january_window !! k.
Proof.
  apply (proj1 (cache_helpers_write_their_keys
                  (W := scripted_world covering_days ["obs-1"] good_run)) january_window).
  unfold bound. cbn. lia.
Defined.



(** ** The window never grows *)

Lemma strftime_read (dt : datetime) (text : string) :
  valid dt = true ->
  strftime dt ISO_FORMAT = Ok text ->
  strptime text ISO_FORMAT = Ok dt.
Proof.
  intros Hv Hw.
  assert (Hy : 1900 <= year dt).
  { unfold strftime in Hw. destruct (items_of ISO_FORMAT); cbn [bind] in Hw; [| discriminate].
    destruct (year dt <? 1900) eqn:E; [discriminate |]. now apply Z.ltb_ge in E. }
  destruct (iso_read dt Hv Hy) as (text' & Hw' & Hr).
  rewrite Hw in Hw'. now inversion Hw'; subst.
Qed.

Lemma shrink_inwards (after before data_start data_end after' before' : datetime) :
  shrink after before data_start data_end = (after', before') ->
  (after' = after \/ after' = data_end /\ to_seconds after < to_seconds data_end)
  /\ (before' = before \/ before' = data_start /\ to_seconds data_start < to_seconds before).
Proof.
  unfold shrink. intros Hs. inversion Hs; subst. split.
  - destruct (ltb after data_end) eqn:E1; cbn [andb]; [| now left].
    destruct (ltb data_start after); [| now left].
    right. split; [reflexivity | now apply ltb_lt].
  - destruct (ltb before data_end); cbn [andb]; [| now left].
    destruct (ltb data_start before) eqn:E2; [| now left].
    right. split; [reflexivity | now apply ltb_lt].
Qed.

Lemma window_of_inv (st : state) (a b : datetime) :
  window_of st = Ok (a, b) <->
  exists after_text before_text,
    config_dict st !! "After" = Some after_text
    /\ config_dict st !! "Before" = Some before_text
    /\ strptime_value after_text ISO_FORMAT = Ok a
    /\ strptime_value before_text ISO_FORMAT = Ok b.
Proof.
  unfold window_of. split.
  - destruct (config_dict st !! "After") as [ta |]; [| discriminate].
    destruct (config_dict st !! "Before") as [tb |]; [| discriminate].
    destruct (strptime_value ta ISO_FORMAT) as [a' |] eqn:Ea; cbn [bind]; [| discriminate].
    destruct (strptime_value tb ISO_FORMAT) as [b' |] eqn:Eb; cbn [bind]; [| discriminate].
    intros [= <- <-]. now exists ta, tb.
  - intros (ta & tb & -> & -> & -> & ->). reflexivity.
Qed.

Lemma strptime_value_valid (v : json) (format : string) (dt : datetime) :
  strptime_value v format = Ok dt -> valid dt = true.
Proof.
  destruct v; try discriminate. apply strptime_valid.
Qed.

Section Narrowing.

Context {W : World}.

Variables a b : datetime.

(** Code that writes neither bound keeps the window where it is. *)
Lemma narrowed_kept {A} (keys : list string) (m : M A) (st : state) :
  only_writes keys m -> ~ In "After" keys -> ~ In "Before" keys ->
  narrowed a b st -> narrowed a b (snd (m st)).
Proof.
  intros Hm Ha Hb [Hbound (a' & b' & Hw & Hle)].
  destruct (Hm st Hbound) as [Hbound' Hkeys]. split; [exact Hbound' |].
  exists a', b'. split; [| exact Hle].
  apply window_of_inv in Hw. destruct Hw as (ta & tb & Hta & Htb & Hra & Hrb).
  apply window_of_inv. exists ta, tb.
  rewrite (Hkeys "After" Ha), (Hkeys "Before" Hb). now repeat split.
Qed.

Lemma narrowed_after (st : state) (after : datetime) (text : string) :
  narrowed a b st ->
  strptime text ISO_FORMAT = Ok after ->
  to_seconds a <= to_seconds after ->
  narrowed a b (snd (config_set "After" (JStr text) st)).
Proof.
  intros [Hbound (a' & b' & Hw & Hla & Hlb)] Hr Hle.
  destruct (config_set_view "After" (JStr text) st Hbound) as [Hbound' Hd].
  split; [exact Hbound' |].
  apply window_of_inv in Hw. destruct Hw as (ta & tb & Hta & Htb & Hra & Hrb).
  exists after, b'. split; [| now split].
  apply window_of_inv. exists (JStr text), tb. rewrite Hd.
  rewrite lookup_insert_eq, lookup_insert_ne by discriminate. now repeat split.
Qed.

Lemma narrowed_before (st : state) (before : datetime) (text : string) :
  narrowed a b st ->
  strptime text ISO_FORMAT = Ok before ->
  to_seconds before <= to_seconds b ->
  narrowed a b (snd (config_set "Before" (JStr text) st)).
Proof.
  intros [Hbound (a' & b' & Hw & Hla & Hlb)] Hr Hle.
  destruct (config_set_view "Before" (JStr text) st Hbound) as [Hbound' Hd].
  split; [exact Hbound' |].
  apply window_of_inv in Hw. destruct Hw as (ta & tb & Hta & Htb & Hra & Hrb).
  exists a', before. split; [| now split].
  apply window_of_inv. exists ta, (JStr text). rewrite Hd.
  rewrite lookup_insert_eq, lookup_insert_ne by discriminate. now repeat split.
Qed.

Lemma adjust_loop_narrowed (dss_path b_part : json) (product_ids : list json) :
  forall (after before : datetime) (st : state),
    valid after = true -> valid before = true ->
    to_seconds a <= to_seconds after -> to_seconds before <= to_seconds b ->
    narrowed a b st ->
    narrowed a b (snd (adjust_loop dss_path b_part product_ids after before st)).
Proof.
  induction product_ids as [|product_id rest IH];
    intros after before st Va Vb La Lb Hin.
  - exact Hin.
  - cbn [adjust_loop]. unfold bindM at 1.
    pose proof (narrowed_kept [] (get_product_by_id product_id) st
                  (only_writes_by_id [] product_id) (fun x => x) (fun x => x) Hin)
      as Hin1.
    destruct (get_product_by_id product_id st) as [[product | e] st1]; cbn [snd] in Hin1;
      [| exact Hin1].
    unfold bindM at 1, lift at 1.
    destruct (getitem product "last_forecast_version") as [version |]; [| exact Hin1].
    destruct (truthy version); [now apply IH |].
    unfold bindM at 1, lift at 1.
    destruct (getitem product "dss_fpart") as [f_part |]; [| exact Hin1].
    unfold bindM at 1, lift at 1.
    destruct (get_existing_precip_data_range dss_path b_part f_part)
      as [[[data_start |] [data_end |]] |] eqn:Hrange; try exact Hin1.
    destruct (stored_range_valid _ _ _ _ _ Hrange) as [Vs Ve].
    destruct (shrink after before data_start data_end) as [after' before'] eqn:Hs.
    destruct (shrink_inwards _ _ _ _ _ _ Hs) as [Ha' Hb'].
    assert (Va' : valid after' = true) by (destruct Ha' as [-> | [-> _]]; assumption).
    assert (Vb' : valid before' = true) by (destruct Hb' as [-> | [-> _]]; assumption).
    assert (La' : to_seconds a <= to_seconds after')
      by (destruct Ha' as [-> | [-> ?]]; lia).
    assert (Lb' : to_seconds before' <= to_seconds b)
      by (destruct Hb' as [-> | [-> ?]]; lia).
    unfold bindM at 1, lift at 1.
    destruct (strftime after' ISO_FORMAT) as [after_text |] eqn:Wa; [| exact Hin1].
    pose proof (strftime_read _ _ Va' Wa) as Ra.
    unfold bindM at 1.
    pose proof (narrowed_after st1 after' after_text Hin1 Ra La') as Hin2.
    destruct (config_set "After" (JStr after_text) st1) as [[[] | e] st2];
      cbn [snd] in Hin2; [| exact Hin2].
    unfold bindM at 1, lift at 1.
    destruct (strftime before' ISO_FORMAT) as [before_text |] eqn:Wb; [| exact Hin2].
    pose proof (strftime_read _ _ Vb' Wb) as Rb.
    unfold bindM at 1.
    pose proof (narrowed_before st2 before' before_text Hin2 Rb Lb') as Hin3.
    destruct (config_set "Before" (JStr before_text) st2) as [[[] | e] st3];
      cbn [snd] in Hin3; [| exact Hin3].
    now apply IH.
Qed.

Lemma adjust_dates_narrowed (st : state) :
  window_of st = Ok (a, b) -> bound st -> narrowed a b (snd (adjust_dates_by_cache st)).
Proof.
  intros Hw Hbound.
  assert (Hin : narrowed a b st)
    by (split; [exact Hbound | exists a, b; split; [exact Hw | lia]]).
  apply window_of_inv in Hw. destruct Hw as (ta & tb & Hta & Htb & Hra & Hrb).
  unfold adjust_dates_by_cache.
  unfold bindM at 1, read_configurations at 1.
  destruct (dict_config_read (cumulus_configs st)) as [config |]; [| exact Hin].
  unfold bindM at 1, config_get at 1. rewrite Hta.
  unfold bindM at 1, lift at 1. rewrite Hra.
  unfold bindM at 1, config_get at 1. rewrite Htb.
  unfold bindM at 1, lift at 1. rewrite Hrb.
  unfold bindM at 1, lift at 1.
  destruct (getitem config "dss") as [dss_path |]; [| exact Hin].
  unfold bindM at 1, lift at 1.
  destruct (getitem config "watershed_id") as [watershed_id |]; [| exact Hin].
  unfold bindM at 1.
  pose proof (narrowed_kept [] (get_watershed_by_id watershed_id) st
                (only_writes_watershed_by_id [] watershed_id) (fun x => x) (fun x => x)
                Hin) as Hin1.
  destruct (get_watershed_by_id watershed_id st) as [[watershed | e] st1];
    cbn [snd] in Hin1; [| exact Hin1].
  unfold bindM at 1, lift at 1.
  destruct (getitem watershed "name") as [b_part |]; [| exact Hin1].
  unfold bindM at 1, lift at 1.
  destruct (getitem config "product_ids") as [product_ids |]; [| exact Hin1].
  unfold bindM at 1, lift at 1.
  destruct (iterate product_ids) as [ids |]; [| exact Hin1].
  apply adjust_loop_narrowed; try assumption; try lia.
  - exact (strptime_value_valid _ _ _ Hra).
  - exact (strptime_value_valid _ _ _ Hrb).
Qed.

End Narrowing.

(** X16: [adjust_dates_by_cache] never widens the window: whatever the
    store holds and however the call ends, the window [go_config] holds
    afterwards starts no earlier and ends no later than the window it
    held at entry. *)
Theorem adjust_dates_never_widens {W : World} (st : state) (a b : datetime) :
  bound st ->
  window_of st = Ok (a, b) ->
  within a b (snd (adjust_dates_by_cache st)).
Proof.
  intros Hbound Hw. exact (proj2 (adjust_dates_narrowed a b st Hw Hbound)).
Qed.

Lemma adjust_dates_never_widens_witness :
  within (mk_datetime 2024 1 1 0 0 0) (mk_datetime 2024 1 10 0 0 0)
    (snd (adjust_dates_by_cache
            (W := scripted_world covering_days ["obs-1"] good_run) january_window)).
Proof.
  apply (adjust_dates_never_widens
           (W := scripted_world covering_days ["obs-1"] good_run) january_window).
  - unfold bound. cbn. lia.
  - vm_compute. reflexivity.
Defined.

(** ** The metadata and its cache *)

Section Metadata.

Context {W : World}.

Lemma fetching_config_dict (g : nat) (d : dict) (n : nat) (pm wm : json) (st : state) :
  fetching g d n pm wm st -> config_dict st = d.
Proof. intros (Hg & Hd & _). unfold config_dict. now rewrite Hg, Hd. Qed.

Lemma fetching_config_set (g : nat) (d : dict) (n : nat) (pm wm : json) (st : state)
    (k : string) (v : json) :
  fetching g d n pm wm st ->
  exists st2, config_set k v st = (Ok tt, st2) /\ fetching g (<[k := v]> d) n pm wm st2.
Proof.
  intros Hf. pose proof (fetching_config_dict _ _ _ _ _ _ Hf) as Hd.
  destruct Hf as (Hg & Hl & Hn & Hp & Hw).
  eexists. split; [reflexivity |].
  unfold fetching. cbn [go_config heap runs products_meta watersheds_meta set_heap].
  rewrite Hg, Hd. repeat split; try assumption.
  apply list_lookup_insert_eq. now apply lookup_lt_Some in Hl.
Qed.

Lemma fetching_go_get (g : nat) (d : dict) (n : nat) (pm wm : json) (st : state) :
  fetching g d n pm wm st ->
  exists st2,
    go_get false st =
      (Ok (Go.stdout_text (cavi_go n d), concat_strings (Go.stderr_lines (cavi_go n d))), st2)
    /\ fetching g d (S n) pm wm st2.
Proof.
  intros Hf. pose proof (fetching_config_dict _ _ _ _ _ _ Hf) as Hd.
  destruct Hf as (Hg & Hl & Hn & Hp & Hw).
  eexists. split.
  - unfold go_get, Go.get. cbn [andb]. rewrite Hd, Hn. reflexivity.
  - unfold fetching. cbn. now rewrite Hn.
Qed.

(** What a call of [get_metadata] that has to fetch does, run by run. *)
Lemma get_metadata_fetch (st : state) (r : result (json * json)) (st' : state) :
  truthy (products_meta st) && truthy (watersheds_meta st) = false ->
  bound st ->
  get_metadata st = (r, st') ->
  let flags :=
    <["Endpoint" := JStr "products"]>
      (<["Subcommand" := JStr "get"]> (<["StdOut" := JStr "true"]> (config_dict st))) in
  let first := cavi_go (runs st) flags in
  let second := cavi_go (S (runs st)) (<["Endpoint" := JStr "watersheds"]> flags) in
  go_config st' = length (heap st)
  /\ if contains "error" (concat_strings (Go.stderr_lines first)) then
       r = Raise (CumulusConnectionError (concat_strings (Go.stderr_lines first)))
       /\ fetching (go_config st) flags (S (runs st)) (products_meta st)
            (watersheds_meta st) (set_go_config (go_config st) st')
     else
       match loads (Go.stdout_text first) with
       | Raise e =>
           r = Raise e
           /\ fetching (go_config st) flags (S (runs st)) (products_meta st)
                (watersheds_meta st) (set_go_config (go_config st) st')
       | Ok products =>
           if contains "error" (concat_strings (Go.stderr_lines second)) then
             r = Raise (CumulusConnectionError (concat_strings (Go.stderr_lines second)))
             /\ fetching (go_config st) (<["Endpoint" := JStr "watersheds"]> flags)
                  (S (S (runs st))) products (watersheds_meta st)
                  (set_go_config (go_config st) st')
           else
             match loads (Go.stdout_text second) with
             | Raise e =>
                 r = Raise e
                 /\ fetching (go_config st) (<["Endpoint" := JStr "watersheds"]> flags)
                      (S (S (runs st))) products (watersheds_meta st)
                      (set_go_config (go_config st) st')
             | Ok watersheds =>
                 r = Ok (products, watersheds)
                 /\ fetching (go_config st) (<["Endpoint" := JStr "watersheds"]> flags)
                      (S (S (runs st))) products watersheds
                      (set_go_config (go_config st) st')
             end
       end.
Proof.
  intros Hun Hb Hrun flags first second.
  unfold get_metadata in Hrun. rewrite Hun in Hrun.
  unfold bindM at 1 in Hrun. cbn [report modify] in Hrun.
  unfold bindM at 1 in Hrun. cbn [deepcopy_config] in Hrun.
  unfold finally in Hrun.
  set (st1 := set_heap _ _) in Hrun.
  assert (H1 : fetching (go_config st) (config_dict st) (runs st) (products_meta st)
                 (watersheds_meta st) st1).
  { unfold fetching. subst st1. cbn. repeat split.
    unfold bound in Hb. rewrite lookup_app_l by assumption.
    unfold config_dict. destruct (heap st !! go_config st) eqn:E; [reflexivity |].
    apply lookup_ge_None in E. lia. }
  cbn [heap add_events] in Hrun.
  assert (Hfin : forall (st2 : state) g d n pm wm,
             fetching g d n pm wm st2 ->
             fetching g d n pm wm (set_go_config g (set_go_config (length (heap st)) st2))).
  { intros st2 g d n pm wm (Hg & Hl & Hn & Hp & Hw). unfold fetching. cbn.
    repeat split; assumption. }
  destruct (fetching_config_set _ _ _ _ _ _ "StdOut" (JStr "true") H1) as (st2 & E2 & H2).
  unfold bindM at 1 in Hrun. rewrite E2 in Hrun.
  destruct (fetching_config_set _ _ _ _ _ _ "Subcommand" (JStr "get") H2) as (st3 & E3 & H3).
  unfold bindM at 1 in Hrun. rewrite E3 in Hrun.
  destruct (fetching_config_set _ _ _ _ _ _ "Endpoint" (JStr "products") H3)
    as (st4 & E4 & H4).
  unfold bindM at 1 in Hrun. rewrite E4 in Hrun.
  destruct (fetching_go_get _ _ _ _ _ _ H4) as (st5 & E5 & H5).
  unfold bindM at 1 in Hrun. rewrite E5 in Hrun.
  fold flags in Hrun, H4, H5. fold first in Hrun.
  destruct (contains "error" (concat_strings (Go.stderr_lines first))).
  { cbn [raise] in Hrun. inversion Hrun; subst r st'. split; [reflexivity |].
    split; [reflexivity | now apply Hfin]. }
  unfold bindM at 1, lift at 1 in Hrun.
  destruct (loads (Go.stdout_text first)) as [products | e].
  2: { inversion Hrun; subst r st'. split; [reflexivity |].
       split; [reflexivity | now apply Hfin]. }
  unfold bindM at 1 in Hrun. cbn [modify] in Hrun.
  assert (H6 : fetching (go_config st) flags (S (runs st)) products (watersheds_meta st)
                 (set_products_meta products st5)).
  { destruct H5 as (Hg & Hl & Hn & Hp & Hw). unfold fetching. cbn. now repeat split. }
  destruct (fetching_config_set _ _ _ _ _ _ "Endpoint" (JStr "watersheds") H6)
    as (st7 & E7 & H7).
  unfold bindM at 1 in Hrun. rewrite E7 in Hrun.
  destruct (fetching_go_get _ _ _ _ _ _ H7) as (st8 & E8 & H8).
  unfold bindM at 1 in Hrun. rewrite E8 in Hrun.
  fold second in Hrun.
  destruct (contains "error" (concat_strings (Go.stderr_lines second))).
  { cbn [raise] in Hrun. inversion Hrun; subst r st'. split; [reflexivity |].
    split; [reflexivity | now apply Hfin]. }
  unfold bindM at 1, lift at 1 in Hrun.
  destruct (loads (Go.stdout_text second)) as [watersheds | e].
  2: { inversion Hrun; subst r st'. split; [reflexivity |].
       split; [reflexivity | now apply Hfin]. }
  unfold bindM at 1 in Hrun. cbn [modify] in Hrun.
  unfold bindM at 1 in Hrun. cbn [report modify] in Hrun.
  inversion Hrun; subst r st'. split; [reflexivity |].
  destruct H8 as (Hg & Hl & Hn & Hp & Hw).
  cbn [products_meta watersheds_meta set_watersheds_meta add_events].
  split; [now rewrite Hp |].
  unfold fetching. cbn. now repeat split.
Qed.

End Metadata.


(** The pair [get_metadata] returns is the pair of the two attributes
    afterwards. *)
Lemma metadata_returns_attributes {W : World} (st st' : state) (p w : json) :
  bound st ->
  get_metadata st = (Ok (p, w), st') ->
  products_meta st' = p /\ watersheds_meta st' = w.
Proof.
  intros Hb Hrun.
  destruct (truthy (products_meta st) && truthy (watersheds_meta st)) eqn:Hc.
  - rewrite (get_metadata_cached st Hc) in Hrun. inversion Hrun; subst. now split.
  - pose proof (get_metadata_fetch st _ st' Hc Hb Hrun) as [_ Hf]. cbv zeta in Hf.
    destruct (contains "error" _); [destruct Hf as [Hf _]; discriminate |].
    destruct (loads _) as [products |]; [| destruct Hf as [Hf _]; discriminate].
    destruct (contains "error" _); [destruct Hf as [Hf _]; discriminate |].
    destruct (loads _) as [watersheds |]; [| destruct Hf as [Hf _]; discriminate].
    destruct Hf as [Hr (_ & _ & _ & Hp & Hw)]. inversion Hr; subst. now split.
Qed.

(** X13: the pair [get_metadata] returns is the pair the two class
    attributes hold afterwards.  When both parts are non-empty the next
    call answers from them and changes nothing; when one of them is empty
    or [None] nothing is remembered, and the next call runs the worker
    again. *)
Theorem metadata_is_cached_when_nonempty {W : World} (st st' : state) (p w : json) :
  bound st ->
  get_metadata st = (Ok (p, w), st') ->
  products_meta st' = p /\ watersheds_meta st' = w
  /\ (truthy p && truthy w = true -> get_metadata st' = (Ok (p, w), st'))
  /\ (truthy p && truthy w = false -> (runs st' < runs (snd (get_metadata st')))%nat).
Proof.
  intros Hb Hrun.
  assert (Hb' : bound st') by exact (proj1 (get_metadata_rebinds _ _ _ Hb Hrun)).
  pose proof (metadata_returns_attributes _ _ _ _ Hb Hrun) as Hmeta.
  destruct Hmeta as [Hp Hw]. split; [exact Hp |]. split; [exact Hw |]. split.
  - intros Hc. rewrite get_metadata_cached; [now rewrite Hp, Hw |].
    unfold cached. now rewrite Hp, Hw.
  - intros Hc. rewrite <- Hp, <- Hw in Hc.
    destruct (get_metadata st') as [r2 st2] eqn:Hrun2.
    pose proof (get_metadata_fetch st' _ st2 Hc Hb' Hrun2) as [_ Hf]. cbv zeta in Hf.
    cbn [snd].
    repeat match type of Hf with
           | if ?c then _ else _ => destruct c
           | match ?c with Ok _ => _ | Raise _ => _ end => destruct c
           end;
      destruct Hf as [_ (_ & _ & Hn & _)]; cbn [runs set_go_config] in Hn; lia.
Qed.

Lemma metadata_is_cached_when_nonempty_witness :
  let W := scripted_world first_days ["obs-1"] good_run in
  let fetched := get_metadata (W := W) january_window in
  get_metadata (W := W) (snd fetched) = (fst fetched, snd fetched).
Proof.
  intros W fetched.
  destruct (metadata_is_cached_when_nonempty (W := W) january_window (snd fetched)
              (JArr [JObj [("id", JStr "obs-1"); ("name", JStr "MRMS QPE");
                           ("dss_fpart", JStr "MRMS-QPE"); ("last_forecast_version", JNull)];
                     JObj [("id", JStr "obs-2"); ("name", JStr "NCEP RTMA");
                           ("dss_fpart", JStr "RTMA"); ("last_forecast_version", JNull)];
                     JObj [("id", JStr "fc-1"); ("name", JStr "HRRR");
                           ("dss_fpart", JStr "HRRR");
                           ("last_forecast_version", JStr "2024-01-01T00:00:00Z")]])
              (JArr [JObj [("id", JStr "w-1"); ("name", JStr "Kanawha River");
                           ("office_symbol", JStr "LRH"); ("slug", JStr "kanawha-river")]]))
    as (_ & _ & Hagain & _).
  - unfold bound. cbn. lia.
  - vm_compute. reflexivity.
  - rewrite Hagain; [| reflexivity]. vm_compute. reflexivity.
Defined.

(** X14: what a failed fetch leaves behind.  When the worker reports an
    error on the request for the products, [get_metadata] raises
    [CumulusConnectionError] with the whole diagnostic text after one run,
    and both attributes are as they were; when it is the request for the
    watersheds that fails, the products just read are already in
    [products_meta], and [watersheds_meta] is as it was. *)
Theorem metadata_fetch_failures {W : World} (st : state) :
  bound st ->
  truthy (products_meta st) && truthy (watersheds_meta st) = false ->
  let flags :=
    <["Endpoint" := JStr "products"]>
      (<["Subcommand" := JStr "get"]> (<["StdOut" := JStr "true"]> (config_dict st))) in
  let first := cavi_go (runs st) flags in
  let second := cavi_go (S (runs st)) (<["Endpoint" := JStr "watersheds"]> flags) in
  let st' := snd (get_metadata st) in
  (contains "error" (concat_strings (Go.stderr_lines first)) = true ->
   fst (get_metadata st)
     = Raise (CumulusConnectionError (concat_strings (Go.stderr_lines first)))
   /\ products_meta st' = products_meta st
   /\ watersheds_meta st' = watersheds_meta st
   /\ runs st' = S (runs st))
  /\ (forall products,
        contains "error" (concat_strings (Go.stderr_lines first)) = false ->
        loads (Go.stdout_text first) = Ok products ->
        contains "error" (concat_strings (Go.stderr_lines second)) = true ->
        fst (get_metadata st)
          = Raise (CumulusConnectionError (concat_strings (Go.stderr_lines second)))
        /\ products_meta st' = products
        /\ watersheds_meta st' = watersheds_meta st
        /\ runs st' = S (S (runs st))).
Proof.
  intros Hb Hc flags first second st'. subst st'.
  destruct (get_metadata st) as [r st'] eqn:Hrun. cbn [fst snd].
  pose proof (get_metadata_fetch st _ st' Hc Hb Hrun) as [_ Hf]. cbv zeta in Hf.
  fold flags in Hf. fold first in Hf. fold second in Hf.
  split.
  - intros He. rewrite He in Hf.
    destruct Hf as [Hr (_ & _ & Hn & Hp & Hw)]. now repeat split.
  - intros products He Hl He2. rewrite He, Hl, He2 in Hf.
    destruct Hf as [Hr (_ & _ & Hn & Hp & Hw)]. now repeat split.
Qed.

Lemma metadata_fetch_failures_witness :
  fst (get_metadata (W := offline_world) january_window)
    = Raise (CumulusConnectionError "error::connection refused")
  /\ products_meta (snd (get_metadata (W := offline_world) january_window)) = JNull
  /\ watersheds_meta (snd (get_metadata (W := offline_world) january_window)) = JNull
  /\ runs (snd (get_metadata (W := offline_world) january_window)) = 1%nat.
Proof.
  apply (proj1 (metadata_fetch_failures (W := offline_world) january_window
                  ltac:(unfold bound; cbn; lia) eq_refl)).
  reflexivity.
Defined.

(** X15: [go_configuration] keeps the caller's dictionary, not a copy,
    and a fetch by [get_metadata] writes into it: afterwards that
    dictionary holds [StdOut], [Subcommand] and [Endpoint] of the metadata
    request, its other keys as they were, while [go_config] names another
    dictionary, with the content the caller's had before the call. *)
Theorem go_configuration_by_reference {W : World} (st : state) (dict_ : nat) (d : dict) :
  heap st !! dict_ = Some d ->
  truthy (products_meta st) && truthy (watersheds_meta st) = false ->
  let st' := snd ((go_configuration dict_ ;; get_metadata) st) in
  go_config st' <> dict_
  /\ config_dict st' = d
  /\ exists d' : dict,
       heap st' !! dict_ = Some d'
       /\ d' !! "StdOut" = Some (JStr "true")
       /\ d' !! "Subcommand" = Some (JStr "get")
       /\ (d' !! "Endpoint" = Some (JStr "products")
           \/ d' !! "Endpoint" = Some (JStr "watersheds"))
       /\ forall k, ~ In k ["StdOut"; "Subcommand"; "Endpoint"] -> d' !! k = d !! k.
Proof.
  intros Hd Hc st'. subst st'. unfold bindM. cbn [go_configuration modify].
  set (st0 := set_go_config dict_ st).
  assert (Hb : bound st0) by (unfold bound; cbn; now apply lookup_lt_Some in Hd).
  assert (Hd0 : config_dict st0 = d) by (unfold config_dict; cbn; now rewrite Hd).
  destruct (get_metadata st0) as [r st'] eqn:Hrun. cbn [snd].
  destruct (get_metadata_rebinds _ _ _ Hb Hrun) as [_ Hview].
  pose proof (get_metadata_fetch st0 _ st' Hc Hb Hrun) as [Hg Hf]. cbv zeta in Hf.
  rewrite Hd0 in Hf. cbn [go_config heap set_go_config st0] in Hg, Hf.
  split; [| split].
  - rewrite Hg. apply lookup_lt_Some in Hd. lia.
  - now rewrite Hview.
  - assert (Hkeys : forall (k : string) (v1 v2 v3 v4 : json),
               ~ In k ["StdOut"; "Subcommand"; "Endpoint"] ->
               (<["Endpoint" := v4]> (<["Endpoint" := v3]>
                  (<["Subcommand" := v2]> (<["StdOut" := v1]> d)))) !! k = d !! k
               /\ (<["Endpoint" := v3]>
                     (<["Subcommand" := v2]> (<["StdOut" := v1]> d))) !! k = d !! k).
    { intros k v1 v2 v3 v4 Hk. cbn in Hk.
      rewrite !lookup_insert_ne by (intros <-; tauto). now split. }
    repeat match type of Hf with
           | if ?c then _ else _ => destruct c
           | match ?c with Ok _ => _ | Raise _ => _ end => destruct c
           end;
      destruct Hf as [_ (_ & Hl & _)]; cbn [heap set_go_config] in Hl;
      eexists; (split; [exact Hl |]);
      (split; [now rewrite ?(lookup_insert_ne _ "Endpoint" "StdOut") by discriminate;
                   rewrite ?(lookup_insert_ne _ "Subcommand" "StdOut") by discriminate;
                   rewrite lookup_insert_eq |]);
      (split; [now rewrite ?(lookup_insert_ne _ "Endpoint" "Subcommand") by discriminate;
                   rewrite lookup_insert_eq |]);
      (split; [rewrite lookup_insert_eq; tauto |]);
      intros k Hk; apply (Hkeys k _ _ _ (JStr "watersheds") Hk).
Qed.

Lemma go_configuration_by_reference_witness :
  let st' := snd ((go_configuration 0%nat ;; get_metadata (W := offline_world))
                    january_window) in
  go_config st' <> 0%nat.
Proof.
  intros st'.
  destruct (go_configuration_by_reference (W := offline_world) january_window 0%nat
              {[ "After" := JStr "2024-01-01T00:00:00Z"; "Before" := JStr "2024-01-10T00:00:00Z";
                 "Scheme" := JStr "https"; "Host" := JStr "cumulus-api.example" ]})
    as [Hg _].
  - reflexivity.
  - reflexivity.
  - exact Hg.
Defined.


(** ** The lookups in the metadata *)

(** What the loop of the lookups by one field returns when it returns. *)
Lemma find_by_first (key : string) (x : json) (l : list json) (r : json) :
  find_by key x l = Ok r -> first_with key x l r.
Proof.
  unfold first_with. induction l as [|item rest IH]; cbn [find_by].
  - intros [= <-]. left. split; [reflexivity | constructor].
  - destruct (getitem item key) as [v |] eqn:Hv; cbn [bind]; [| discriminate].
    destruct (Json.eqb v x) eqn:He.
    + intros [= <-]. right. exists [], rest, v. repeat split; try assumption. constructor.
    + intros Hr. destruct (IH Hr) as [[-> Hall] | (pre & post & v' & -> & Hv' & He' & Hall)].
      * left. split; [reflexivity |]. constructor; [now exists v | exact Hall].
      * right. exists (item :: pre), post, v'. repeat split; try assumption.
        constructor; [now exists v | exact Hall].
Qed.

(** X11: when a lookup by one field returns, it returns the first item of
    the metadata whose field equals the value asked for, or [None] when
    every item has the field and none equals it: [get_product_by_id] and
    [get_product] in what [products_meta] holds afterwards, by [id] and by
    [name], [get_watershed_by_id] in [watersheds_meta], by [id]. *)
Theorem lookups_return_first_match {W : World} (st st' : state) (x r : json) :
  bound st ->
  (get_product_by_id x st = (Ok r, st') ->
   exists l, iterate (products_meta st') = Ok l /\ first_with "id" x l r)
  /\ (get_product x st = (Ok r, st') ->
      exists l, iterate (products_meta st') = Ok l /\ first_with "name" x l r)
  /\ (get_watershed_by_id x st = (Ok r, st') ->
      exists l, iterate (watersheds_meta st') = Ok l /\ first_with "id" x l r).
Proof.
  intros Hb.
  unfold get_product_by_id, get_product, get_watershed_by_id.
  repeat split; unfold bindM at 1;
    (destruct (get_metadata st) as [[[products watersheds] | e] st1] eqn:Hrun;
     [| discriminate]);
    destruct (metadata_returns_attributes _ _ _ _ Hb Hrun) as [Hp Hw];
    unfold bindM, lift.
  - destruct (iterate products) as [l |] eqn:Hl; [| discriminate].
    intros Hr. inversion Hr as [[Hfind Hst]]. subst st1.
    exists l. split; [now rewrite Hp |]. now apply find_by_first.
  - destruct (iterate products) as [l |] eqn:Hl; [| discriminate].
    intros Hr. inversion Hr as [[Hfind Hst]]. subst st1.
    exists l. split; [now rewrite Hp |]. now apply find_by_first.
  - destruct (iterate watersheds) as [l |] eqn:Hl; [| discriminate].
    intros Hr. inversion Hr as [[Hfind Hst]]. subst st1.
    exists l. split; [now rewrite Hw |]. now apply find_by_first.
Qed.

Lemma lookups_return_first_match_witness :
  let W := scripted_world first_days ["obs-1"] good_run in
  let st' := snd (get_product_by_id (W := W) (JStr "obs-2") january_window) in
  exists l,
    iterate (products_meta st') = Ok l
    /\ first_with "id" (JStr "obs-2") l
         (JObj [("id", JStr "obs-2"); ("name", JStr "NCEP RTMA");
                ("dss_fpart", JStr "RTMA"); ("last_forecast_version", JNull)]).
Proof.
  intros W st'.
  apply (proj1 (lookups_return_first_match (W := W) january_window st' (JStr "obs-2") _
                  ltac:(unfold bound; cbn; lia))).
  vm_compute. reflexivity.
Defined.

(** X12: when [get_watershed] returns, it returns the first watershed of
    [watersheds_meta] whose office and name both equal those asked for,
    or [None] when there is none; of a watershed of another office only
    the office is read. *)
Theorem get_watershed_first_match {W : World} (st st' : state) (office name r : json) :
  bound st ->
  get_watershed office name st = (Ok r, st') ->
  exists l,
    iterate (watersheds_meta st') = Ok l
    /\ ((r = JNull /\ Forall (other_watershed office name) l)
        \/ exists pre post o n,
             l = pre ++ r :: post
             /\ getitem r "office_symbol" = Ok o /\ Json.eqb o office = true
             /\ getitem r "name" = Ok n /\ Json.eqb n name = true
             /\ Forall (other_watershed office name) pre).
Proof.
  intros Hb. unfold get_watershed. unfold bindM at 1.
  destruct (get_metadata st) as [[[products watersheds] | e] st1] eqn:Hrun; [| discriminate].
  destruct (metadata_returns_attributes _ _ _ _ Hb Hrun) as [_ Hw].
  unfold bindM, lift.
  destruct (iterate watersheds) as [l |] eqn:Hl; [| discriminate].
  intros Hr. inversion Hr as [[Hfind Hst]]. subst st1.
  exists l. split; [now rewrite Hw |].
  clear - Hfind. induction l as [|item rest IH]; cbn [find_watershed] in Hfind.
  - inversion Hfind; subst. left. split; [reflexivity | constructor].
  - destruct (getitem item "office_symbol") as [o |] eqn:Ho; cbn [bind] in Hfind;
      [| discriminate].
    assert (Hnext : other_watershed office name item ->
              find_watershed office name rest = Ok r ->
              (r = JNull /\ Forall (other_watershed office name) (item :: rest))
              \/ exists pre post o n,
                   item :: rest = pre ++ r :: post
                   /\ getitem r "office_symbol" = Ok o /\ Json.eqb o office = true
                   /\ getitem r "name" = Ok n /\ Json.eqb n name = true
                   /\ Forall (other_watershed office name) pre).
    { intros Hother Hrest.
      destruct (IH Hrest) as [[-> Hall] | (pre & post & o' & n' & -> & H1 & H2 & H3 & H4 & Hall)].
      - left. split; [reflexivity | now constructor].
      - right. exists (item :: pre), post, o', n'. repeat split; try assumption.
        now constructor. }
    destruct (Json.eqb o office) eqn:Eo.
    + destruct (getitem item "name") as [n |] eqn:Hn; cbn [bind] in Hfind; [| discriminate].
      destruct (Json.eqb n name) eqn:En.
      * inversion Hfind; subst. right. exists [], rest, o, n.
        repeat split; try assumption. constructor.
      * apply Hnext; [| exact Hfind]. exists o. split; [exact Ho |]. right.
        split; [exact Eo |]. now exists n.
    + apply Hnext; [| exact Hfind]. exists o. split; [exact Ho |]. now left.
Qed.

Lemma get_watershed_first_match_witness :
  let W := scripted_world first_days ["obs-1"] good_run in
  let st' := snd (get_watershed (W := W) (JStr "LRH") (JStr "Kanawha River") january_window) in
  exists l, iterate (watersheds_meta st') = Ok l.
Proof.
  intros W st'.
  destruct (get_watershed_first_match (W := W) january_window st' (JStr "LRH")
              (JStr "Kanawha River")
              (JObj [("id", JStr "w-1"); ("name", JStr "Kanawha River");
                     ("office_symbol", JStr "LRH"); ("slug", JStr "kanawha-river")]))
    as (l & Hl & _).
  - unfold bound. cbn. lia.
  - vm_compute. reflexivity.
  - now exists l.
Defined.


(** ** Where the scan of the store stops *)

(** X19: the scan of [adjust_dates_by_cache] passes over the forecast
    products and ends at the first observed product for which the store
    holds no range: nothing is written, and the products after it are
    not looked at, whatever the store holds of them. *)
Theorem scan_stops_at_first_gap {W : World} (st : state) (l : list json)
    (dss_path b_part : json) (forecasts rest : list json) (observed : json)
    (after before : datetime) (product version f_part : json)
    (data_start data_end : option datetime) :
  cached st ->
  iterate (products_meta st) = Ok l ->
  Forall (skipped l) forecasts ->
  find_by "id" observed l = Ok product ->
  getitem product "last_forecast_version" = Ok version ->
  truthy version = false ->
  getitem product "dss_fpart" = Ok f_part ->
  get_existing_precip_data_range dss_path b_part f_part = Ok (data_start, data_end) ->
  data_start = None \/ data_end = None ->
  adjust_loop dss_path b_part (forecasts ++ observed :: rest) after before st = (Ok tt, st).
Proof.
  intros Hc Hl Hskip Hp Hv Ht Hf Hr Hnone.
  induction Hskip as [|id ids (p & v & Hp' & Hv' & Ht') _ IH].
  - cbn [app adjust_loop]. unfold bindM at 1.
    rewrite (get_product_by_id_cached st l observed Hc Hl), Hp.
    unfold bindM at 1, lift at 1. rewrite Hv, Ht.
    unfold bindM at 1, lift at 1. rewrite Hf.
    unfold bindM at 1, lift at 1. rewrite Hr.
    destruct Hnone as [-> | ->]; [reflexivity | now destruct data_start].
  - cbn [app adjust_loop]. unfold bindM at 1.
    rewrite (get_product_by_id_cached st l id Hc Hl), Hp'.
    unfold bindM at 1, lift at 1. rewrite Hv', Ht'. exact IH.
Qed.

Lemma scan_stops_at_first_gap_witness :
  let W := scripted_world first_days ["fc-1"; "obs-2"; "obs-1"] good_run in
  let st := snd (get_metadata (W := W) january_window) in
  adjust_loop (W := W) (JStr "grid.dss") (JStr "Kanawha River")
    ([JStr "fc-1"] ++ JStr "obs-2" :: [JStr "obs-1"])
    (mk_datetime 2024 1 1 0 0 0) (mk_datetime 2024 1 10 0 0 0) st = (Ok tt, st).
Proof.
  intros W st.
  eapply (scan_stops_at_first_gap (W := W) st _ (JStr "grid.dss") (JStr "Kanawha River")
            [JStr "fc-1"] [JStr "obs-1"] (JStr "obs-2") _ _ _ JNull (JStr "RTMA") None None).
  - vm_compute. reflexivity.
  - vm_compute. reflexivity.
  - constructor; [| constructor]. eexists _, (JStr "2024-01-01T00:00:00Z").
    repeat split; vm_compute; reflexivity.
  - vm_compute. reflexivity.
  - vm_compute. reflexivity.
  - reflexivity.
  - vm_compute. reflexivity.
  - vm_compute. reflexivity.
  - now left.
Defined.

(** ** The end of the stream, and the answer of the provider *)

Section Stream.

Context {store : Type} {H : Hec store}.

Lemma main_loop_tail (bytes tail : string) :
  contains "}" tail = false ->
  forall (byte_array : string) (st : script store),
    main_loop (bytes ++ tail) byte_array st = main_loop bytes byte_array st.
Proof.
  intros Hno. induction bytes as [|b bytes IH]; intros byte_array st.
  - cbn [String.append]. rewrite <- (append_empty_r tail) at 1.
    now rewrite (main_loop_gather _ _ _ _ Hno).
  - cbn [String.append main_loop]. destruct (Ascii.eqb b "}").
    + destruct (handle (snoc byte_array b) st) as [[[] | e] st']; [apply IH | reflexivity].
    + apply IH.
Qed.

(** X20: what follows the last closing brace of the stream is dropped
    without a word: the bytes of a record cut short, or a line of the
    worker that holds no brace, are neither decoded nor printed, and the
    run ends as it would without them. *)
Theorem stream_tail_is_dropped (bytes tail : string) (file : store) :
  contains "}" tail = false ->
  ingest (bytes ++ tail) file = ingest bytes file
  /\ ingest tail file = (Ok tt, Build_script file []).
Proof.
  intros Hno. unfold ingest. split.
  - now apply main_loop_tail.
  - rewrite <- (append_empty_r tail).
    now rewrite (main_loop_gather _ _ _ _ Hno).
Qed.

(** X21: an object of the stream that has a member [message] ends the
    run: the loop prints its text and raises [Exception] with the
    message; nothing is written for it, and what follows it in the stream
    is not read. *)
Theorem message_object_ends_the_run (body rest : string) (st : script store)
    (members : list (string * json)) (message : json) :
  contains "}" body = false ->
  Json.loads (body ++ "}") = Ok (JObj members) ->
  Json.lookup "message" members = Some message ->
  main_loop (body ++ "}" ++ rest) EmptyString st
    = (Raise (Exception_ (Json.format message)), print (Text (body ++ "}")) st).
Proof.
  intros Hno Hl Hm. rewrite (main_loop_record _ _ _ _ Hno).
  cbn [String.append]. unfold handle. now rewrite Hl, Hm.
Qed.

(** X23: a record whose list of times is empty is never written:
    [put_to_dss] raises, whatever the library answers, and leaves the
    file and the output as they were. *)
Theorem put_to_dss_empty_times (members : list (string * json)) (st : script store) :
  Json.lookup "times" members = Some (JArr []) ->
  exists e, put_to_dss (JObj members) st = (Raise e, st).
Proof.
  intros Ht. unfold put_to_dss.
  assert (Hm : exists e, make_series (JObj members) = Raise e).
  { unfold make_series.
    destruct (namedtuple (JObj members)) as [Site |] eqn:Hn; cbn [bind]; [| eauto].
    assert (Site = members) as ->.
    { cbn [namedtuple] in Hn. destruct (forallb _ members); now inversion Hn. }
    destruct (attr members "code") as [code |]; cbn [bind]; [| eauto].
    destruct (usgs_lookup code) as [[[[parameter unit] data_type] version] |];
      cbn [bind]; [| eauto].
    unfold attr at 1. rewrite Ht. cbn [bind iterate map_result].
    destruct (get_epart_from_interval_minutes _) as [epart |]; cbn [bind]; [| eauto].
    destruct (attr members "site_number") as [site_number |]; cbn [bind]; [| eauto].
    destruct (inner _) as [|? [|? [|? [|? [|? [|? [|? ?]]]]]]]; eauto.
    destruct (attr members "values"); cbn [bind]; [| eauto].
    cbn [bind len index nth_error]. eauto. }
  destruct Hm as [e ->]. now exists e.
Qed.

End Stream.

Lemma stream_tail_is_dropped_witness :
  ingest (H := scripted_hec []) "error: connection refused" [] = (Ok tt, Build_script [] []).
Proof.
  apply (stream_tail_is_dropped (H := scripted_hec []) EmptyString
           "error: connection refused" []).
  reflexivity.
Defined.

Lemma message_object_ends_the_run_witness :
  fst (main_loop (H := scripted_hec [])
         (q "{'message':'not found'" ++ "}" ++ stage_record) EmptyString (Build_script [] []))
    = Raise (Exception_ "not found").
Proof.
  rewrite (message_object_ends_the_run (H := scripted_hec []) (q "{'message':'not found'")
             stage_record (Build_script [] []) [("message", JStr "not found")]
             (JStr "not found")); reflexivity.
Defined.

Lemma put_to_dss_empty_times_witness :
  exists e,
    put_to_dss (H := scripted_hec []) (falls_site []) (Build_script [] [])
      = (Raise e, Build_script [] []).
Proof.
  apply (put_to_dss_empty_times (H := scripted_hec [])). reflexivity.
Defined.

(** ** The slug of the watershed *)

Lemma to_lower_plain (c : ascii) :
  is_space c || Ascii.eqb c "_" = false ->
  is_space (to_lower c) || Ascii.eqb (to_lower c) "_" || is_upper (to_lower c) = false.
Proof.
  destruct c as [[] [] [] [] [] [] [] []]; intros Hc; try discriminate; reflexivity.
Qed.

Lemma hyphenate_plain (s : string) :
  forall in_space,
    all_chars (fun c => negb (is_space c || Ascii.eqb c "_")) (hyphenate in_space s) = true.
Proof.
  induction s as [|c s IH]; intros in_space; [reflexivity |].
  cbn [hyphenate]. destruct (is_space c) eqn:Es.
  - destruct in_space; [apply IH |]. cbn [all_chars]. now rewrite IH.
  - destruct (Ascii.eqb c "_") eqn:Eu.
    + cbn [all_chars]. now rewrite IH.
    + cbn [all_chars]. rewrite Es, Eu, IH. reflexivity.
Qed.

Lemma lower_plain (s : string) :
  all_chars (fun c => negb (is_space c || Ascii.eqb c "_")) s = true ->
  all_chars (fun c => negb (is_space c || Ascii.eqb c "_" || is_upper c)) (lower s) = true.
Proof.
  induction s as [|c s IH]; [reflexivity |].
  cbn [all_chars lower]. intros Hall. apply andb_true_iff in Hall. destruct Hall as [Hc Hs].
  apply negb_true_iff in Hc. now rewrite (to_lower_plain c Hc), (IH Hs).
Qed.

Lemma slug_fixed (s : string) :
  all_chars (fun c => negb (is_space c || Ascii.eqb c "_" || is_upper c)) s = true ->
  forall in_space, lower (hyphenate in_space s) = s.
Proof.
  induction s as [|c s IH]; [reflexivity |].
  cbn [all_chars]. intros Hall in_space.
  apply andb_true_iff in Hall. destruct Hall as [Hc Hs].
  apply negb_true_iff, orb_false_iff in Hc. destruct Hc as [Hc Hu].
  apply orb_false_iff in Hc. destruct Hc as [Hsp Hun].
  cbn [hyphenate]. rewrite Hsp, Hun. cbn [lower]. rewrite (IH Hs).
  unfold to_lower. now rewrite Hu.
Qed.

(** X22: the slug of a watershed name holds no white space, no
    underscore and no capital letter, and the slug of a slug is the slug
    itself. *)
Theorem ws_name_slug_is_plain (ws_name : string) :
  all_chars (fun c => negb (is_space c || Ascii.eqb c "_" || is_upper c))
    (ws_name_slug ws_name) = true
  /\ ws_name_slug (ws_name_slug ws_name) = ws_name_slug ws_name.
Proof.
  assert (Hplain : all_chars (fun c => negb (is_space c || Ascii.eqb c "_" || is_upper c))
                     (ws_name_slug ws_name) = true)
    by (unfold ws_name_slug; apply lower_plain, hyphenate_plain).
  split; [exact Hplain |].
  unfold ws_name_slug at 1. now apply slug_fixed.
Qed.
